(** * Node-resources analyzer and preflight file lookup: a shallow embedding

    The development follows the Go sources:
    - [pkg/analyze] [analyzeNodeResources], [compareNodeResourceConditionalToActual],
      [getQuantity], [findSum], [findMin], [findMax], [nodeMatchesFilters],
      [checkDeployment];
    - [pkg/preflight/analyze.go] the closure [getChildCollectedFileContents]
      of [Analyze].

    Go library functions the analyzer calls ([strings.Fields],
    [strings.TrimSpace], [strconv.Atoi], [strconv.Itoa], the compiled regular
    expression, [strings.HasPrefix]) are given executable models in the first
    module.  The Kubernetes [resource.Quantity] type, the JSON decoder and
    [filepath] are interfaces the development is parametric in. *)

From Stdlib Require Import ZArith String Ascii List Bool Lia DecimalString.
From stdpp Require Import base option list gmap strings fin_maps.

Import ListNotations.
Local Open Scope Z_scope.
Local Open Scope string_scope.
Local Open Scope list_scope.

(* ===================================================================== *)
(** ** Go library functions used by the analyzer                          *)
(* ===================================================================== *)

Module Go.

(** A Go [string] is a sequence of bytes; Rocq's [string] is the same. *)

Definition byte_is (c : ascii) (n : N) : bool := N.eqb (N_of_ascii c) n.

Definition byte_in (c : ascii) (lo hi : N) : bool :=
  N.leb lo (N_of_ascii c) && N.leb (N_of_ascii c) hi.

(** [asciiSpace] of package strings: tab, newline, vertical tab, form feed,
    carriage return and space. *)
Definition isAsciiSpace (c : ascii) : bool :=
  byte_in c 9 13 || byte_is c 32.

(** [unicode.IsSpace] on the UTF-8 encoding at the head of [s]: the number
    of bytes of the white-space rune that starts there, 0 when the head is
    not white space.  Non-ASCII white space: U+0085, U+00A0, U+1680,
    U+2000..U+200A, U+2028, U+2029, U+202F, U+205F, U+3000. *)
Definition spaceWidth (s : string) : nat :=
  match s with
  | EmptyString => 0%nat
  | String c r =>
      if isAsciiSpace c then 1%nat
      else
        match r with
        | String d r' =>
            if byte_is c 194 && (byte_is d 133 || byte_is d 160) then 2%nat
            else
              match r' with
              | String e _ =>
                  if byte_is c 225 && byte_is d 154 && byte_is e 128 then 3%nat
                  else if byte_is c 226 && byte_is d 128
                          && (byte_in e 128 138 || byte_is e 168
                              || byte_is e 169 || byte_is e 175) then 3%nat
                  else if byte_is c 226 && byte_is d 129 && byte_is e 159 then 3%nat
                  else if byte_is c 227 && byte_is d 128 && byte_is e 128 then 3%nat
                  else 0%nat
              | EmptyString => 0%nat
              end
        | EmptyString => 0%nat
        end
  end.

(** Every byte of [s] paired with whether it belongs to a white-space rune.
    [skip] counts the bytes of a multi-byte white-space rune still to come. *)
Fixpoint classify (skip : nat) (s : string) : list (ascii * bool) :=
  match s with
  | EmptyString => []
  | String c r =>
      match skip with
      | S k => (c, true) :: classify k r
      | O =>
          match spaceWidth s with
          | O => (c, false) :: classify 0 r
          | S k => (c, true) :: classify k r
          end
      end
  end.

Fixpoint splitFields (cs : list (ascii * bool)) (cur : option string) : list string :=
  match cs with
  | [] => match cur with Some w => [w] | None => [] end
  | (c, true) :: r =>
      match cur with
      | Some w => w :: splitFields r None
      | None => splitFields r None
      end
  | (c, false) :: r =>
      splitFields r (Some (match cur with
                           | Some w => String.append w (String c EmptyString)
                           | None => String c EmptyString
                           end))
  end.

(** [strings.Fields]: the maximal runs of bytes that are not white space. *)
Definition Fields (s : string) : list string := splitFields (classify 0 s) None.

Fixpoint dropSpace (cs : list (ascii * bool)) : list (ascii * bool) :=
  match cs with
  | (_, true) :: r => dropSpace r
  | _ => cs
  end.

(** [strings.TrimSpace]: leading and trailing white space removed. *)
Definition TrimSpace (s : string) : string :=
  string_of_list_ascii
    (List.map fst (List.rev (dropSpace (List.rev (dropSpace (classify 0 s)))))).

(** [strings.HasPrefix s prefix]. *)
Definition HasPrefix (s pre : string) : bool := String.prefix pre s.

(** Go's [int] on the 64-bit platforms the tool is built for. *)
Definition minInt : Z := - 2 ^ 63.
Definition maxInt : Z := 2 ^ 63 - 1.

Definition isDigit (c : ascii) : bool := byte_in c 48 57.

Fixpoint parseDigits (s : string) (acc : Z) : option Z :=
  match s with
  | EmptyString => Some acc
  | String c r =>
      if isDigit c
      then parseDigits r (10 * acc + (Z.of_N (N_of_ascii c) - 48))
      else None
  end.

(** [strconv.Atoi]: an optional sign, then one or more decimal digits, the
    value within the range of [int]; [None] stands for the returned error. *)
Definition Atoi (s : string) : option Z :=
  let '(neg, body) :=
    match s with
    | String c r =>
        if byte_is c 43 then (false, r)
        else if byte_is c 45 then (true, r)
        else (false, s)
    | EmptyString => (false, s)
    end in
  match body with
  | EmptyString => None
  | _ =>
      match parseDigits body 0 with
      | Some n =>
          let v := if neg then - n else n in
          if Z.leb minInt v && Z.leb v maxInt then Some v else None
      | None => None
      end
  end.

(** [strconv.Itoa]: decimal digits, a leading minus sign when negative. *)
Definition Itoa (n : Z) : string := NilZero.string_of_int (Z.to_int n).

(** Split a byte list around the first occurrence of [c]. *)
Fixpoint splitAtFirst (c : ascii) (l : list ascii) : option (list ascii * list ascii) :=
  match l with
  | [] => None
  | x :: r =>
      if Ascii.eqb x c then Some ([], r)
      else match splitAtFirst c r with
           | Some (before, after) => Some (x :: before, after)
           | None => None
           end
  end.

(** The compiled pattern is: group [function] (any run of characters), an
    opening parenthesis, group [property] (any run of characters), a
    closing parenthesis.  On one line: the first group is greedy, so it
    ends at the last opening parenthesis that still has a closing one
    behind it; the second group, greedy as well, ends at the last closing
    parenthesis of the line. *)
Definition submatchLine (l : list ascii) : option (string * string) :=
  match splitAtFirst ")" (List.rev l) with
  | None => None
  | Some (_, beforeRev) =>
      match splitAtFirst "(" beforeRev with
      | None => None
      | Some (propRev, funRev) =>
          Some (string_of_list_ascii (List.rev funRev),
                string_of_list_ascii (List.rev propRev))
      end
  end.

Fixpoint splitLines (l cur : list ascii) : list (list ascii) :=
  match l with
  | [] => [List.rev cur]
  | x :: r =>
      if byte_is x 10 then List.rev cur :: splitLines r []
      else splitLines r (x :: cur)
  end.

Fixpoint firstSubmatch (ls : list (list ascii)) : option (string * string) :=
  match ls with
  | [] => None
  | l :: r =>
      match submatchLine l with
      | Some m => Some m
      | None => firstSubmatch r
      end
  end.

(** [reg.FindStringSubmatch]: [None] is the nil slice; [Some (f, p)] is the
    three-element slice whose second and third elements are the groups
    [function] and [property].  A dot does not match a newline, so a match
    lies within one line, and the leftmost match starts at the beginning of
    the first line that has one. *)
Definition FindStringSubmatch (s : string) : option (string * string) :=
  firstSubmatch (splitLines (list_ascii_of_string s) []).

End Go.

(* ===================================================================== *)
(** ** Errors, panics and results                                         *)
(* ===================================================================== *)

(** The value a goroutine panics with. *)
Inductive panicValue : Type :=
| InterfaceConversion          (** a failed type assertion on an interface value *)
| NilDereference               (** a method or field reached through a nil pointer *)
| MustParseFailed (s : string) (** [resource.MustParse] on a string it cannot parse *)
| NilMapAssignment             (** an assignment to an entry of a nil map *).

(** Go [error] values. *)
Inductive error : Type :=
| New (msg : string)                                 (** [errors.New], [errors.Errorf] *)
| Wrap (cause : error) (msg : string)                (** [errors.Wrap] *)
| Recovered (conditional : string) (r : panicValue)  (** the error built from a recovered panic *)
| Foreign (msg : string)                             (** an error made outside this package *).

(** What a call does: return a value, return an error, or panic. *)
Inductive outcome (A : Type) : Type :=
| Ok (a : A)
| Err (e : error)
| Panic (r : panicValue).
Arguments Ok {A} a.
Arguments Err {A} e.
Arguments Panic {A} r.

#[global] Instance outcome_ret : MRet outcome := fun A a => Ok a.
#[global] Instance outcome_fmap : FMap outcome := fun A B f m =>
  match m with
  | Ok a => Ok (f a)
  | Err e => Err e
  | Panic r => Panic r
  end.
#[global] Instance outcome_bind : MBind outcome := fun A B f m =>
  match m with
  | Ok a => f a
  | Err e => Err e
  | Panic r => Panic r
  end.

Abbreviation bytes := (list Byte.byte).

(* ===================================================================== *)
(** ** k8s.io/apimachinery/pkg/api/resource                               *)
(* ===================================================================== *)

Module resource.

(** The operations of [resource.Quantity] the analyzer calls.  The
    [Format] field of a quantity, which only affects printing, is left
    out, so [zero] stands for every quantity literal without a value. *)
Class Lib : Type := {
  Quantity : Type;
  (** [resource.ParseQuantity]: the quantity, or the error. *)
  ParseQuantity : string -> Quantity + error;
  (** [q.Cmp(y)]: -1, 0 or 1. *)
  Cmp : Quantity -> Quantity -> Z;
  (** [q.Add(y)], as the new value of [q]. *)
  Add : Quantity -> Quantity -> Quantity;
  (** The zero value of the struct. *)
  zero : Quantity
}.

(** [resource.MustParse]: panics where [ParseQuantity] returns an error. *)
Definition MustParse `{Lib} (s : string) : outcome Quantity :=
  match ParseQuantity s with
  | inl q => Ok q
  | inr _ => Panic (MustParseFailed s)
  end.

(** A method call [p.Cmp(y)] through a pointer [p], which may be nil. *)
Definition ptrCmp `{Lib} (p : option Quantity) (y : Quantity) : outcome Z :=
  match p with
  | Some q => Ok (Cmp q y)
  | None => Panic NilDereference
  end.

End resource.

(* ===================================================================== *)
(** ** k8s.io/api/core/v1 and k8s.io/api/apps/v1                          *)
(* ===================================================================== *)

Module corev1.

(** [ResourceList] is [map[ResourceName]resource.Quantity]. *)
Abbreviation ResourceList := (gmap string resource.Quantity).

(** [rl.Name(name, defaultFormat)]: the entry, or a fresh quantity without
    a value when there is none. The result is never nil. *)
Definition Name `{resource.Lib} (rl : ResourceList) (name : string) : resource.Quantity :=
  match rl !! name with
  | Some val => val
  | None => resource.zero
  end.

Definition Cpu `{resource.Lib} (rl : ResourceList) := Name rl "cpu".
Definition Memory `{resource.Lib} (rl : ResourceList) := Name rl "memory".
Definition Pods `{resource.Lib} (rl : ResourceList) := Name rl "pods".
Definition StorageEphemeral `{resource.Lib} (rl : ResourceList) := Name rl "ephemeral-storage".

(** The fields of [corev1.Node] the analyzer reads: [node.Labels],
    [node.Status.Capacity] and [node.Status.Allocatable]. *)
Record Node `{resource.Lib} : Type := {
  Labels : gmap string string;
  Capacity : ResourceList;
  Allocatable : ResourceList
}.

End corev1.

Module appsv1.
(** The one field of [appsv1.Deployment] that is read. *)
Record Deployment : Type := { Name : string }.
End appsv1.

(* ===================================================================== *)
(** ** The analyzer's declarations (API group troubleshoot v1beta2)       *)
(* ===================================================================== *)

Module SingleOutcome.
Record t : Type := { When : string; Message : string; URI : string }.
End SingleOutcome.

Module Outcome.
(** Three pointers, each possibly nil. *)
Record t : Type := {
  Fail : option SingleOutcome.t;
  Warn : option SingleOutcome.t;
  Pass : option SingleOutcome.t
}.
End Outcome.

Module NodeResourceSelectors.
Record t : Type := { MatchLabel : gmap string string }.
End NodeResourceSelectors.

Module NodeResourceFilters.
Record t : Type := {
  CPUCapacity : string;
  CPUAllocatable : string;
  MemoryCapacity : string;
  MemoryAllocatable : string;
  PodCapacity : string;
  PodAllocatable : string;
  EphemeralStorageCapacity : string;
  EphemeralStorageAllocatable : string;
  Selector : option NodeResourceSelectors.t
}.
End NodeResourceFilters.

Module DeploymentRef.
(** [analyzer.Deployment]: the workload the rule is gated on. *)
Record t : Type := { Name : string; Namespace : string }.
End DeploymentRef.

Module AlternativeSpecs.
(** [analyzer.OnUpdate] and [analyzer.OnInstall]. *)
Record t : Type := {
  Filters : option NodeResourceFilters.t;
  Outcomes : list Outcome.t
}.
End AlternativeSpecs.

Module NodeResources.
(** The entries of [Outcomes], and of the outcomes of the two alternatives,
    are outcomes that are there; what the loop does on a slice of pointers
    with a nil entry is [selectOutcomeRefs] below. *)
Record t : Type := {
  CheckName : string;
  Outcomes : list Outcome.t;
  Filters : option NodeResourceFilters.t;
  Deployment : option DeploymentRef.t;
  OnUpdate : option AlternativeSpecs.t;
  OnInstall : option AlternativeSpecs.t
}.
End NodeResources.

Module AnalyzeResult.
Record t : Type := {
  IsPass : bool;
  IsFail : bool;
  IsWarn : bool;
  Title : string;
  Message : string;
  URI : string;
  IconKey : string;
  IconURI : string
}.

(** Assignments to single fields. *)
Definition setVerdict (pass fail warn : bool) (r : t) : t :=
  {| IsPass := pass; IsFail := fail; IsWarn := warn; Title := Title r;
     Message := Message r; URI := URI r; IconKey := IconKey r; IconURI := IconURI r |}.
Definition setIsPass (r : t) : t := setVerdict true (IsFail r) (IsWarn r) r.
Definition setIsFail (r : t) : t := setVerdict (IsPass r) true (IsWarn r) r.
Definition setIsWarn (r : t) : t := setVerdict (IsPass r) (IsFail r) true r.
Definition setTitle (s : string) (r : t) : t :=
  {| IsPass := IsPass r; IsFail := IsFail r; IsWarn := IsWarn r; Title := s;
     Message := Message r; URI := URI r; IconKey := IconKey r; IconURI := IconURI r |}.
Definition setMessage (s : string) (r : t) : t :=
  {| IsPass := IsPass r; IsFail := IsFail r; IsWarn := IsWarn r; Title := Title r;
     Message := s; URI := URI r; IconKey := IconKey r; IconURI := IconURI r |}.
Definition setURI (s : string) (r : t) : t :=
  {| IsPass := IsPass r; IsFail := IsFail r; IsWarn := IsWarn r; Title := Title r;
     Message := Message r; URI := s; IconKey := IconKey r; IconURI := IconURI r |}.
End AnalyzeResult.

(** The decoders and path functions the analyzer calls: [json.Unmarshal] at
    the two types it is used at, and [filepath.Join]. *)
Class Decoders `{resource.Lib} : Type := {
  unmarshalNodes : bytes -> list corev1.Node + error;
  unmarshalDeployments : bytes -> list appsv1.Deployment + error;
  filepathJoin : list string -> string
}.

(* ===================================================================== *)
(** ** pkg/analyze: the node-resources analyzer                           *)
(* ===================================================================== *)

Section Analyzer.
Context `{RL : resource.Lib} `{DL : !Decoders}.

Import resource corev1.

(** A Go [interface{}] holding what the comparison routine puts in its two
    dynamically typed variables: nothing, an [int], a [string], or a pointer
    to a quantity (itself possibly nil). *)
Inductive value : Type :=
| VNil
| VInt (n : Z)
| VString (s : string)
| VQuantity (p : option Quantity).

(** The type assertion [v.(int)] in its comma-ok form. *)
Definition isInt (v : value) : bool :=
  match v with VInt _ => true | _ => false end.

Definition isString (v : value) : bool :=
  match v with VString _ => true | _ => false end.

(** The type assertions in their panicking form. *)
Definition assertInt (v : value) : outcome Z :=
  match v with VInt n => Ok n | _ => Panic InterfaceConversion end.

Definition assertString (v : value) : outcome string :=
  match v with VString s => Ok s | _ => Panic InterfaceConversion end.

Definition assertQuantity (v : value) : outcome (option Quantity) :=
  match v with VQuantity p => Ok p | _ => Panic InterfaceConversion end.

Definition getQuantity (node : Node) (property : string) : option Quantity :=
  if String.eqb property "cpuCapacity" then Some (Cpu (Capacity node))
  else if String.eqb property "cpuAllocatable" then Some (Cpu (Allocatable node))
  else if String.eqb property "memoryCapacity" then Some (Memory (Capacity node))
  else if String.eqb property "memoryAllocatable" then Some (Memory (Allocatable node))
  else if String.eqb property "podCapacity" then Some (Pods (Capacity node))
  else if String.eqb property "podAllocatable" then Some (Pods (Allocatable node))
  else if String.eqb property "ephemeralStorageCapacity"
       then Some (StorageEphemeral (Capacity node))
  else if String.eqb property "ephemeralStorageAllocatable"
       then Some (StorageEphemeral (Allocatable node))
  else None.

Definition findSum (nodes : list Node) (property : string) : Quantity :=
  fold_left
    (fun sum node =>
       match getQuantity node property with
       | Some quant => Add sum quant
       | None => sum
       end)
    nodes zero.

Definition findMin (nodes : list Node) (property : string) : option Quantity :=
  fold_left
    (fun min node =>
       match getQuantity node property with
       | Some quant =>
           match min with
           | None => Some quant
           | Some m => if Z.eqb (Cmp quant m) (-1) then Some quant else min
           end
       | None => min
       end)
    nodes None.

Definition findMax (nodes : list Node) (property : string) : option Quantity :=
  fold_left
    (fun max node =>
       match getQuantity node property with
       | Some quant =>
           match max with
           | None => Some quant
           | Some m => if Z.eqb (Cmp quant m) 1 then Some quant else max
           end
       | None => max
       end)
    nodes None.

(** The [switch function] of the comparison routine: an unknown function
    name leaves [actualValue] nil. *)
Definition actualValueOf (function property : string) (matchingNodes : list Node) : value :=
  if String.eqb function "count" then VInt (Z.of_nat (length matchingNodes))
  else if String.eqb function "min" then VQuantity (findMin matchingNodes property)
  else if String.eqb function "max" then VQuantity (findMax matchingNodes property)
  else if String.eqb function "sum" then VQuantity (Some (findSum matchingNodes property))
  else VNil.

(** [actualValue.(pointer to Quantity).Cmp(resource.MustParse(s))]: the
    argument is evaluated first, so the string is parsed before the type
    assertion on [actualValue] is made and before the pointer is used. *)
Definition cmpParsed (actualValue : value) (s : outcome string) : outcome Z :=
  str ← s;
  y ← MustParse str;
  p ← assertQuantity actualValue;
  ptrCmp p y.

(** One [case] of the [switch operator]: the five cases have the same
    shape and differ in the integer relation [intRel] and in the test
    [cmpTest] on the result of [Cmp] (where the source writes the call twice,
    as in [Cmp(..) == 0 || Cmp(..) == -1], both calls are the same call on
    the same arguments). *)
Definition compareCase (intRel : Z -> Z -> bool) (cmpTest : Z -> bool)
    (actualValue desiredValue : value) : outcome bool :=
  if isInt actualValue && isInt desiredValue then
    a ← assertInt actualValue;
    d ← assertInt desiredValue;
    Ok (intRel a d)
  else if isString desiredValue then
    cmpTest <$> cmpParsed actualValue (assertString desiredValue)
  else
    cmpTest <$> cmpParsed actualValue (Go.Itoa <$> assertInt desiredValue).

(** The tokens of a conditional: [strings.Fields] of the trimmed string,
    with ["count"] put in front when there are two. *)
Definition partsOf (conditional : string) : list string :=
  let parts := Go.Fields (Go.TrimSpace conditional) in
  if Nat.eqb (length parts) 2 then "count" :: parts else parts.

(** The two attempts to match the pattern: on the first token, and when
    that gives nil on the string formatted from ["count() == %s"]. *)
Definition matchOf (part0 : string) : option (string * string) :=
  match Go.FindStringSubmatch part0 with
  | Some m => Some m
  | None => Go.FindStringSubmatch (String.append "count() == " part0)
  end.

(** [desiredValue]: the third token, replaced by the integer when
    [strconv.Atoi] accepts it. *)
Definition desiredValueOf (part2 : string) : value :=
  match Go.Atoi part2 with
  | Some parsedDesiredValue => VInt parsedDesiredValue
  | None => VString part2
  end.

(** The body of [compareNodeResourceConditionalToActual], before the
    deferred function runs. *)
Definition compareBody (conditional : string) (matchingNodes : list Node)
    (totalNodeCount : Z) : outcome bool :=
  if String.eqb conditional "" then Ok true
  else
    match partsOf conditional with
    | [part0; operator; part2] =>
        let desiredValue := desiredValueOf part2 in
        match matchOf part0 with
        | None => Err (New "conditional does not match pattern of function(property?)")
        | Some (function, property) =>
            let actualValue := actualValueOf function property matchingNodes in
            if String.eqb operator "=" || String.eqb operator "=="
               || String.eqb operator "===" then
              compareCase Z.eqb (fun c => Z.eqb c 0) actualValue desiredValue
            else if String.eqb operator "<" then
              compareCase Z.ltb (fun c => Z.eqb c (-1)) actualValue desiredValue
            else if String.eqb operator ">" then
              compareCase Z.gtb (fun c => Z.eqb c 1) actualValue desiredValue
            else if String.eqb operator "<=" then
              compareCase Z.leb (fun c => Z.eqb c 0 || Z.eqb c (-1)) actualValue desiredValue
            else if String.eqb operator ">=" then
              compareCase Z.geb (fun c => Z.eqb c 0 || Z.eqb c 1) actualValue desiredValue
            else Err (New "unexpected conditional in nodeResources")
        end
    | _ => Err (New "unable to parse nodeResources conditional")
    end.

(** The deferred function recovers a panic of the body and puts an error in
    the named result [err]; [res] is still false then. *)
Definition compareNodeResourceConditionalToActual (conditional : string)
    (matchingNodes : list Node) (totalNodeCount : Z) : outcome bool :=
  match compareBody conditional matchingNodes totalNodeCount with
  | Panic r => Err (Recovered conditional r)
  | res => res
  end.

(** The loop over [filters.Selector.MatchLabel].  Go visits the entries of a
    map in an order it does not specify; [kvs] lists them in the order of
    one run. *)
Fixpoint matchLabels (kvs : list (string * string)) (labels : gmap string string)
    : outcome unit :=
  match kvs with
  | [] => Ok tt
  | (k, v) :: rest =>
      match labels !! k with
      | Some l =>
          if String.eqb l v then matchLabels rest labels
          else Err (New (String.append "failed to match label " k))
      | None => Err (New (String.append "failed to match label " k))
      end
  end.

(** One threshold block of [nodeMatchesFilters]; [rest] is the code after
    the block. *)
Definition threshold (bound : string) (actual : Quantity) (msg : string)
    (rest : outcome bool) : outcome bool :=
  if String.eqb bound "" then rest
  else
    match ParseQuantity bound with
    | inr err => Err (Wrap err msg)
    | inl parsed => if Z.eqb (Cmp actual parsed) (-1) then Ok false else rest
    end.

Definition nodeMatchesFilters (node : Node) (filters : option NodeResourceFilters.t)
    : outcome bool :=
  match filters with
  | None => Ok true
  | Some filters =>
      _ ← match NodeResourceFilters.Selector filters with
          | Some selector =>
              matchLabels (map_to_list (NodeResourceSelectors.MatchLabel selector))
                          (Labels node)
          | None => Ok tt
          end;
      threshold (NodeResourceFilters.CPUCapacity filters) (Cpu (Capacity node))
        "failed to parse cpu capacity" (
      threshold (NodeResourceFilters.CPUAllocatable filters) (Cpu (Allocatable node))
        "failed to parse cpu allocatable" (
      threshold (NodeResourceFilters.MemoryCapacity filters) (Memory (Capacity node))
        "failed to parse memory capacity" (
      threshold (NodeResourceFilters.MemoryAllocatable filters) (Memory (Allocatable node))
        "failed to parse memory allocatable" (
      threshold (NodeResourceFilters.PodCapacity filters) (Pods (Capacity node))
        "failed to parse pod capacity" (
      threshold (NodeResourceFilters.PodAllocatable filters) (Pods (Allocatable node))
        "failed to parse pod allocatable" (
      threshold (NodeResourceFilters.EphemeralStorageCapacity filters)
        (StorageEphemeral (Capacity node))
        "failed to parse ephemeralstorage capacity" (
      threshold (NodeResourceFilters.EphemeralStorageAllocatable filters)
        (StorageEphemeral (Allocatable node))
        "failed to parse ephemeralstorage allocatable" (
      Ok true))))))))
  end.

(** The callback the analyzer is given to read a collected file. *)
Definition fileReader : Type := string -> outcome bytes.

Definition checkDeployment (analyzer : NodeResources.t)
    (getCollectedFileContents : fileReader) : outcome bool :=
  match NodeResources.Deployment analyzer with
  | None => Panic NilDereference
  | Some deployment =>
      match getCollectedFileContents
              (filepathJoin ["cluster-resources"; "deployments";
                             String.append (DeploymentRef.Namespace deployment) ".json"]) with
      | Panic r => Panic r
      | Err err => Err (Wrap err "failed to read collected deployments from namespace")
      | Ok collected =>
          match unmarshalDeployments collected with
          | inr err => Err (Wrap err "failed to unmarshal deployment list")
          | inl deployments =>
              Ok (existsb (fun d => String.eqb (appsv1.Name d) (DeploymentRef.Name deployment))
                          deployments)
          end
      end
  end.

(** The loop that collects [matchingNodes]. *)
Fixpoint filterNodes (nodes matchingNodes : list Node)
    (filters : option NodeResourceFilters.t) : outcome (list Node) :=
  match nodes with
  | [] => Ok matchingNodes
  | node :: rest =>
      match nodeMatchesFilters node filters with
      | Panic r => Panic r
      | Err err => Err (Wrap err "failed to check if node matches filter")
      | Ok isMatch =>
          filterNodes rest (if isMatch then matchingNodes ++ [node] else matchingNodes) filters
      end
  end.

(** What one branch of the outcome loop does with [single], the non-nil
    pointer it found; [next] is the rest of the loop. *)
Definition tryOutcome (single : SingleOutcome.t) (set : AnalyzeResult.t -> AnalyzeResult.t)
    (matchingNodes : list Node) (totalNodeCount : Z) (result : AnalyzeResult.t)
    (next : outcome AnalyzeResult.t) : outcome AnalyzeResult.t :=
  match compareNodeResourceConditionalToActual (SingleOutcome.When single)
          matchingNodes totalNodeCount with
  | Panic r => Panic r
  | Err err => Err (Wrap err "failed to parse when")
  | Ok isWhenMatch =>
      if isWhenMatch then
        Ok (AnalyzeResult.setURI (SingleOutcome.URI single)
              (AnalyzeResult.setMessage (SingleOutcome.Message single) (set result)))
      else next
  end.

(** The loop over [analyzer.Outcomes]. *)
Fixpoint selectOutcome (outcomes : list Outcome.t) (matchingNodes : list Node)
    (totalNodeCount : Z) (result : AnalyzeResult.t) : outcome AnalyzeResult.t :=
  match outcomes with
  | [] => Ok result
  | outcome :: rest =>
      let next := selectOutcome rest matchingNodes totalNodeCount result in
      match Outcome.Fail outcome, Outcome.Warn outcome, Outcome.Pass outcome with
      | Some single, _, _ =>
          tryOutcome single AnalyzeResult.setIsFail matchingNodes totalNodeCount result next
      | None, Some single, _ =>
          tryOutcome single AnalyzeResult.setIsWarn matchingNodes totalNodeCount result next
      | None, None, Some single =>
          tryOutcome single AnalyzeResult.setIsPass matchingNodes totalNodeCount result next
      | None, None, None => next
      end
  end.

(** The deployment gate: either the function returns [result] at once
    ([inl]), or it goes on with the filters and outcomes that are now in
    [analyzer.Filters] and [analyzer.Outcomes] ([inr]); the gate overwrites
    these two fields of the caller's struct when it substitutes. *)
Definition gate (analyzer : NodeResources.t) (getCollectedFileContents : fileReader)
    (title : string) (result : AnalyzeResult.t)
    : outcome (AnalyzeResult.t + option NodeResourceFilters.t * list Outcome.t) :=
  match NodeResources.Deployment analyzer with
  | Some deployment =>
      exists_ ← checkDeployment analyzer getCollectedFileContents;
      if exists_ : bool then
        match NodeResources.OnUpdate analyzer with
        | Some onUpdate =>
            Ok (inr (AlternativeSpecs.Filters onUpdate, AlternativeSpecs.Outcomes onUpdate))
        | None =>
            Ok (inl (AnalyzeResult.setMessage
                       (String.append "Test skipped: Deployment "
                          (String.append (DeploymentRef.Name deployment)
                             " found in the cluster, but no specs were found for updates, under 'onUpdate:' field"))
                       (AnalyzeResult.setIsWarn
                          (AnalyzeResult.setTitle (String.append "Skipped: " title) result))))
        end
      else
        match NodeResources.OnInstall analyzer with
        | Some onInstall =>
            Ok (inr (AlternativeSpecs.Filters onInstall, AlternativeSpecs.Outcomes onInstall))
        | None =>
            Ok (inr (NodeResources.Filters analyzer, NodeResources.Outcomes analyzer))
        end
  | None => Ok (inr (NodeResources.Filters analyzer, NodeResources.Outcomes analyzer))
  end.

(** [title]: the check's name, or the default. *)
Definition titleOf (analyzer : NodeResources.t) : string :=
  if String.eqb (NodeResources.CheckName analyzer) "" then "Node Resources"
  else NodeResources.CheckName analyzer.

(** The [AnalyzeResult] literal: the fields it does not name are zero. *)
Definition newResult (title : string) : AnalyzeResult.t :=
  {| AnalyzeResult.IsPass := false;
     AnalyzeResult.IsFail := false;
     AnalyzeResult.IsWarn := false;
     AnalyzeResult.Title := title;
     AnalyzeResult.Message := "";
     AnalyzeResult.URI := "";
     AnalyzeResult.IconKey := "kubernetes_node_resources";
     AnalyzeResult.IconURI :=
       "https://troubleshoot.sh/images/analyzer-icons/node-resources.svg?w=16&h=18" |}.

Definition analyzeNodeResources (analyzer : NodeResources.t)
    (getCollectedFileContents : fileReader) : outcome AnalyzeResult.t :=
  match getCollectedFileContents "cluster-resources/nodes.json" with
  | Panic r => Panic r
  | Err err => Err (Wrap err "failed to get contents of nodes.json")
  | Ok collected =>
      let title := titleOf analyzer in
      let result := newResult title in
      gated ← gate analyzer getCollectedFileContents title result;
      match gated with
      | inl skipped => Ok skipped
      | inr (filters, outcomes) =>
          match unmarshalNodes collected with
          | inr err => Err (Wrap err "failed to unmarshal node list")
          | inl nodes =>
              matchingNodes ← filterNodes nodes [] filters;
              selectOutcome outcomes matchingNodes (Z.of_nat (length nodes)) result
          end
      end
  end.

End Analyzer.

(* ===================================================================== *)
(** ** pkg/preflight: the lookup of collected files by prefix             *)
(* ===================================================================== *)

Section Preflight.

(** [filepath.Match(pattern, name)]: its boolean result; the closure drops
    the error. *)
Variable filepathMatch : string -> string -> bool.

(** A Go map variable: [None] is the nil map. *)
Abbreviation goMap := (option (gmap string bytes)).

(** [matching[k] = v]. *)
Definition assign (matching : goMap) (k : string) (v : bytes) : outcome goMap :=
  match matching with
  | Some m => Ok (Some (<[k := v]> m))
  | None => Panic NilMapAssignment
  end.

(** [for k, v := range src { if test(k) { matching[k] = v } }]. *)
Definition collect (test : string -> bool) (src : gmap string bytes)
    (matching : goMap) : outcome goMap :=
  map_fold
    (fun k v (acc : outcome goMap) =>
       m ← acc;
       if test k then assign m k v else Ok m)
    (Ok matching) src.

(** The closure [getChildCollectedFileContents] of [Analyze]; [protected]
    is the method's argument and [AllCollectedData] the receiver's field.
    The returned error is always nil, so the result is the returned map. *)
Definition getChildCollectedFileContents (protected : goMap)
    (AllCollectedData : gmap string bytes) (prefix : string) : outcome goMap :=
  let matching : goMap := Some ∅ in
  matching ←
    match protected with
    | Some entries =>
        m ← collect (fun k => Go.HasPrefix k prefix) entries matching;
        collect (fun k => filepathMatch prefix k) entries m
    | None => Ok matching
    end;
  match matching with
  | Some _ => Ok matching
  | None =>
      m ← collect (fun k => Go.HasPrefix k prefix) AllCollectedData matching;
      collect (fun k => filepathMatch prefix k) AllCollectedData m
  end.

End Preflight.

(* ===================================================================== *)
(** ** Notions used to state the properties                               *)
(* ===================================================================== *)

Section Specification.
Context `{RL : resource.Lib}.

Import resource corev1.

(** The three verdict kinds of a result. *)
Inductive verdict : Type := Fail | Warn | Pass.

Definition mark (v : verdict) : AnalyzeResult.t -> AnalyzeResult.t :=
  match v with
  | Fail => AnalyzeResult.setIsFail
  | Warn => AnalyzeResult.setIsWarn
  | Pass => AnalyzeResult.setIsPass
  end.

(** The verdict entry of an outcome: the first of its pointers [Fail],
    [Warn], [Pass] that is not nil, with its kind. *)
Definition entryOf (o : Outcome.t) : option (verdict * SingleOutcome.t) :=
  match Outcome.Fail o, Outcome.Warn o, Outcome.Pass o with
  | Some single, _, _ => Some (Fail, single)
  | None, Some single, _ => Some (Warn, single)
  | None, None, Some single => Some (Pass, single)
  | None, None, None => None
  end.

(** The conditional of an outcome evaluates to [b]. *)
Definition evaluatesTo (matchingNodes : list Node) (totalNodeCount : Z) (b : bool)
    (o : Outcome.t) : Prop :=
  exists v single,
    entryOf o = Some (v, single) /\
    compareNodeResourceConditionalToActual (SingleOutcome.When single)
      matchingNodes totalNodeCount = Ok b.

(** An outcome the loop passes over: it has no entry, or its conditional
    evaluates to false. *)
Definition passedOver (matchingNodes : list Node) (totalNodeCount : Z)
    (o : Outcome.t) : Prop :=
  entryOf o = None \/ evaluatesTo matchingNodes totalNodeCount false o.

(** The result of an outcome entry that determines the verdict. *)
Definition decidedBy (v : verdict) (single : SingleOutcome.t) (result : AnalyzeResult.t)
    : AnalyzeResult.t :=
  AnalyzeResult.setURI (SingleOutcome.URI single)
    (AnalyzeResult.setMessage (SingleOutcome.Message single) (mark v result)).

Definition noVerdict (r : AnalyzeResult.t) : Prop :=
  AnalyzeResult.IsFail r = false /\ AnalyzeResult.IsWarn r = false
  /\ AnalyzeResult.IsPass r = false.

(** Integer comparison as a three-way result, like [Cmp] on quantities. *)
Definition threeWay (a d : Z) : Z :=
  match Z.compare a d with
  | Lt => -1
  | Eq => 0
  | Gt => 1
  end.

(** The comparison results an operator accepts; [None] for a string that is
    not an operator. *)
Definition accepted (operator : string) : option (list Z) :=
  if String.eqb operator "=" || String.eqb operator "==" || String.eqb operator "==="
  then Some [0]
  else if String.eqb operator "<" then Some [-1]
  else if String.eqb operator ">" then Some [1]
  else if String.eqb operator "<=" then Some [0; -1]
  else if String.eqb operator ">=" then Some [0; 1]
  else None.

Definition among (cmp : Z) (results : list Z) : bool := existsb (Z.eqb cmp) results.

(** The property names [getQuantity] knows. *)
Definition knownProperties : list string :=
  ["cpuCapacity"; "cpuAllocatable"; "memoryCapacity"; "memoryAllocatable";
   "podCapacity"; "podAllocatable"; "ephemeralStorageCapacity";
   "ephemeralStorageAllocatable"].

(** The entry of a node's resource lists that a property name stands for:
    [None] when the node reports no such resource, or the name is unknown. *)
Definition propertyEntry (node : Node) (property : string) : option Quantity :=
  if String.eqb property "cpuCapacity" then Capacity node !! "cpu"
  else if String.eqb property "cpuAllocatable" then Allocatable node !! "cpu"
  else if String.eqb property "memoryCapacity" then Capacity node !! "memory"
  else if String.eqb property "memoryAllocatable" then Allocatable node !! "memory"
  else if String.eqb property "podCapacity" then Capacity node !! "pods"
  else if String.eqb property "podAllocatable" then Allocatable node !! "pods"
  else if String.eqb property "ephemeralStorageCapacity"
       then Capacity node !! "ephemeral-storage"
  else if String.eqb property "ephemeralStorageAllocatable"
       then Allocatable node !! "ephemeral-storage"
  else None.

(** The threshold clauses of a filter in the order [nodeMatchesFilters]
    checks them: the declared bound, the quantity of the node it is compared
    with, and the message of the parse error. *)
Definition thresholdClauses (node : Node) (filters : NodeResourceFilters.t)
    : list (string * Quantity * string) :=
  [ (NodeResourceFilters.CPUCapacity filters, Cpu (Capacity node),
     "failed to parse cpu capacity");
    (NodeResourceFilters.CPUAllocatable filters, Cpu (Allocatable node),
     "failed to parse cpu allocatable");
    (NodeResourceFilters.MemoryCapacity filters, Memory (Capacity node),
     "failed to parse memory capacity");
    (NodeResourceFilters.MemoryAllocatable filters, Memory (Allocatable node),
     "failed to parse memory allocatable");
    (NodeResourceFilters.PodCapacity filters, Pods (Capacity node),
     "failed to parse pod capacity");
    (NodeResourceFilters.PodAllocatable filters, Pods (Allocatable node),
     "failed to parse pod allocatable");
    (NodeResourceFilters.EphemeralStorageCapacity filters, StorageEphemeral (Capacity node),
     "failed to parse ephemeralstorage capacity");
    (NodeResourceFilters.EphemeralStorageAllocatable filters,
     StorageEphemeral (Allocatable node),
     "failed to parse ephemeralstorage allocatable") ].

(** The threshold blocks one after the other. *)
Fixpoint checkClauses (clauses : list (string * Quantity * string)) : outcome bool :=
  match clauses with
  | [] => Ok true
  | (bound, actual, msg) :: rest => threshold bound actual msg (checkClauses rest)
  end.

(** A clause lets the node through: it is not declared, or its bound is
    well formed and the node's quantity is not below it. *)
Definition clausePasses (clause : string * Quantity * string) : Prop :=
  let '(bound, actual, _) := clause in
  bound = "" \/ exists parsed, ParseQuantity bound = inl parsed /\ Cmp actual parsed <> -1.

(** Every declared label is on the node, with the declared value. *)
Definition labelsMatch (node : Node) (filters : NodeResourceFilters.t) : Prop :=
  forall selector k v,
    NodeResourceFilters.Selector filters = Some selector ->
    NodeResourceSelectors.MatchLabel selector !! k = Some v ->
    Labels node !! k = Some v.

(** The node is let into the matching set. *)
Definition isMatch (filters : option NodeResourceFilters.t) (node : Node) : bool :=
  match nodeMatchesFilters node filters with
  | Ok true => true
  | _ => false
  end.

(** The analyzer with its gate taken away and the given filters and
    outcomes in place of its own. *)
Definition ungated (filters : option NodeResourceFilters.t) (outcomes : list Outcome.t)
    (analyzer : NodeResources.t) : NodeResources.t :=
  {| NodeResources.CheckName := NodeResources.CheckName analyzer;
     NodeResources.Outcomes := outcomes;
     NodeResources.Filters := filters;
     NodeResources.Deployment := None;
     NodeResources.OnUpdate := NodeResources.OnUpdate analyzer;
     NodeResources.OnInstall := NodeResources.OnInstall analyzer |}.

(** The message of a skipped check. *)
Definition skipMessage (deployment : DeploymentRef.t) : string :=
  String.append "Test skipped: Deployment "
    (String.append (DeploymentRef.Name deployment)
       " found in the cluster, but no specs were found for updates, under 'onUpdate:' field").

End Specification.

(* ===================================================================== *)
(** ** An instance of the interfaces, for concrete evaluation             *)
(* ===================================================================== *)

Module Example.

(** Quantities written as plain decimal integers (["0"], ["4"], ["16"]):
    on these the library's parser, comparison and addition are those of the
    integers.  The instance accepts nothing else; the examples below only
    parse such numerals and strings that are no quantity at all. *)
Definition parseDecimal (s : string) : Z + error :=
  match s with
  | EmptyString => inr (Foreign "quantities must match the regular expression")
  | _ =>
      match Go.parseDigits s 0 with
      | Some n => inl n
      | None => inr (Foreign "quantities must match the regular expression")
      end
  end.

Definition cmpZ (a b : Z) : Z :=
  match Z.compare a b with
  | Lt => -1
  | Eq => 0
  | Gt => 1
  end.

Definition decimal : resource.Lib :=
  {| resource.Quantity := Z;
     resource.ParseQuantity := parseDecimal;
     resource.Cmp := cmpZ;
     resource.Add := Z.add;
     resource.zero := 0 |}.

Abbreviation Node := (@corev1.Node decimal).

Definition node (labels : list (string * string)) (capacity allocatable : list (string * Z))
    : Node :=
  {| corev1.Labels := list_to_map labels;
     corev1.Capacity := list_to_map capacity;
     corev1.Allocatable := list_to_map allocatable |}.

(** A snapshot whose files decode to the given lists, whatever their bytes. *)
Definition snapshot (nodes : list Node) (deployments : list appsv1.Deployment)
    : @Decoders decimal :=
  {| unmarshalNodes := fun _ => inl nodes;
     unmarshalDeployments := fun _ => inl deployments;
     filepathJoin := String.concat "/" |}.

(** A reader that finds every file, empty. *)
Definition anyFile : fileReader := fun _ => Ok [].

Definition noFilters : NodeResourceFilters.t :=
  {| NodeResourceFilters.CPUCapacity := "";
     NodeResourceFilters.CPUAllocatable := "";
     NodeResourceFilters.MemoryCapacity := "";
     NodeResourceFilters.MemoryAllocatable := "";
     NodeResourceFilters.PodCapacity := "";
     NodeResourceFilters.PodAllocatable := "";
     NodeResourceFilters.EphemeralStorageCapacity := "";
     NodeResourceFilters.EphemeralStorageAllocatable := "";
     NodeResourceFilters.Selector := None |}.

Definition cpuAndMemory (cpu memory : string) : NodeResourceFilters.t :=
  {| NodeResourceFilters.CPUCapacity := cpu;
     NodeResourceFilters.CPUAllocatable := "";
     NodeResourceFilters.MemoryCapacity := memory;
     NodeResourceFilters.MemoryAllocatable := "";
     NodeResourceFilters.PodCapacity := "";
     NodeResourceFilters.PodAllocatable := "";
     NodeResourceFilters.EphemeralStorageCapacity := "";
     NodeResourceFilters.EphemeralStorageAllocatable := "";
     NodeResourceFilters.Selector := None |}.

Definition withLabels (labels : list (string * string)) : NodeResourceFilters.t :=
  {| NodeResourceFilters.CPUCapacity := "";
     NodeResourceFilters.CPUAllocatable := "";
     NodeResourceFilters.MemoryCapacity := "";
     NodeResourceFilters.MemoryAllocatable := "";
     NodeResourceFilters.PodCapacity := "";
     NodeResourceFilters.PodAllocatable := "";
     NodeResourceFilters.EphemeralStorageCapacity := "";
     NodeResourceFilters.EphemeralStorageAllocatable := "";
     NodeResourceFilters.Selector :=
       Some {| NodeResourceSelectors.MatchLabel := list_to_map labels |} |}.

Definition single (when message uri : string) : SingleOutcome.t :=
  {| SingleOutcome.When := when; SingleOutcome.Message := message; SingleOutcome.URI := uri |}.

Definition fail (when message : string) : Outcome.t :=
  {| Outcome.Fail := Some (single when message ""); Outcome.Warn := None; Outcome.Pass := None |}.
Definition warn (when message : string) : Outcome.t :=
  {| Outcome.Fail := None; Outcome.Warn := Some (single when message ""); Outcome.Pass := None |}.
Definition pass (when message : string) : Outcome.t :=
  {| Outcome.Fail := None; Outcome.Warn := None; Outcome.Pass := Some (single when message "") |}.

(** The outcome list [Fail("count() > 5"), Warn("count() > 0"), Pass("")]. *)
Definition threeOutcomes : list Outcome.t :=
  [fail "count() > 5" "too many"; warn "count() > 0" "some"; pass "" "fine"].

Definition cpuNode (cpu : Z) : Node := node [] [("cpu", cpu)] [].
Definition bareNode : Node := node [] [] [].

End Example.


(* ===================================================================== *)
(** ** pkg/preflight: reading one collected file, and the analyze phase   *)
(* ===================================================================== *)

Section PreflightAnalyze.

(** The closure [getCollectedFileContents] of [Analyze]: [protected] is
    the method's argument ([None] when nil), [AllCollectedData] the
    receiver's field. *)
Definition getCollectedFileContents (protected : option (gmap string bytes))
    (AllCollectedData : gmap string bytes) (fileName : string) : outcome bytes :=
  let found :=
    match protected with
    | Some entries => entries !! fileName
    | None => None
    end in
  match found with
  | Some contents => Ok contents
  | None =>
      match AllCollectedData !! fileName with
      | Some contents => Ok contents
      | None =>
          Err (New (String.append "file " (String.append fileName " was not collected")))
      end
  end.

(** What the method does not define itself: the type of an analyzer
    declaration, the dispatcher [analyze.Analyze] it hands the two closures
    to, the text [err.Error()] of an error, and [filepath.Match]. *)
Variable Analyzer : Type.
Variable analyzeAnalyze :
  Analyzer -> fileReader -> (string -> outcome (option (gmap string bytes))) ->
  outcome (list AnalyzeResult.t).
Variable errorText : error -> string.
Variable filepathMatch : string -> string -> bool.

(** The result put in place of an analyzer that returned an error. *)
Definition analyzerFailed (err : error) : AnalyzeResult.t :=
  {| AnalyzeResult.IsPass := false;
     AnalyzeResult.IsFail := true;
     AnalyzeResult.IsWarn := false;
     AnalyzeResult.Title := "Analyzer Failed";
     AnalyzeResult.Message := errorText err;
     AnalyzeResult.URI := "";
     AnalyzeResult.IconKey := "";
     AnalyzeResult.IconURI := "" |}.

(** The loop of [Analyze] over [c.Spec.Spec.Analyzers], from the results
    collected so far. *)
Fixpoint analyzeLoop (analyzers : list Analyzer) (protected : option (gmap string bytes))
    (AllCollectedData : gmap string bytes) (analyzeResults : list AnalyzeResult.t)
    : outcome (list AnalyzeResult.t) :=
  match analyzers with
  | [] => Ok analyzeResults
  | analyzer :: rest =>
      match analyzeAnalyze analyzer
              (getCollectedFileContents protected AllCollectedData)
              (getChildCollectedFileContents filepathMatch protected AllCollectedData) with
      | Panic r => Panic r
      | Err err =>
          analyzeLoop rest protected AllCollectedData
            (analyzeResults ++ [analyzerFailed err])
      | Ok analyzeResult =>
          analyzeLoop rest protected AllCollectedData (analyzeResults ++ analyzeResult)
      end
  end.

(** [CollectResult.Analyze]. *)
Definition Analyze (analyzers : list Analyzer) (AllCollectedData : gmap string bytes)
    (protected : option (gmap string bytes)) : outcome (list AnalyzeResult.t) :=
  analyzeLoop analyzers protected AllCollectedData [].

End PreflightAnalyze.

(* ===================================================================== *)
(** ** More notions used to state properties                              *)
(* ===================================================================== *)

Section MoreNotions.
Context `{RL : resource.Lib}.

Import resource corev1.

(** A filter that declares no clause: no bound, and no label to match. *)
Definition declaresNothing (filters : NodeResourceFilters.t) : Prop :=
  NodeResourceFilters.CPUCapacity filters = ""
  /\ NodeResourceFilters.CPUAllocatable filters = ""
  /\ NodeResourceFilters.MemoryCapacity filters = ""
  /\ NodeResourceFilters.MemoryAllocatable filters = ""
  /\ NodeResourceFilters.PodCapacity filters = ""
  /\ NodeResourceFilters.PodAllocatable filters = ""
  /\ NodeResourceFilters.EphemeralStorageCapacity filters = ""
  /\ NodeResourceFilters.EphemeralStorageAllocatable filters = ""
  /\ (forall selector,
        NodeResourceFilters.Selector filters = Some selector ->
        NodeResourceSelectors.MatchLabel selector = ∅).

(** A clause that turns the node away: declared, well formed, and above the
    node's quantity. *)
Definition clauseExcludes (clause : string * Quantity * string) : Prop :=
  let '(bound, actual, _) := clause in
  bound <> "" /\ exists parsed, ParseQuantity bound = inl parsed /\ Cmp actual parsed = -1.

(** The quantities [getQuantity] gives for the nodes of a list. *)
Definition quantitiesOf (nodes : list Node) (property : string) : list Quantity :=
  omap (fun node => getQuantity node property) nodes.

(** [Cmp] orders the quantities as far as "below" goes: nothing is below
    itself, "below" is transitive, and so is "not below". *)
Definition belowIsOrder : Prop :=
  (forall a, Cmp a a <> -1)
  /\ (forall a b c, Cmp a b = -1 -> Cmp b c = -1 -> Cmp a c = -1)
  /\ (forall a b c, Cmp a b <> -1 -> Cmp b c <> -1 -> Cmp a c <> -1).

(** The same for "above". *)
Definition aboveIsOrder : Prop :=
  (forall a, Cmp a a <> 1)
  /\ (forall a b c, Cmp a b = 1 -> Cmp b c = 1 -> Cmp a c = 1)
  /\ (forall a b c, Cmp a b <> 1 -> Cmp b c <> 1 -> Cmp a c <> 1).

(** The step of the loop of [findMin], and of [findMax], on a quantity
    [getQuantity] gave. *)
Definition minStep (min : option Quantity) (quant : Quantity) : option Quantity :=
  match min with
  | None => Some quant
  | Some m => if Z.eqb (Cmp quant m) (-1) then Some quant else min
  end.

Definition maxStep (max : option Quantity) (quant : Quantity) : option Quantity :=
  match max with
  | None => Some quant
  | Some m => if Z.eqb (Cmp quant m) 1 then Some quant else max
  end.

(** [Add] with [zero] is a commutative monoid. *)
Definition addIsMonoid : Prop :=
  (forall a, Add zero a = a)
  /\ (forall a b c, Add (Add a b) c = Add a (Add b c))
  /\ (forall a b, Add a b = Add b a).

(** At most one of the three verdict flags is set. *)
Definition atMostOneVerdict (r : AnalyzeResult.t) : Prop :=
  match AnalyzeResult.IsPass r, AnalyzeResult.IsFail r, AnalyzeResult.IsWarn r with
  | true, true, _ | true, _, true | _, true, true => False
  | _, _, _ => True
  end.

(** The filters and outcomes an analyzer may run with: its own, or those of
    one of its two alternatives. *)
Definition activeOutcomes (analyzer : NodeResources.t) (outcomes : list Outcome.t) : Prop :=
  outcomes = NodeResources.Outcomes analyzer
  \/ (exists alt, NodeResources.OnUpdate analyzer = Some alt
                  /\ outcomes = AlternativeSpecs.Outcomes alt)
  \/ (exists alt, NodeResources.OnInstall analyzer = Some alt
                  /\ outcomes = AlternativeSpecs.Outcomes alt).

(** What an outcome entry of kind [v] leaves in a result that was [result]
    before: its own flag set, the two other flags as they were, its message
    and its URI, and the title and the icon as they were. *)
Definition carries (v : verdict) (single : SingleOutcome.t)
    (result decided : AnalyzeResult.t) : Prop :=
  AnalyzeResult.IsFail decided
    = match v with Fail => true | _ => AnalyzeResult.IsFail result end
  /\ AnalyzeResult.IsWarn decided
      = match v with Warn => true | _ => AnalyzeResult.IsWarn result end
  /\ AnalyzeResult.IsPass decided
      = match v with Pass => true | _ => AnalyzeResult.IsPass result end
  /\ AnalyzeResult.Message decided = SingleOutcome.Message single
  /\ AnalyzeResult.URI decided = SingleOutcome.URI single
  /\ AnalyzeResult.Title decided = AnalyzeResult.Title result
  /\ AnalyzeResult.IconKey decided = AnalyzeResult.IconKey result
  /\ AnalyzeResult.IconURI decided = AnalyzeResult.IconURI result.

(** The loop over [analyzer.Outcomes] when the slice holds pointers to
    outcomes: [outcome.Fail] on a nil entry is a read through a nil pointer,
    outside the deferred function of the comparison.  On entries that are
    not nil the loop is [selectOutcome]. *)
Fixpoint selectOutcomeRefs (outcomes : list (option Outcome.t)) (matchingNodes : list Node)
    (totalNodeCount : Z) (result : AnalyzeResult.t) : outcome AnalyzeResult.t :=
  match outcomes with
  | [] => Ok result
  | None :: _ => Panic NilDereference
  | Some outcome :: rest =>
      let next := selectOutcomeRefs rest matchingNodes totalNodeCount result in
      match Outcome.Fail outcome, Outcome.Warn outcome, Outcome.Pass outcome with
      | Some single, _, _ =>
          tryOutcome single AnalyzeResult.setIsFail matchingNodes totalNodeCount result next
      | None, Some single, _ =>
          tryOutcome single AnalyzeResult.setIsWarn matchingNodes totalNodeCount result next
      | None, None, Some single =>
          tryOutcome single AnalyzeResult.setIsPass matchingNodes totalNodeCount result next
      | None, None, None => next
      end
  end.

(** No node of the list reports the resource a property name stands for. *)
Definition noneReports (nodes : list Node) (property : string) : Prop :=
  Forall (fun node => propertyEntry node property = None) nodes.

(** The literal of a conditional as the quantity the comparison parses: the
    decimal form of the integer when [strconv.Atoi] accepts the literal, and
    the literal itself when not. *)
Definition literalQuantity (literal : string) : Quantity + error :=
  match Go.Atoi literal with
  | Some d => ParseQuantity (Go.Itoa d)
  | None => ParseQuantity literal
  end.

End MoreNotions.

Section AnalyzerNotions.
Context `{RL : resource.Lib} `{DL : !Decoders}.

(** The collected file [checkDeployment] reads for a gate. *)
Definition deploymentsFile (deployment : DeploymentRef.t) : string :=
  filepathJoin ["cluster-resources"; "deployments";
                String.append (DeploymentRef.Namespace deployment) ".json"].

(** The result of a skipped check. *)
Definition skipped (analyzer : NodeResources.t) (deployment : DeploymentRef.t)
    : AnalyzeResult.t :=
  AnalyzeResult.setMessage (skipMessage deployment)
    (AnalyzeResult.setIsWarn
       (AnalyzeResult.setTitle (String.append "Skipped: " (titleOf analyzer))
          (newResult (titleOf analyzer)))).


End AnalyzerNotions.

Section PreflightNotions.
Variable Analyzer : Type.
Variable analyzeAnalyze :
  Analyzer -> fileReader -> (string -> outcome (option (gmap string bytes))) ->
  outcome (list AnalyzeResult.t).
Variable errorText : error -> string.
Variable filepathMatch : string -> string -> bool.

(** What one analyzer adds to the results of [Analyze]. *)
Definition contribution (protected : option (gmap string bytes))
    (AllCollectedData : gmap string bytes) (analyzer : Analyzer) : list AnalyzeResult.t :=
  match analyzeAnalyze analyzer
          (getCollectedFileContents protected AllCollectedData)
          (getChildCollectedFileContents filepathMatch protected AllCollectedData) with
  | Ok analyzeResult => analyzeResult
  | Err err => [analyzerFailed errorText err]
  | Panic _ => []
  end.

(** The analyzer does not panic on the two closures. *)
Definition returns (protected : option (gmap string bytes))
    (AllCollectedData : gmap string bytes) (analyzer : Analyzer) : Prop :=
  forall r,
    analyzeAnalyze analyzer
      (getCollectedFileContents protected AllCollectedData)
      (getChildCollectedFileContents filepathMatch protected AllCollectedData)
    <> Panic r.

End PreflightNotions.

(** The files of [protected], or none when it is nil. *)
Definition protectedFiles (protected : option (gmap string bytes)) : gmap string bytes :=
  match protected with
  | Some entries => entries
  | None => ∅
  end.

(* ===================================================================== *)
(** ** pkg/collect: the redaction of collected files                      *)
(* ===================================================================== *)

Module path.

Fixpoint extScan (revPath suffix : list ascii) : list ascii :=
  match revPath with
  | [] => []
  | c :: rest =>
      if Ascii.eqb c "/" then []
      else if Ascii.eqb c "." then c :: suffix
      else extScan rest (c :: suffix)
  end.

(** [path.Ext]: the suffix that starts at the last dot of the last element
    of the path, empty when that element has no dot. *)
Definition Ext (path : string) : string :=
  string_of_list_ascii (extScan (List.rev (list_ascii_of_string path)) []).

End path.

(** A Go [[]byte]: [None] is the nil slice. *)
Abbreviation slice := (option bytes).

(** [binary.Size] of a byte slice: its length. *)
Definition sliceSize (f : slice) : Z :=
  match f with
  | Some b => Z.of_nat (length b)
  | None => 0
  end.

Section Redaction.

(** What the file takes from elsewhere: the redactor declarations and
    [redact.Redact]; of [archive/tar], the header with its name, whether its
    file information says directory, and the assignment to its [Size]; a
    reader, as the sequence of what [Next] and then [io.Copy] into a fresh
    buffer give on an archive; and a writer, as a state with its three
    methods. *)
Variable Redactor : Type.
Variable Redact : bytes -> string -> list Redactor -> slice + error.
Variable Header : Type.
Variable headerName : Header -> string.
Variable headerIsDir : Header -> bool.
Variable setSize : Header -> Z -> Header.

Inductive tarStream : Type :=
| EndOfArchive                         (** [Next] returns [io.EOF] *)
| ReadFails (err : error)              (** [Next] returns another error *)
| Entry (header : Header) (contents : slice + error) (rest : tarStream)
                                       (** [Next] returns a header; [io.Copy]
                                           into a new buffer then leaves
                                           [contents] in it, or fails *).

Variable tarRead : bytes -> tarStream.
Variable Writer : Type.
Variable newWriter : Writer.
Variable WriteHeader : Writer -> Header -> Writer + error.
Variable Write : Writer -> slice -> Writer + error.
Variable Close : Writer -> bytes + error.

(** The loop of [untarFile]. *)
Fixpoint untarEntries (stream : tarStream) (files : gmap string slice)
    (fileHeaders : gmap string Header)
    : outcome (gmap string slice * gmap string Header) :=
  match stream with
  | EndOfArchive => Ok (files, fileHeaders)
  | ReadFails err => Err err
  | Entry header contents rest =>
      if headerIsDir header then untarEntries rest files fileHeaders
      else
        match contents with
        | inr err => Err err
        | inl data =>
            untarEntries rest (<[headerName header := data]> files)
                         (<[headerName header := header]> fileHeaders)
        end
  end.

Definition untarFile (tarFile : bytes)
    : outcome (gmap string slice * gmap string Header) :=
  untarEntries (tarRead tarFile) ∅ ∅.

(** The loop of [tarFiles] over [files]; [entries] lists the map in the
    order of one run.  [fileHeaders[p]] is a nil pointer when the map has no
    header for [p], and the assignment to its [Size] panics then. *)
Fixpoint writeFiles (entries : list (string * slice)) (fileHeaders : gmap string Header)
    (tw : Writer) : outcome Writer :=
  match entries with
  | [] => Ok tw
  | (p, f) :: rest =>
      match fileHeaders !! p with
      | None => Panic NilDereference
      | Some header =>
          match WriteHeader tw (setSize header (sliceSize f)) with
          | inr err => Err err
          | inl tw' =>
              match Write tw' f with
              | inr err => Err err
              | inl tw'' => writeFiles rest fileHeaders tw''
              end
          end
      end
  end.

Definition tarFiles (files : gmap string slice) (fileHeaders : gmap string Header)
    : outcome bytes :=
  match writeFiles (map_to_list files) fileHeaders newWriter with
  | Panic r => Panic r
  | Err err => Err err
  | Ok tw =>
      match Close tw with
      | inr err => Err err
      | inl archive => Ok archive
      end
  end.

(** The body of the loop of [redactMap] for one entry, [result] being the
    map built so far; [redactNested] is the recursive call, which gives
    nothing when the recursion is cut off. *)
Definition redactEntry (additionalRedactors : list Redactor)
    (redactNested : gmap string slice -> option (outcome (gmap string slice)))
    (k : string) (v : slice) (result : gmap string slice)
    : option (outcome (gmap string slice)) :=
  match v with
  | None => Some (Ok result)
  | Some contents =>
      if String.eqb (path.Ext k) ".tar" then
        match untarFile contents with
        | Panic r => Some (Panic r)
        | Err err => Some (Err err)
        | Ok (unRedacted, fileHeaders) =>
            match redactNested unRedacted with
            | None => None
            | Some (Panic r) => Some (Panic r)
            | Some (Err err) => Some (Err err)
            | Some (Ok files) =>
                match tarFiles files fileHeaders with
                | Panic r => Some (Panic r)
                | Err err => Some (Err err)
                | Ok archive => Some (Ok (<[k := Some archive]> result))
                end
            end
        end
      else
        match Redact contents k additionalRedactors with
        | inr err => Some (Err err)
        | inl redacted => Some (Ok (<[k := redacted]> result))
        end
  end.

(** The loop of [redactMap] goes on only while no entry has made it return. *)
Definition redactStep (additionalRedactors : list Redactor)
    (redactNested : gmap string slice -> option (outcome (gmap string slice)))
    (k : string) (v : slice) (acc : option (outcome (gmap string slice)))
    : option (outcome (gmap string slice)) :=
  match acc with
  | Some (Ok result) => redactEntry additionalRedactors redactNested k v result
  | _ => acc
  end.

(** [redactMap]; [depth] bounds how many archives within archives the
    recursion may open, and [None] says the bound was reached. *)
Fixpoint redactMap (depth : nat) (input : gmap string slice)
    (additionalRedactors : list Redactor) : option (outcome (gmap string slice)) :=
  match depth with
  | O => None
  | S depth' =>
      map_fold
        (redactStep additionalRedactors
           (fun unRedacted => redactMap depth' unRedacted additionalRedactors))
        (Some (Ok ∅)) input
  end.

(** An archive is longer than each of the files it holds. *)
Definition archivesShrink : Prop :=
  forall archive files fileHeaders p data,
    untarFile archive = Ok (files, fileHeaders) ->
    files !! p = Some (Some data) ->
    (length data < length archive)%nat.

(** The entries of a stream that [untarFile] keeps: those that are no
    directory, up to the end of the stream. *)
Fixpoint keptEntries (stream : tarStream) : list (Header * slice) :=
  match stream with
  | EndOfArchive | ReadFails _ => []
  | Entry header contents rest =>
      if headerIsDir header then keptEntries rest
      else match contents with
           | inl data => (header, data) :: keptEntries rest
           | inr _ => []
           end
  end.

(** What the loop of [redactMap] does for the entry [k], [v] alone: the
    value it stores under [k] ([Ok None] when it stores none), or how it
    makes the function return. *)
Definition entryValue (additionalRedactors : list Redactor)
    (redactNested : gmap string slice -> option (outcome (gmap string slice)))
    (k : string) (v : slice) : option (outcome (option slice)) :=
  match v with
  | None => Some (Ok None)
  | Some contents =>
      if String.eqb (path.Ext k) ".tar" then
        match untarFile contents with
        | Panic r => Some (Panic r)
        | Err err => Some (Err err)
        | Ok (unRedacted, fileHeaders) =>
            match redactNested unRedacted with
            | None => None
            | Some (Panic r) => Some (Panic r)
            | Some (Err err) => Some (Err err)
            | Some (Ok files) =>
                match tarFiles files fileHeaders with
                | Panic r => Some (Panic r)
                | Err err => Some (Err err)
                | Ok archive => Some (Ok (Some (Some archive)))
                end
            end
        end
      else
        match Redact contents k additionalRedactors with
        | inr err => Some (Err err)
        | inl redacted => Some (Ok (Some redacted))
        end
  end.

(** The names and contents of the kept entries, the last first. *)
Definition keptFiles (stream : tarStream) : list (string * slice) :=
  reverse (List.map (fun e : Header * slice => (headerName (fst e), snd e))
                    (keptEntries stream)).

Definition keptHeaders (stream : tarStream) : list (string * Header) :=
  reverse (List.map (fun e : Header * slice => (headerName (fst e), fst e))
                    (keptEntries stream)).

(** The stream is read to its end, and every entry kept on the way is
    copied. *)
Fixpoint readsToEnd (stream : tarStream) : bool :=
  match stream with
  | EndOfArchive => true
  | ReadFails _ => false
  | Entry header contents rest =>
      if headerIsDir header then readsToEnd rest
      else match contents with
           | inl _ => readsToEnd rest
           | inr _ => false
           end
  end.

End Redaction.

(* ===================================================================== *)
(** ** Instances for the examples of the two packages                     *)
(* ===================================================================== *)

Module ExampleArchive.

(** A small archive format.  An archive that starts with the byte 1 holds
    one file, [inner], made of the bytes behind it; one that starts with the
    byte 2 holds a directory and then that file; one without bytes holds
    nothing; any other cannot be read. *)
Record Header : Type := { Name : string; IsDir : bool; Size : Z }.

Definition inner : Header := {| Name := "inner"; IsDir := false; Size := 0 |}.
Definition dir : Header := {| Name := "dir"; IsDir := true; Size := 0 |}.

Definition setSize (header : Header) (size : Z) : Header :=
  {| Name := Name header; IsDir := IsDir header; Size := size |}.

Definition tarRead (archive : bytes) : tarStream Header :=
  match archive with
  | [] => EndOfArchive Header
  | first :: data =>
      if Byte.eqb first Byte.x01 then
        Entry Header inner (inl (Some data)) (EndOfArchive Header)
      else if Byte.eqb first Byte.x02 then
        Entry Header dir (inl None)
          (Entry Header inner (inl (Some data)) (EndOfArchive Header))
      else ReadFails Header (Foreign "unexpected EOF")
  end.

(** The writer keeps the bytes written; closing it puts the byte 1 in
    front. *)
Definition WriteHeader (tw : bytes) (header : Header) : bytes + error := inl tw.

Definition Write (tw : bytes) (f : slice) : bytes + error :=
  inl (tw ++ match f with Some data => data | None => [] end).

Definition Close (tw : bytes) : bytes + error := inl (Byte.x01 :: tw).

(** A redaction that puts an asterisk for every byte, and fails on the
    file [locked]. *)
Definition Redact (contents : bytes) (k : string) (redactors : list unit) : slice + error :=
  if String.eqb k "locked" then inr (Foreign "cannot redact")
  else inl (Some (List.map (fun _ => Byte.x2a) contents)).

Definition untar : bytes -> outcome (gmap string slice * gmap string Header) :=
  untarFile Header Name IsDir tarRead.

Definition tarUp : gmap string slice -> gmap string Header -> outcome bytes :=
  tarFiles Header setSize bytes [] WriteHeader Write Close.

Definition redact : nat -> gmap string slice -> list unit ->
                    option (outcome (gmap string slice)) :=
  redactMap unit Redact Header Name IsDir setSize tarRead bytes [] WriteHeader Write Close.

(** An archive of the two bytes [ab] beside a text of the byte [c]. *)
Definition collected : gmap string slice :=
  list_to_map [("logs.tar", Some [Byte.x01; Byte.x61; Byte.x62]); ("host.txt", Some [Byte.x63]);
               ("empty", None)].

Definition withLocked : gmap string slice :=
  list_to_map [("host.txt", Some [Byte.x63]); ("locked", Some [Byte.x64])].

End ExampleArchive.

Module ExamplePreflight.

(** A dispatcher that knows the node-resources analyzer only, on the
    snapshot without nodes and deployments, and gives its one result. *)
Definition analyzeAnalyze (analyzer : NodeResources.t) (getFile : fileReader)
    (findFiles : string -> outcome (option (gmap string bytes)))
    : outcome (list AnalyzeResult.t) :=
  match @analyzeNodeResources Example.decimal (Example.snapshot [] []) analyzer getFile with
  | Ok result => Ok [result]
  | Err e => Err e
  | Panic r => Panic r
  end.

Fixpoint errorText (e : error) : string :=
  match e with
  | New msg | Foreign msg => msg
  | Wrap cause msg => String.append msg (String.append ": " (errorText cause))
  | Recovered conditional _ => String.append "recovered from panic: " conditional
  end.

Definition filepathMatch (pattern name : string) : bool := String.eqb pattern name.

Definition plain (outcomes : list Outcome.t) : NodeResources.t :=
  {| NodeResources.CheckName := "";
     NodeResources.Outcomes := outcomes;
     NodeResources.Filters := None;
     NodeResources.Deployment := None;
     NodeResources.OnUpdate := None;
     NodeResources.OnInstall := None |}.

Definition gated (name namespace : string) (outcomes : list Outcome.t) : NodeResources.t :=
  {| NodeResources.CheckName := "";
     NodeResources.Outcomes := outcomes;
     NodeResources.Filters := None;
     NodeResources.Deployment :=
       Some {| DeploymentRef.Name := name; DeploymentRef.Namespace := namespace |};
     NodeResources.OnUpdate := None;
     NodeResources.OnInstall := None |}.


(** A snapshot whose node list cannot be decoded. *)
Definition brokenNodes : @Decoders Example.decimal :=
  {| unmarshalNodes := fun _ => inr (Foreign "unexpected end of JSON input");
     unmarshalDeployments := fun _ => inl [];
     filepathJoin := String.concat "/" |}.

Definition nodesOnly : gmap string bytes :=
  list_to_map [("cluster-resources/nodes.json", [])].

End ExamplePreflight.

(* ===================================================================== *)
(** ** Properties of the comparison routine                               *)
(* ===================================================================== *)

Section ComparisonProperties.
Context `{RL : resource.Lib}.

Import resource corev1.

Lemma compare_body_ok conditional matchingNodes total b :
  compareBody conditional matchingNodes total = Ok b ->
  compareNodeResourceConditionalToActual conditional matchingNodes total = Ok b.
Proof. unfold compareNodeResourceConditionalToActual. intros ->. reflexivity. Qed.

Lemma compare_body_err conditional matchingNodes total e :
  compareBody conditional matchingNodes total = Err e ->
  compareNodeResourceConditionalToActual conditional matchingNodes total = Err e.
Proof. unfold compareNodeResourceConditionalToActual. intros ->. reflexivity. Qed.

Lemma compare_body_panic conditional matchingNodes total r :
  compareBody conditional matchingNodes total = Panic r ->
  compareNodeResourceConditionalToActual conditional matchingNodes total
  = Err (Recovered conditional r).
Proof. unfold compareNodeResourceConditionalToActual. intros ->. reflexivity. Qed.

Lemma compare_never_panics conditional matchingNodes total r :
  compareNodeResourceConditionalToActual conditional matchingNodes total <> Panic r.
Proof.
  unfold compareNodeResourceConditionalToActual.
  destruct (compareBody conditional matchingNodes total); discriminate.
Qed.

(** An integer on the left and a string on the right: [MustParse] panics
    on the string, or else the type assertion to a quantity pointer does,
    whatever the relation and the test. *)
Lemma compareCase_int_string a s :
  exists r, forall intRel cmpTest,
    compareCase intRel cmpTest (VInt a) (VString s) = Panic r.
Proof.
  unfold compareCase, cmpParsed, MustParse. simpl.
  destruct (ParseQuantity s); eexists; intros; reflexivity.
Qed.

Lemma compareCase_nil desired :
  exists r, forall intRel cmpTest,
    compareCase intRel cmpTest VNil desired = Panic r.
Proof.
  unfold compareCase, cmpParsed, MustParse.
  destruct desired as [|d|s|p]; simpl;
    try (eexists; intros; reflexivity).
  - destruct (ParseQuantity (Go.Itoa d)); eexists; intros; reflexivity.
  - destruct (ParseQuantity s); eexists; intros; reflexivity.
Qed.

(** The shape of the body once the conditional is split and matched. *)
Lemma compareBody_parts conditional matchingNodes total part0 operator part2 function property :
  conditional <> "" ->
  partsOf conditional = [part0; operator; part2] ->
  matchOf part0 = Some (function, property) ->
  compareBody conditional matchingNodes total =
    let actualValue := actualValueOf function property matchingNodes in
    let desiredValue := desiredValueOf part2 in
    if String.eqb operator "=" || String.eqb operator "==" || String.eqb operator "===" then
      compareCase Z.eqb (fun c => Z.eqb c 0) actualValue desiredValue
    else if String.eqb operator "<" then
      compareCase Z.ltb (fun c => Z.eqb c (-1)) actualValue desiredValue
    else if String.eqb operator ">" then
      compareCase Z.gtb (fun c => Z.eqb c 1) actualValue desiredValue
    else if String.eqb operator "<=" then
      compareCase Z.leb (fun c => Z.eqb c 0 || Z.eqb c (-1)) actualValue desiredValue
    else if String.eqb operator ">=" then
      compareCase Z.geb (fun c => Z.eqb c 0 || Z.eqb c 1) actualValue desiredValue
    else Err (New "unexpected conditional in nodeResources").
Proof.
  intros Hne Hparts Hmatch. unfold compareBody.
  destruct (String.eqb_spec conditional "") as [->|_]; [congruence|].
  rewrite Hparts, Hmatch. reflexivity.
Qed.

(** Whatever the operator, when every case panics the body panics, or
    returns the error of the switch for an unknown operator. *)
Lemma compareBody_mismatch conditional matchingNodes total part0 operator part2
    function property r :
  conditional <> "" ->
  partsOf conditional = [part0; operator; part2] ->
  matchOf part0 = Some (function, property) ->
  (forall intRel cmpTest,
      compareCase intRel cmpTest (actualValueOf function property matchingNodes)
        (desiredValueOf part2) = Panic r) ->
  compareBody conditional matchingNodes total = Panic r \/
  compareBody conditional matchingNodes total = Err (New "unexpected conditional in nodeResources").
Proof.
  intros Hne Hparts Hmatch Hcase.
  rewrite (compareBody_parts _ _ _ _ _ _ _ _ Hne Hparts Hmatch). cbv zeta.
  rewrite !Hcase.
  repeat match goal with |- context [if ?c then _ else _] => destruct c end; auto.
Qed.

(** C9.  [compareNodeResourceConditionalToActual] returns a boolean or an
    error value for every conditional, node list and node count, and never
    lets a panic reach its caller; in particular, when the aggregate is an
    integer and the literal is not a number, the result is an error, not
    false. *)
Theorem compare_returns_bool_or_error :
  (forall conditional matchingNodes total,
      (exists b, compareNodeResourceConditionalToActual conditional matchingNodes total = Ok b)
      \/ (exists e, compareNodeResourceConditionalToActual conditional matchingNodes total = Err e))
  /\
  (forall conditional matchingNodes total part0 operator part2 function property a,
      conditional <> "" ->
      partsOf conditional = [part0; operator; part2] ->
      matchOf part0 = Some (function, property) ->
      actualValueOf function property matchingNodes = VInt a ->
      Go.Atoi part2 = None ->
      exists e, compareNodeResourceConditionalToActual conditional matchingNodes total = Err e).
Proof.
  split.
  - intros c m t. unfold compareNodeResourceConditionalToActual.
    destruct (compareBody c m t); eauto.
  - intros c m t part0 op part2 f prop a Hne Hparts Hmatch Hact Hlit.
    destruct (compareCase_int_string a part2) as [r Hr].
    destruct (compareBody_mismatch c m t part0 op part2 f prop r
                Hne Hparts Hmatch) as [H|H].
    + intros intRel cmpTest. rewrite Hact. unfold desiredValueOf. rewrite Hlit.
      apply Hr.
    + eexists. apply compare_body_panic, H.
    + eexists. apply compare_body_err, H.
Qed.

Lemma threeWay_eqb a d : Z.eqb a d = among (threeWay a d) [0].
Proof.
  unfold among, threeWay. simpl.
  destruct (Z.compare_spec a d) as [->|H|H]; simpl.
  - apply Z.eqb_refl.
  - apply Z.eqb_neq. lia.
  - apply Z.eqb_neq. lia.
Qed.

Lemma threeWay_ltb a d : Z.ltb a d = among (threeWay a d) [-1].
Proof. unfold among, threeWay, Z.ltb. destruct (Z.compare a d); reflexivity. Qed.

Lemma threeWay_gtb a d : Z.gtb a d = among (threeWay a d) [1].
Proof. unfold among, threeWay, Z.gtb. destruct (Z.compare a d); reflexivity. Qed.

Lemma threeWay_leb a d : Z.leb a d = among (threeWay a d) [0; -1].
Proof. unfold among, threeWay, Z.leb. destruct (Z.compare a d); reflexivity. Qed.

Lemma threeWay_geb a d : Z.geb a d = among (threeWay a d) [0; 1].
Proof. unfold among, threeWay, Z.geb. destruct (Z.compare a d); reflexivity. Qed.

(** The five cases of the switch as one: the operator's accepted results
    decide, on integers through [threeWay] and on quantities through [Cmp]. *)
Lemma compareBody_accepted conditional matchingNodes total part0 operator part2
    function property results :
  conditional <> "" ->
  partsOf conditional = [part0; operator; part2] ->
  matchOf part0 = Some (function, property) ->
  accepted operator = Some results ->
  exists intRel cmpTest,
    (forall a d, intRel a d = among (threeWay a d) results) /\
    (forall c, cmpTest c = among c results) /\
    compareBody conditional matchingNodes total =
      compareCase intRel cmpTest (actualValueOf function property matchingNodes)
        (desiredValueOf part2).
Proof.
  intros Hne Hparts Hmatch Hacc.
  rewrite (compareBody_parts _ _ _ _ _ _ _ _ Hne Hparts Hmatch). cbv zeta.
  unfold accepted in Hacc.
  destruct (String.eqb operator "=" || String.eqb operator "==" || String.eqb operator "===").
  { injection Hacc as <-. exists Z.eqb, (fun c => Z.eqb c 0).
    split; [apply threeWay_eqb|]. split; [|reflexivity].
    intros c. unfold among. simpl. now rewrite orb_false_r. }
  destruct (String.eqb operator "<").
  { injection Hacc as <-. exists Z.ltb, (fun c => Z.eqb c (-1)).
    split; [apply threeWay_ltb|]. split; [|reflexivity].
    intros c. unfold among. simpl. now rewrite orb_false_r. }
  destruct (String.eqb operator ">").
  { injection Hacc as <-. exists Z.gtb, (fun c => Z.eqb c 1).
    split; [apply threeWay_gtb|]. split; [|reflexivity].
    intros c. unfold among. simpl. now rewrite orb_false_r. }
  destruct (String.eqb operator "<=").
  { injection Hacc as <-. exists Z.leb, (fun c => Z.eqb c 0 || Z.eqb c (-1)).
    split; [apply threeWay_leb|]. split; [|reflexivity].
    intros c. unfold among. simpl. now rewrite orb_false_r. }
  destruct (String.eqb operator ">=").
  { injection Hacc as <-. exists Z.geb, (fun c => Z.eqb c 0 || Z.eqb c 1).
    split; [apply threeWay_geb|]. split; [|reflexivity].
    intros c. unfold among. simpl. now rewrite orb_false_r. }
  discriminate.
Qed.

(** C2.  With [actual] the aggregate and the literal resolved by an integer
    parse first: two integers are compared as integers; a quantity and an
    integer literal are compared after the integer is written out in decimal
    and parsed as a quantity; a quantity and a literal that is no integer are
    compared after the literal is parsed as a quantity; and the operator
    accepts the comparison results 0 for =, == and ===, -1 for <, 1 for >,
    0 and -1 for <=, 0 and 1 for >=. *)
Theorem compare_type_resolution :
  forall conditional matchingNodes total part0 operator part2 function property results,
    conditional <> "" ->
    partsOf conditional = [part0; operator; part2] ->
    matchOf part0 = Some (function, property) ->
    accepted operator = Some results ->
    let actual := actualValueOf function property matchingNodes in
    let result := compareNodeResourceConditionalToActual conditional matchingNodes total in
    (forall a d,
        actual = VInt a -> Go.Atoi part2 = Some d ->
        result = Ok (among (threeWay a d) results))
    /\ (forall q d y,
        actual = VQuantity (Some q) -> Go.Atoi part2 = Some d ->
        ParseQuantity (Go.Itoa d) = inl y ->
        result = Ok (among (Cmp q y) results))
    /\ (forall q y,
        actual = VQuantity (Some q) -> Go.Atoi part2 = None ->
        ParseQuantity part2 = inl y ->
        result = Ok (among (Cmp q y) results)).
Proof.
  intros c m t part0 op part2 f prop results Hne Hparts Hmatch Hacc actual result.
  destruct (compareBody_accepted c m t part0 op part2 f prop results Hne Hparts Hmatch Hacc)
    as (intRel & cmpTest & Hrel & Hcmp & Hbody).
  subst actual result. repeat split.
  - intros a d Ha Hd. apply compare_body_ok. rewrite Hbody, Ha.
    unfold desiredValueOf. rewrite Hd. unfold compareCase. simpl. now rewrite Hrel.
  - intros q d y Ha Hd Hy. apply compare_body_ok. rewrite Hbody, Ha.
    unfold desiredValueOf. rewrite Hd.
    unfold compareCase, cmpParsed, MustParse. simpl. rewrite Hy. simpl. now rewrite Hcmp.
  - intros q y Ha Hd Hy. apply compare_body_ok. rewrite Hbody, Ha.
    unfold desiredValueOf. rewrite Hd.
    unfold compareCase, cmpParsed, MustParse. simpl. rewrite Hy. simpl. now rewrite Hcmp.
Qed.

End ComparisonProperties.

(* ===================================================================== *)
(** ** The pattern and the two grammar forms                              *)
(* ===================================================================== *)

Section PatternProperties.

Lemma list_ascii_of_string_append (a b : string) :
  list_ascii_of_string (String.append a b)
  = (list_ascii_of_string a ++ list_ascii_of_string b)%list.
Proof. induction a as [|c a IH]; simpl; [reflexivity|]. now rewrite IH. Qed.

(** The accumulator of [splitLines] only extends the first line. *)
Lemma splitLines_cur (l : list ascii) :
  exists hd tl,
    Go.splitLines l [] = hd :: tl /\
    forall cur, Go.splitLines l cur = (List.rev cur ++ hd)%list :: tl.
Proof.
  induction l as [|x r IH].
  - exists [], []. split; [reflexivity|]. intros cur. simpl. now rewrite app_nil_r.
  - simpl. destruct (Go.byte_is x 10).
    + exists [], (Go.splitLines r []). split; [reflexivity|].
      intros cur. now rewrite app_nil_r.
    + destruct IH as (hd & tl & H0 & Hcur).
      exists (x :: hd), tl. split.
      * rewrite Hcur. reflexivity.
      * intros cur. rewrite Hcur. simpl. now rewrite <- app_assoc.
Qed.

Lemma splitAtFirst_app c (a b : list ascii) :
  Go.splitAtFirst c (a ++ b)%list =
    match Go.splitAtFirst c a with
    | Some (x, y) => Some (x, (y ++ b)%list)
    | None =>
        match Go.splitAtFirst c b with
        | Some (x, y) => Some ((a ++ x)%list, y)
        | None => None
        end
    end.
Proof.
  induction a as [|h a IH]; simpl.
  - destruct (Go.splitAtFirst c b) as [[x y]|]; reflexivity.
  - destruct (Ascii.eqb h c); [reflexivity|].
    rewrite IH. destruct (Go.splitAtFirst c a) as [[x y]|]; [reflexivity|].
    destruct (Go.splitAtFirst c b) as [[x y]|]; reflexivity.
Qed.

(** A line without a match, put behind ["count() == "], matches with the
    function group ["count"]. *)
Lemma submatchLine_count_prefix (l : list ascii) :
  Go.submatchLine l = None ->
  exists property,
    Go.submatchLine (list_ascii_of_string "count() == " ++ l)%list
    = Some ("count", property).
Proof.
  unfold Go.submatchLine. intros Hnone.
  rewrite rev_app_distr, splitAtFirst_app.
  destruct (Go.splitAtFirst ")" (List.rev l)) as [[x y]|] eqn:Hclose.
  - rewrite splitAtFirst_app.
    destruct (Go.splitAtFirst "(" y) as [[x' y']|]; [discriminate|].
    simpl. eexists. reflexivity.
  - simpl. eexists. reflexivity.
Qed.

(** The second attempt of [matchOf] always finds the function ["count"]. *)
Lemma FindStringSubmatch_fallback (part0 : string) :
  Go.FindStringSubmatch part0 = None ->
  exists property,
    Go.FindStringSubmatch (String.append "count() == " part0) = Some ("count", property).
Proof.
  unfold Go.FindStringSubmatch. intros Hnone.
  rewrite list_ascii_of_string_append.
  destruct (splitLines_cur (list_ascii_of_string part0)) as (hd & tl & H0 & Hcur).
  rewrite H0 in Hnone. simpl in Hnone.
  destruct (Go.submatchLine hd) eqn:Hhd; [discriminate|].
  destruct (submatchLine_count_prefix hd Hhd) as (property & Hp).
  exists property.
  change (Go.splitLines (list_ascii_of_string "count() == " ++ list_ascii_of_string part0) [])
    with (Go.splitLines (list_ascii_of_string part0)
            (List.rev (list_ascii_of_string "count() == "))).
  rewrite Hcur, rev_involutive.
  cbn [Go.firstSubmatch]. rewrite Hp. reflexivity.
Qed.

Lemma matchOf_fallback (part0 : string) :
  Go.FindStringSubmatch part0 = None ->
  exists property, matchOf part0 = Some ("count", property).
Proof.
  intros H. unfold matchOf. rewrite H. now apply FindStringSubmatch_fallback.
Qed.

(** So [matchOf] never gives nil, and the error for a conditional that does
    not match the pattern is never returned. *)
Lemma matchOf_total (part0 : string) :
  exists function property, matchOf part0 = Some (function, property).
Proof.
  destruct (Go.FindStringSubmatch part0) as [[function property]|] eqn:H.
  - exists function, property. unfold matchOf. now rewrite H.
  - destruct (matchOf_fallback part0 H) as [property Hp]. eauto.
Qed.

End PatternProperties.

Section GrammarProperties.
Context `{RL : resource.Lib}.

Import resource corev1.

Lemma partsOf_two conditional operator literal :
  Go.Fields (Go.TrimSpace conditional) = [operator; literal] ->
  partsOf conditional = ["count"; operator; literal].
Proof. unfold partsOf. intros ->. reflexivity. Qed.

Lemma partsOf_three conditional part0 operator literal :
  Go.Fields (Go.TrimSpace conditional) = [part0; operator; literal] ->
  partsOf conditional = [part0; operator; literal].
Proof. unfold partsOf. intros ->. reflexivity. Qed.

Lemma partsOf_not_empty conditional part parts :
  partsOf conditional = part :: parts -> conditional <> "".
Proof. intros H ->. discriminate H. Qed.

(** With the function ["count"], the body does not depend on the property
    group, nor on the conditional beyond its operator and literal. *)
Lemma compareBody_count c1 c2 matchingNodes total part1 part2 operator literal prop1 prop2 :
  partsOf c1 = [part1; operator; literal] ->
  partsOf c2 = [part2; operator; literal] ->
  matchOf part1 = Some ("count", prop1) ->
  matchOf part2 = Some ("count", prop2) ->
  compareBody c1 matchingNodes total = compareBody c2 matchingNodes total.
Proof.
  intros H1 H2 M1 M2.
  rewrite (compareBody_parts c1 _ _ _ _ _ _ _ (partsOf_not_empty _ _ _ H1) H1 M1).
  rewrite (compareBody_parts c2 _ _ _ _ _ _ _ (partsOf_not_empty _ _ _ H2) H2 M2).
  reflexivity.
Qed.

Lemma compare_same_body c1 c2 matchingNodes total :
  compareBody c1 matchingNodes total = compareBody c2 matchingNodes total ->
  forall b,
    compareNodeResourceConditionalToActual c1 matchingNodes total = Ok b <->
    compareNodeResourceConditionalToActual c2 matchingNodes total = Ok b.
Proof.
  intros H b. unfold compareNodeResourceConditionalToActual. rewrite H.
  destruct (compareBody c2 matchingNodes total); split; intros E;
    first [exact E | discriminate E].
Qed.

Lemma compareBody_unknown_operator conditional matchingNodes total part0 operator literal :
  conditional <> "" ->
  partsOf conditional = [part0; operator; literal] ->
  accepted operator = None ->
  exists e, compareBody conditional matchingNodes total = Err e.
Proof.
  intros Hne Hparts Hacc. unfold compareBody.
  destruct (String.eqb_spec conditional "") as [->|_]; [congruence|].
  rewrite Hparts. destruct (matchOf part0) as [[function property]|]; [|eauto].
  unfold accepted in Hacc.
  destruct (String.eqb operator "=" || String.eqb operator "==" || String.eqb operator "===");
    [discriminate|].
  destruct (String.eqb operator "<"); [discriminate|].
  destruct (String.eqb operator ">"); [discriminate|].
  destruct (String.eqb operator "<="); [discriminate|].
  destruct (String.eqb operator ">="); [discriminate|].
  eauto.
Qed.

Lemma actualValueOf_unknown function property (matchingNodes : list Node) :
  function <> "count" -> function <> "min" -> function <> "max" -> function <> "sum" ->
  actualValueOf function property matchingNodes = VNil.
Proof.
  intros H1 H2 H3 H4. unfold actualValueOf.
  apply String.eqb_neq in H1, H2, H3, H4. now rewrite H1, H2, H3, H4.
Qed.

(** C3 (as the code has it).  The empty conditional is true.  A conditional
    of two tokens, an operator and a literal, is evaluated as the conditional
    [count() operator literal].  A conditional that is not empty and has
    neither two nor three tokens, one whose operator is none of the seven,
    and one whose first token names a function other than count, min, max
    and sum, give an error and no boolean.  A conditional of three tokens
    whose first token does not match the pattern is not rejected: it is
    evaluated as [count() operator literal] too. *)
Theorem conditional_grammar :
  forall (matchingNodes : list Node) (total : Z),
    compareNodeResourceConditionalToActual "" matchingNodes total = Ok true
    /\ (forall c c' operator literal,
          Go.Fields (Go.TrimSpace c) = [operator; literal] ->
          Go.Fields (Go.TrimSpace c') = ["count()"; operator; literal] ->
          compareBody c matchingNodes total = compareBody c' matchingNodes total /\
          forall b,
            compareNodeResourceConditionalToActual c matchingNodes total = Ok b <->
            compareNodeResourceConditionalToActual c' matchingNodes total = Ok b)
    /\ (forall c,
          c <> "" ->
          length (Go.Fields (Go.TrimSpace c)) <> 2%nat ->
          length (Go.Fields (Go.TrimSpace c)) <> 3%nat ->
          compareNodeResourceConditionalToActual c matchingNodes total
          = Err (New "unable to parse nodeResources conditional"))
    /\ (forall c part0 operator literal,
          partsOf c = [part0; operator; literal] ->
          accepted operator = None ->
          exists e, compareNodeResourceConditionalToActual c matchingNodes total = Err e)
    /\ (forall c part0 operator literal function property,
          Go.Fields (Go.TrimSpace c) = [part0; operator; literal] ->
          Go.FindStringSubmatch part0 = Some (function, property) ->
          function <> "count" -> function <> "min" ->
          function <> "max" -> function <> "sum" ->
          exists e, compareNodeResourceConditionalToActual c matchingNodes total = Err e)
    /\ (forall c c' part0 operator literal,
          Go.Fields (Go.TrimSpace c) = [part0; operator; literal] ->
          Go.FindStringSubmatch part0 = None ->
          Go.Fields (Go.TrimSpace c') = ["count()"; operator; literal] ->
          compareBody c matchingNodes total = compareBody c' matchingNodes total /\
          forall b,
            compareNodeResourceConditionalToActual c matchingNodes total = Ok b <->
            compareNodeResourceConditionalToActual c' matchingNodes total = Ok b).
Proof.
  intros m t. split; [reflexivity|]. split; [|split; [|split; [|split]]].
  - intros c c' op lit Hc Hc'.
    assert (Hbody : compareBody c m t = compareBody c' m t).
    { eapply compareBody_count.
      - apply partsOf_two, Hc.
      - apply partsOf_three, Hc'.
      - reflexivity.
      - reflexivity. }
    split; [exact Hbody | now apply compare_same_body].
  - intros c Hne H2 H3. apply compare_body_err. unfold compareBody.
    destruct (String.eqb_spec c "") as [->|_]; [congruence|].
    unfold partsOf.
    destruct (Go.Fields (Go.TrimSpace c)) as [|p0 [|p1 [|p2 [|p3 rest]]]];
      simpl in *; try reflexivity; congruence.
  - intros c part0 op lit Hparts Hacc.
    destruct (compareBody_unknown_operator c m t part0 op lit
                (partsOf_not_empty _ _ _ Hparts) Hparts Hacc) as [e He].
    exists e. now apply compare_body_err.
  - intros c part0 op lit f prop Hc Hf N1 N2 N3 N4.
    pose proof (partsOf_three _ _ _ _ Hc) as Hparts.
    assert (Hmatch : matchOf part0 = Some (f, prop)) by (unfold matchOf; now rewrite Hf).
    destruct (compareCase_nil (desiredValueOf lit)) as [r Hr].
    destruct (compareBody_mismatch c m t part0 op lit f prop r
                (partsOf_not_empty _ _ _ Hparts) Hparts Hmatch) as [H|H].
    + intros intRel cmpTest. rewrite actualValueOf_unknown by assumption.
      apply Hr.
    + eexists. apply compare_body_panic, H.
    + eexists. apply compare_body_err, H.
  - intros c c' part0 op lit Hc Hnone Hc'.
    destruct (matchOf_fallback part0 Hnone) as [prop Hmatch].
    assert (Hbody : compareBody c m t = compareBody c' m t).
    { eapply compareBody_count.
      - apply partsOf_three, Hc.
      - apply partsOf_three, Hc'.
      - exact Hmatch.
      - reflexivity. }
    split; [exact Hbody | now apply compare_same_body].
Qed.

End GrammarProperties.

(* ===================================================================== *)
(** ** Aggregates and the selection of an outcome                         *)
(* ===================================================================== *)

Section AggregateProperties.
Context `{RL : resource.Lib}.

Import resource corev1.

Lemma findSum_fold (nodes : list Node) property acc :
  fold_left
    (fun sum node =>
       match getQuantity node property with
       | Some quant => Add sum quant
       | None => sum
       end) nodes acc
  = fold_left Add (omap (fun node => getQuantity node property) nodes) acc.
Proof.
  revert acc. induction nodes as [|node nodes IH]; intros acc; simpl; [reflexivity|].
  rewrite IH. destruct (getQuantity node property); reflexivity.
Qed.

Lemma findSum_omap (nodes : list Node) property :
  findSum nodes property
  = fold_left Add (omap (fun node => getQuantity node property) nodes) zero.
Proof. apply findSum_fold. Qed.

Lemma findSum_skip (before after : list Node) node property :
  getQuantity node property = None ->
  findSum (before ++ node :: after) property = findSum (before ++ after) property.
Proof.
  intros H. unfold findSum. rewrite !fold_left_app. simpl. now rewrite H.
Qed.

Lemma getQuantity_no_entry (node : Node) property :
  propertyEntry node property = None ->
  getQuantity node property = None \/ getQuantity node property = Some zero.
Proof.
  unfold propertyEntry, getQuantity, Cpu, Memory, Pods, StorageEphemeral, Name.
  repeat match goal with
         | |- context [if String.eqb property ?s then _ else _] =>
             destruct (String.eqb property s)
         end;
    try (intros ->; now right); now left.
Qed.

Lemma findSum_no_entry (before after : list Node) node property :
  (forall q, Add q zero = q) ->
  propertyEntry node property = None ->
  findSum (before ++ node :: after) property = findSum (before ++ after) property.
Proof.
  intros Hzero H. destruct (getQuantity_no_entry node property H) as [E|E].
  - now apply findSum_skip.
  - unfold findSum. rewrite !fold_left_app. simpl. now rewrite E, Hzero.
Qed.

(** C7.  [count] is the number of matching nodes, whatever the property,
    and 0 on no nodes.  [sum] adds up, from the zero quantity, the property
    of the nodes that have it: a node for which [getQuantity] gives nothing
    is skipped, and so is, when adding zero changes nothing, a node whose
    resource list lacks the entry; on no nodes the sum is the zero
    quantity. *)
Theorem count_and_sum :
  forall (nodes : list Node) (property : string),
    actualValueOf "count" property nodes = VInt (Z.of_nat (length nodes))
    /\ actualValueOf "count" property [] = VInt 0
    /\ actualValueOf "sum" property nodes = VQuantity (Some (findSum nodes property))
    /\ findSum [] property = zero
    /\ findSum nodes property
       = fold_left Add (omap (fun node => getQuantity node property) nodes) zero
    /\ (forall before node after,
          nodes = before ++ node :: after ->
          getQuantity node property = None ->
          findSum nodes property = findSum (before ++ after) property)
    /\ ((forall q, Add q zero = q) ->
        forall before node after,
          nodes = before ++ node :: after ->
          propertyEntry node property = None ->
          findSum nodes property = findSum (before ++ after) property).
Proof.
  intros nodes property. repeat split.
  - apply findSum_omap.
  - intros before node after -> H. now apply findSum_skip.
  - intros Hzero before node after -> H. now apply findSum_no_entry.
Qed.

Lemma findMin_none (nodes : list Node) property :
  Forall (fun node => getQuantity node property = None) nodes ->
  findMin nodes property = None.
Proof.
  unfold findMin. induction 1 as [|node nodes H _ IH]; simpl; [reflexivity|].
  now rewrite H.
Qed.

Lemma findMax_none (nodes : list Node) property :
  Forall (fun node => getQuantity node property = None) nodes ->
  findMax nodes property = None.
Proof.
  unfold findMax. induction 1 as [|node nodes H _ IH]; simpl; [reflexivity|].
  now rewrite H.
Qed.

Lemma getQuantity_unknown (node : Node) property :
  ~ In property knownProperties -> getQuantity node property = None.
Proof.
  intros Hnot. unfold getQuantity.
  repeat match goal with
         | |- context [if String.eqb property ?s then _ else _] =>
             destruct (String.eqb_spec property s) as [->|_];
             [exfalso; apply Hnot; simpl; tauto|]
         end.
  reflexivity.
Qed.

Lemma getQuantity_known (node : Node) property :
  In property knownProperties -> exists q, getQuantity node property = Some q.
Proof.
  simpl. intros H.
  repeat (destruct H as [<-|H]; [eexists; reflexivity|]). destruct H.
Qed.

(** Once a minimum or maximum is found, the loop keeps one. *)
Lemma findMin_keeps (nodes : list Node) property q :
  exists q',
    fold_left
      (fun min node =>
         match getQuantity node property with
         | Some quant =>
             match min with
             | None => Some quant
             | Some m => if Z.eqb (Cmp quant m) (-1) then Some quant else min
             end
         | None => min
         end) nodes (Some q) = Some q'.
Proof.
  revert q. induction nodes as [|node nodes IH]; intros q; simpl; [eauto|].
  destruct (getQuantity node property) as [quant|]; [|apply IH].
  destruct (Z.eqb (Cmp quant q) (-1)); apply IH.
Qed.

Lemma findMax_keeps (nodes : list Node) property q :
  exists q',
    fold_left
      (fun max node =>
         match getQuantity node property with
         | Some quant =>
             match max with
             | None => Some quant
             | Some m => if Z.eqb (Cmp quant m) 1 then Some quant else max
             end
         | None => max
         end) nodes (Some q) = Some q'.
Proof.
  revert q. induction nodes as [|node nodes IH]; intros q; simpl; [eauto|].
  destruct (getQuantity node property) as [quant|]; [|apply IH].
  destruct (Z.eqb (Cmp quant q) 1); apply IH.
Qed.

Lemma findMin_known (node : Node) nodes property :
  In property knownProperties -> findMin (node :: nodes) property <> None.
Proof.
  intros H. destruct (getQuantity_known node property H) as [q Hq].
  unfold findMin. simpl. rewrite Hq.
  destruct (findMin_keeps nodes property q) as [q' ->]. discriminate.
Qed.

Lemma findMax_known (node : Node) nodes property :
  In property knownProperties -> findMax (node :: nodes) property <> None.
Proof.
  intros H. destruct (getQuantity_known node property H) as [q Hq].
  unfold findMax. simpl. rewrite Hq.
  destruct (findMax_keeps nodes property q) as [q' ->]. discriminate.
Qed.

(** A comparison against a nil quantity pointer panics in every case. *)
Lemma compareCase_nil_pointer part2 :
  exists r, forall intRel cmpTest,
    compareCase intRel cmpTest (VQuantity None) (desiredValueOf part2) = Panic r.
Proof.
  unfold desiredValueOf, compareCase, cmpParsed, MustParse.
  destruct (Go.Atoi part2) as [d|]; simpl.
  - destruct (ParseQuantity (Go.Itoa d)); simpl; eexists; reflexivity.
  - destruct (ParseQuantity part2); simpl; eexists; reflexivity.
Qed.

(** For a known name [getQuantity] reads the entry of the resource list
    through its accessor, which gives the zero quantity when there is none. *)
Lemma getQuantity_entry (node : Node) property :
  In property knownProperties ->
  getQuantity node property
  = Some (match propertyEntry node property with Some q => q | None => zero end).
Proof.
  simpl. intros H.
  repeat (destruct H as [<-|H]; [reflexivity|]). destruct H.
Qed.

Lemma findMin_all_zero (nodes : list Node) property :
  Forall (fun node => getQuantity node property = Some zero) nodes ->
  fold_left
    (fun min node =>
       match getQuantity node property with
       | Some quant =>
           match min with
           | None => Some quant
           | Some m => if Z.eqb (Cmp quant m) (-1) then Some quant else min
           end
       | None => min
       end) nodes (Some zero) = Some zero.
Proof.
  induction 1 as [|node nodes Hq _ IH]; simpl; [reflexivity|].
  rewrite Hq. now destruct (Z.eqb (Cmp zero zero) (-1)).
Qed.

Lemma findMax_all_zero (nodes : list Node) property :
  Forall (fun node => getQuantity node property = Some zero) nodes ->
  fold_left
    (fun max node =>
       match getQuantity node property with
       | Some quant =>
           match max with
           | None => Some quant
           | Some m => if Z.eqb (Cmp quant m) 1 then Some quant else max
           end
       | None => max
       end) nodes (Some zero) = Some zero.
Proof.
  induction 1 as [|node nodes Hq _ IH]; simpl; [reflexivity|].
  rewrite Hq. now destruct (Z.eqb (Cmp zero zero) 1).
Qed.

(** Nodes that do not report a resource have the zero quantity for it, so
    their minimum and maximum is the zero quantity. *)
Lemma findMin_findMax_unreported (nodes : list Node) property :
  nodes <> [] ->
  In property knownProperties ->
  noneReports nodes property ->
  findMin nodes property = Some zero /\ findMax nodes property = Some zero.
Proof.
  intros Hne Hknown Hnone.
  assert (Hzero : Forall (fun node => getQuantity node property = Some zero) nodes).
  { unfold noneReports in Hnone. rewrite List.Forall_forall in Hnone.
    apply List.Forall_forall. intros node Hin.
    rewrite (getQuantity_entry node property Hknown). now rewrite (Hnone node Hin). }
  destruct nodes as [|node nodes]; [congruence|].
  pose proof (List.Forall_inv Hzero) as Hq. pose proof (List.Forall_inv_tail Hzero) as Hrest.
  simpl in Hq. unfold findMin, findMax. simpl. rewrite Hq.
  split; [now apply findMin_all_zero | now apply findMax_all_zero].
Qed.

(** A comparison of a quantity that is there with a literal that parses. *)
Lemma compare_quantity conditional (nodes : list Node) total part0 operator literal
    function property results q y :
  partsOf conditional = [part0; operator; literal] ->
  matchOf part0 = Some (function, property) ->
  accepted operator = Some results ->
  actualValueOf function property nodes = VQuantity (Some q) ->
  literalQuantity literal = inl y ->
  compareNodeResourceConditionalToActual conditional nodes total
  = Ok (among (Cmp q y) results).
Proof.
  intros Hparts Hmatch Hacc Hact Hy.
  destruct (compareBody_accepted conditional nodes total part0 operator literal function
              property results (partsOf_not_empty _ _ _ Hparts) Hparts Hmatch Hacc)
    as (intRel & cmpTest & _ & Hcmp & Hbody).
  apply compare_body_ok. rewrite Hbody, Hact.
  unfold literalQuantity in Hy. unfold desiredValueOf.
  destruct (Go.Atoi literal) as [d|];
    unfold compareCase, cmpParsed, MustParse; simpl; rewrite Hy; simpl; now rewrite Hcmp.
Qed.

(** C8.  [min] and [max] give no value exactly on no nodes and for a
    property name that is not known, which are the cases in which
    [getQuantity] gives nothing for every node; a conditional that compares
    such an absent value returns an error.  A node that does not report the
    resource of a known name is not skipped: it counts with the zero
    quantity, so over nodes none of which reports the resource the minimum
    and the maximum are the zero quantity, and a comparison with a literal
    that parses returns the boolean of the zero quantity against it. *)
Theorem min_max_no_value :
  (forall property,
      findMin ([] : list Node) property = None /\ findMax ([] : list Node) property = None)
  /\ (forall (nodes : list Node) property,
        ~ In property knownProperties ->
        findMin nodes property = None /\ findMax nodes property = None)
  /\ (forall (nodes : list Node) property,
        Forall (fun node => getQuantity node property = None) nodes ->
        findMin nodes property = None /\ findMax nodes property = None)
  /\ (forall conditional (nodes : list Node) total part0 operator literal function property,
        partsOf conditional = [part0; operator; literal] ->
        matchOf part0 = Some (function, property) ->
        (function = "min" /\ findMin nodes property = None) \/
        (function = "max" /\ findMax nodes property = None) ->
        exists e, compareNodeResourceConditionalToActual conditional nodes total = Err e)
  /\ (forall (nodes : list Node) property,
        (findMin nodes property = None <-> nodes = [] \/ ~ In property knownProperties)
        /\ (findMax nodes property = None <-> nodes = [] \/ ~ In property knownProperties))
  /\ (forall (nodes : list Node) property,
        nodes <> [] ->
        In property knownProperties ->
        noneReports nodes property ->
        findMin nodes property = Some zero /\ findMax nodes property = Some zero)
  /\ (forall conditional (nodes : list Node) total part0 operator literal function property
             results y,
        partsOf conditional = [part0; operator; literal] ->
        matchOf part0 = Some (function, property) ->
        accepted operator = Some results ->
        function = "min" \/ function = "max" ->
        nodes <> [] ->
        In property knownProperties ->
        noneReports nodes property ->
        literalQuantity literal = inl y ->
        compareNodeResourceConditionalToActual conditional nodes total
        = Ok (among (Cmp zero y) results)).
Proof.
  assert (Hunknown : forall (nodes : list Node) property,
             ~ In property knownProperties ->
             findMin nodes property = None /\ findMax nodes property = None).
  { intros nodes property Hnot.
    assert (Forall (fun node => getQuantity node property = None) nodes) as H.
    { apply Forall_forall. intros node _. now apply getQuantity_unknown. }
    split; [now apply findMin_none | now apply findMax_none]. }
  split; [|split; [|split; [|split; [|split; [|split]]]]].
  - intros property. split; reflexivity.
  - exact Hunknown.
  - intros nodes property H. split; [now apply findMin_none | now apply findMax_none].
  - intros c nodes t part0 op lit f prop Hparts Hmatch Hnone.
    assert (Hact : actualValueOf f prop nodes = VQuantity None).
    { destruct Hnone as [[-> H]|[-> H]]; unfold actualValueOf; simpl; now rewrite H. }
    destruct (compareCase_nil_pointer lit) as [r Hr].
    destruct (compareBody_mismatch c nodes t part0 op lit f prop r
                (partsOf_not_empty _ _ _ Hparts) Hparts Hmatch) as [H|H].
    + intros intRel cmpTest. rewrite Hact. apply Hr.
    + eexists. apply compare_body_panic, H.
    + eexists. apply compare_body_err, H.
  - intros nodes property. split; split.
    + intros H. destruct nodes as [|node nodes]; [now left|]. right. intros Hin.
      now apply (findMin_known node nodes property Hin).
    + intros [->|Hnot]; [reflexivity | now apply Hunknown].
    + intros H. destruct nodes as [|node nodes]; [now left|]. right. intros Hin.
      now apply (findMax_known node nodes property Hin).
    + intros [->|Hnot]; [reflexivity | now apply Hunknown].
  - apply findMin_findMax_unreported.
  - intros c nodes t part0 op lit f prop results y Hparts Hmatch Hacc Hf Hne Hknown Hnone Hy.
    destruct (findMin_findMax_unreported nodes prop Hne Hknown Hnone) as [Hmin Hmax].
    apply (compare_quantity c nodes t part0 op lit f prop results zero y Hparts Hmatch Hacc);
      [|exact Hy].
    destruct Hf as [-> | ->]; unfold actualValueOf; simpl; [now rewrite Hmin | now rewrite Hmax].
Qed.

Lemma selectOutcome_passedOver (matchingNodes : list Node) total result o rest :
  passedOver matchingNodes total o ->
  selectOutcome (o :: rest) matchingNodes total result
  = selectOutcome rest matchingNodes total result.
Proof.
  unfold passedOver, evaluatesTo, entryOf. simpl. unfold tryOutcome.
  intros [H|(v & single & H & Hcmp)];
    destruct (Outcome.Fail o), (Outcome.Warn o), (Outcome.Pass o);
    try discriminate H; try reflexivity;
    injection H as <- <-; now rewrite Hcmp.
Qed.

Lemma selectOutcome_decides (matchingNodes : list Node) total result o rest v single :
  entryOf o = Some (v, single) ->
  compareNodeResourceConditionalToActual (SingleOutcome.When single) matchingNodes total
  = Ok true ->
  selectOutcome (o :: rest) matchingNodes total result = Ok (decidedBy v single result).
Proof.
  unfold entryOf, decidedBy. simpl. unfold tryOutcome. intros H Hcmp.
  destruct (Outcome.Fail o), (Outcome.Warn o), (Outcome.Pass o);
    try discriminate H; injection H as <- <-; now rewrite Hcmp.
Qed.

Lemma selectOutcome_skip (matchingNodes : list Node) total result before rest :
  Forall (passedOver matchingNodes total) before ->
  selectOutcome (before ++ rest) matchingNodes total result
  = selectOutcome rest matchingNodes total result.
Proof.
  induction 1 as [|o before Ho _ IH]; [reflexivity|].
  rewrite <- app_comm_cons, selectOutcome_passedOver by assumption. exact IH.
Qed.

Lemma selectOutcome_fails (matchingNodes : list Node) total result o rest v single e :
  entryOf o = Some (v, single) ->
  compareNodeResourceConditionalToActual (SingleOutcome.When single) matchingNodes total
  = Err e ->
  selectOutcome (o :: rest) matchingNodes total result = Err (Wrap e "failed to parse when").
Proof.
  unfold entryOf. simpl. unfold tryOutcome. intros H Hcmp.
  destruct (Outcome.Fail o), (Outcome.Warn o), (Outcome.Pass o);
    try discriminate H; injection H as <- <-; now rewrite Hcmp.
Qed.

(** What the three assignments of a branch leave in the result. *)
Lemma decidedBy_carries v single result : carries v single result (decidedBy v single result).
Proof. destruct v; repeat split. Qed.

(** Every outcome list is passed over as a whole, or up to a first entry
    whose conditional is true or cannot be evaluated. *)
Lemma outcomes_split (outcomes : list Outcome.t) (matchingNodes : list Node) total :
  Forall (passedOver matchingNodes total) outcomes
  \/ exists before o after v single,
       outcomes = before ++ o :: after /\
       Forall (passedOver matchingNodes total) before /\
       entryOf o = Some (v, single) /\
       (compareNodeResourceConditionalToActual (SingleOutcome.When single)
          matchingNodes total = Ok true
        \/ exists e,
             compareNodeResourceConditionalToActual (SingleOutcome.When single)
               matchingNodes total = Err e).
Proof.
  induction outcomes as [|o outcomes IH]; [left; constructor|].
  assert (Hcons : passedOver matchingNodes total o ->
            Forall (passedOver matchingNodes total) (o :: outcomes)
            \/ exists before o' after v single,
                 o :: outcomes = before ++ o' :: after /\
                 Forall (passedOver matchingNodes total) before /\
                 entryOf o' = Some (v, single) /\
                 (compareNodeResourceConditionalToActual (SingleOutcome.When single)
                    matchingNodes total = Ok true
                  \/ exists e,
                       compareNodeResourceConditionalToActual (SingleOutcome.When single)
                         matchingNodes total = Err e)).
  { intros Ho. destruct IH as [Hall|(before & o' & after & v & single & -> & Hb & He & Hc)].
    - left. now constructor.
    - right. exists (o :: before), o', after, v, single.
      split; [reflexivity|]. split; [now constructor|]. now split. }
  destruct (entryOf o) as [[v single]|] eqn:Hentry; [|apply Hcons; now left].
  destruct (compareNodeResourceConditionalToActual (SingleOutcome.When single)
              matchingNodes total) as [[|]|e|r] eqn:Hcmp.
  - right. exists [], o, outcomes, v, single. repeat split; [constructor | exact Hentry |].
    now left.
  - apply Hcons. right. exists v, single. now split.
  - right. exists [], o, outcomes, v, single. repeat split; [constructor | exact Hentry |].
    right. eauto.
  - now apply compare_never_panics in Hcmp.
Qed.

(** C1.  The outcomes are tried in the order of the list, each by the
    first of its entries [Fail], [Warn], [Pass] that is there.  When the
    entries before one whose conditional is true are passed over, that one
    decides, whatever the entries behind it: its flag is set, the two other
    flags, the title and the icon stay as they were, and the message and the
    URI are its own.  When every entry is passed over, the result is
    returned as it was made, without a verdict, and that is no error.  When
    the entries before one whose conditional cannot be evaluated are passed
    over, the error is returned, wrapped, whatever the entries behind it,
    even one whose conditional is true.  Every list is one of these
    three. *)
Theorem outcome_first_match :
  forall outcomes (matchingNodes : list Node) total result,
    (forall before o after v single,
        outcomes = before ++ o :: after ->
        Forall (passedOver matchingNodes total) before ->
        entryOf o = Some (v, single) ->
        compareNodeResourceConditionalToActual (SingleOutcome.When single)
          matchingNodes total = Ok true ->
        exists decided,
          selectOutcome outcomes matchingNodes total result = Ok decided /\
          carries v single result decided)
    /\ (Forall (passedOver matchingNodes total) outcomes ->
        selectOutcome outcomes matchingNodes total result = Ok result)
    /\ (forall title,
          AnalyzeResult.IsFail (newResult title) = false
          /\ AnalyzeResult.IsWarn (newResult title) = false
          /\ AnalyzeResult.IsPass (newResult title) = false)
    /\ (forall before o after v single e,
          outcomes = before ++ o :: after ->
          Forall (passedOver matchingNodes total) before ->
          entryOf o = Some (v, single) ->
          compareNodeResourceConditionalToActual (SingleOutcome.When single)
            matchingNodes total = Err e ->
          selectOutcome outcomes matchingNodes total result
          = Err (Wrap e "failed to parse when"))
    /\ (Forall (passedOver matchingNodes total) outcomes
        \/ exists before o after v single,
             outcomes = before ++ o :: after /\
             Forall (passedOver matchingNodes total) before /\
             entryOf o = Some (v, single) /\
             (compareNodeResourceConditionalToActual (SingleOutcome.When single)
                matchingNodes total = Ok true
              \/ exists e,
                   compareNodeResourceConditionalToActual (SingleOutcome.When single)
                     matchingNodes total = Err e)).
Proof.
  intros outcomes m t result. split; [|split; [|split; [|split]]].
  - intros before o after v single -> Hbefore Hentry Htrue.
    exists (decidedBy v single result). split; [|apply decidedBy_carries].
    rewrite selectOutcome_skip by assumption.
    now apply selectOutcome_decides.
  - intros Hall. rewrite <- (app_nil_r outcomes).
    now rewrite selectOutcome_skip.
  - intros title. repeat split.
  - intros before o after v single e -> Hbefore Hentry Herr.
    rewrite selectOutcome_skip by assumption.
    now apply (selectOutcome_fails m t result o after v single e).
  - apply outcomes_split.
Qed.

End AggregateProperties.

(* ===================================================================== *)
(** ** The node filter                                                    *)
(* ===================================================================== *)

Section FilterProperties.
Context `{RL : resource.Lib}.

Import resource corev1.

Lemma matchLabels_all kvs (labels : gmap string string) :
  (forall k v, In (k, v) kvs -> labels !! k = Some v) ->
  matchLabels kvs labels = Ok tt.
Proof.
  induction kvs as [|[k v] kvs IH]; intros H; simpl; [reflexivity|].
  rewrite (H k v) by (left; reflexivity).
  rewrite String.eqb_refl. apply IH. intros k' v' Hin. apply H. now right.
Qed.

Lemma matchLabels_mismatch kvs (labels : gmap string string) k v :
  In (k, v) kvs -> labels !! k <> Some v ->
  exists k', matchLabels kvs labels = Err (New (String.append "failed to match label " k')).
Proof.
  induction kvs as [|[k0 v0] kvs IH]; intros Hin Hne; simpl; [destruct Hin|].
  destruct (labels !! k0) as [l|] eqn:Hl; [|eauto].
  destruct (String.eqb_spec l v0) as [->|Hlv]; [|eauto].
  destruct Hin as [Heq|Hin]; [|now apply IH].
  injection Heq as -> ->. congruence.
Qed.

Lemma matchLabels_no_panic kvs (labels : gmap string string) r :
  matchLabels kvs labels <> Panic r.
Proof.
  induction kvs as [|[k v] kvs IH]; simpl; [discriminate|].
  destruct (labels !! k) as [l|]; [|discriminate].
  destruct (String.eqb l v); [exact IH | discriminate].
Qed.

Lemma threshold_no_panic bound actual msg rest :
  (forall r, rest <> Panic r) -> forall r, threshold bound actual msg rest <> Panic r.
Proof.
  intros H r. unfold threshold.
  destruct (String.eqb bound ""); [apply H|].
  destruct (ParseQuantity bound); [|discriminate].
  destruct (Z.eqb (Cmp actual q) (-1)); [discriminate | apply H].
Qed.

Lemma checkClauses_no_panic clauses r : checkClauses clauses <> Panic r.
Proof.
  revert r. induction clauses as [|[[bound actual] msg] rest IH]; simpl; [discriminate|].
  now apply threshold_no_panic.
Qed.

(** The function is its label loop followed by its threshold blocks. *)
Lemma nodeMatchesFilters_unfold (node : Node) filters :
  nodeMatchesFilters node (Some filters) =
    match
      match NodeResourceFilters.Selector filters with
      | Some selector =>
          matchLabels (map_to_list (NodeResourceSelectors.MatchLabel selector)) (Labels node)
      | None => Ok tt
      end
    with
    | Ok _ => checkClauses (thresholdClauses node filters)
    | Err e => Err e
    | Panic r => Panic r
    end.
Proof. reflexivity. Qed.

Lemma nodeMatchesFilters_no_panic (node : Node) filters r :
  nodeMatchesFilters node filters <> Panic r.
Proof.
  destruct filters as [filters|]; [|discriminate].
  rewrite nodeMatchesFilters_unfold.
  destruct (NodeResourceFilters.Selector filters) as [selector|].
  - destruct (matchLabels _ _) eqn:H; [apply checkClauses_no_panic | discriminate |].
    now apply matchLabels_no_panic in H.
  - apply checkClauses_no_panic.
Qed.

Lemma nodeMatchesFilters_labels (node : Node) filters :
  labelsMatch node filters ->
  nodeMatchesFilters node (Some filters) = checkClauses (thresholdClauses node filters).
Proof.
  intros H. rewrite nodeMatchesFilters_unfold.
  destruct (NodeResourceFilters.Selector filters) as [selector|] eqn:Hsel; [|reflexivity].
  rewrite matchLabels_all; [reflexivity|].
  intros k v Hin. apply (H selector k v Hsel).
  apply elem_of_map_to_list. now apply list_elem_of_In.
Qed.

Lemma threshold_passes bound actual msg rest :
  clausePasses (bound, actual, msg) -> threshold bound actual msg rest = rest.
Proof.
  unfold clausePasses, threshold. intros [->|(parsed & Hp & Hc)]; [reflexivity|].
  destruct (String.eqb bound ""); [reflexivity|].
  rewrite Hp. now apply Z.eqb_neq in Hc as ->.
Qed.

Lemma checkClauses_skip before rest :
  Forall clausePasses before -> checkClauses (before ++ rest) = checkClauses rest.
Proof.
  induction 1 as [|[[bound actual] msg] before Hc _ IH]; simpl; [reflexivity|].
  now rewrite threshold_passes.
Qed.

Lemma checkClauses_all clauses : Forall clausePasses clauses -> checkClauses clauses = Ok true.
Proof.
  intros H. rewrite <- (app_nil_r clauses). now rewrite checkClauses_skip.
Qed.

Lemma filterNodes_error (nodes matching : list Node) filters node e :
  In node nodes ->
  nodeMatchesFilters node filters = Err e ->
  exists e', filterNodes nodes matching filters = Err e'.
Proof.
  revert matching. induction nodes as [|n nodes IH]; intros matching Hin He; [destruct Hin|].
  simpl. destruct (nodeMatchesFilters n filters) as [b|e0|r] eqn:Hn.
  - destruct Hin as [->|Hin]; [congruence|]. now apply IH.
  - eauto.
  - now apply nodeMatchesFilters_no_panic in Hn.
Qed.

Lemma filterNodes_ok (nodes matching : list Node) filters :
  (forall node, In node nodes -> exists b, nodeMatchesFilters node filters = Ok b) ->
  filterNodes nodes matching filters = Ok (matching ++ List.filter (isMatch filters) nodes).
Proof.
  revert matching. induction nodes as [|n nodes IH]; intros matching H; simpl.
  - now rewrite app_nil_r.
  - destruct (H n (or_introl eq_refl)) as [b Hb].
    unfold isMatch at 1. rewrite Hb.
    rewrite IH by (intros node Hin; apply H; now right).
    destruct b; [|reflexivity]. now rewrite <- app_assoc.
Qed.

(** C4 (as the code has it).  For a node that passes the label clauses and
    every threshold clause checked before this one: a declared bound that is
    malformed gives a parse error, which aborts the filtering of every node
    list the node is in; a well-formed bound excludes the node, without an
    error, when the node's quantity is below it, and with the later clauses
    passing the node matches if and only if its quantity is not below the
    bound, so a quantity exactly at the bound matches.  The quantity of a
    node whose resource list lacks the entry is the zero quantity.  When no
    node gives an error, the matching set is the nodes that match, in their
    order. *)
Theorem threshold_clause :
  forall (node : Node) filters before bound actual msg after,
    labelsMatch node filters ->
    thresholdClauses node filters = before ++ (bound, actual, msg) :: after ->
    Forall clausePasses before ->
    bound <> "" ->
    (forall err,
        ParseQuantity bound = inr err ->
        nodeMatchesFilters node (Some filters) = Err (Wrap err msg) /\
        forall nodes matching,
          In node nodes -> exists e, filterNodes nodes matching (Some filters) = Err e)
    /\ (forall parsed,
          ParseQuantity bound = inl parsed ->
          (Cmp actual parsed = -1 -> nodeMatchesFilters node (Some filters) = Ok false)
          /\ (Forall clausePasses after ->
              (nodeMatchesFilters node (Some filters) = Ok true <-> Cmp actual parsed <> -1))
          /\ (Forall clausePasses after -> Cmp actual parsed = 0 ->
              nodeMatchesFilters node (Some filters) = Ok true))
    /\ (forall (rl : ResourceList) name, rl !! name = None -> Name rl name = zero)
    /\ (forall nodes,
          (forall n, In n nodes -> exists b, nodeMatchesFilters n (Some filters) = Ok b) ->
          filterNodes nodes [] (Some filters)
          = Ok (List.filter (isMatch (Some filters)) nodes)).
Proof.
  intros node filters before bound actual msg after Hlabels Hclauses Hbefore Hdeclared.
  assert (Hshape : nodeMatchesFilters node (Some filters)
                   = threshold bound actual msg (checkClauses after)).
  { rewrite nodeMatchesFilters_labels by assumption.
    rewrite Hclauses, checkClauses_skip by assumption. reflexivity. }
  apply String.eqb_neq in Hdeclared.
  split; [|split; [|split]].
  - intros err Herr.
    assert (He : nodeMatchesFilters node (Some filters) = Err (Wrap err msg)).
    { rewrite Hshape. unfold threshold. now rewrite Hdeclared, Herr. }
    split; [exact He|]. intros nodes matching Hin.
    now apply (filterNodes_error nodes matching (Some filters) node (Wrap err msg)).
  - intros parsed Hparsed.
    assert (Hcase : nodeMatchesFilters node (Some filters)
                    = if Z.eqb (Cmp actual parsed) (-1) then Ok false else checkClauses after).
    { rewrite Hshape. unfold threshold. now rewrite Hdeclared, Hparsed. }
    split; [|split].
    + intros Hlt. rewrite Hcase. now apply Z.eqb_eq in Hlt as ->.
    + intros Hafter. rewrite Hcase, (checkClauses_all after Hafter).
      destruct (Z.eqb_spec (Cmp actual parsed) (-1)) as [E|E]; split; intros H;
        congruence.
    + intros Hafter Heq. rewrite Hcase, (checkClauses_all after Hafter), Heq. reflexivity.
  - intros rl name H. unfold Name. now rewrite H.
  - intros nodes H. now rewrite filterNodes_ok.
Qed.

(** C5.  When a filter declares labels and one node of the list lacks a
    declared key or has another value for it, the check of that node returns
    an error, the filtering of the whole list returns an error whatever the
    other nodes are, and so does the analyzer, whatever its outcomes: no
    matching set is made and no outcome is evaluated. *)
Theorem label_mismatch_aborts :
  forall `{DL : !Decoders} (nodes : list Node) filters selector node k v,
    NodeResourceFilters.Selector filters = Some selector ->
    NodeResourceSelectors.MatchLabel selector !! k = Some v ->
    In node nodes ->
    Labels node !! k <> Some v ->
    (exists k',
        nodeMatchesFilters node (Some filters)
        = Err (New (String.append "failed to match label " k')))
    /\ (forall matching, exists e, filterNodes nodes matching (Some filters) = Err e)
    /\ (forall analyzer getCollectedFileContents collected outcomes,
          getCollectedFileContents "cluster-resources/nodes.json" = Ok collected ->
          gate analyzer getCollectedFileContents (titleOf analyzer)
            (newResult (titleOf analyzer)) = Ok (inr (Some filters, outcomes)) ->
          unmarshalNodes collected = inl nodes ->
          exists e, analyzeNodeResources analyzer getCollectedFileContents = Err e).
Proof.
  intros DL nodes filters selector node k v Hsel Hk Hin Hne.
  assert (Hnode : exists k', nodeMatchesFilters node (Some filters)
                             = Err (New (String.append "failed to match label " k'))).
  { rewrite nodeMatchesFilters_unfold, Hsel.
    destruct (matchLabels_mismatch
                (map_to_list (NodeResourceSelectors.MatchLabel selector))
                (Labels node) k v) as [k' Hk'].
    - apply list_elem_of_In, elem_of_map_to_list, Hk.
    - exact Hne.
    - exists k'. now rewrite Hk'. }
  assert (Hall : forall matching, exists e, filterNodes nodes matching (Some filters) = Err e).
  { intros matching. destruct Hnode as [k' Hk'].
    now apply (filterNodes_error nodes matching (Some filters) node _ Hin Hk'). }
  split; [exact Hnode|]. split; [exact Hall|].
  intros analyzer get collected outcomes Hget Hgate Hnodes.
  unfold analyzeNodeResources. rewrite Hget. cbv zeta. rewrite Hgate. simpl.
  rewrite Hnodes. destruct (Hall []) as [e He]. rewrite He. simpl. eauto.
Qed.

End FilterProperties.

(* ===================================================================== *)
(** ** The deployment gate                                                *)
(* ===================================================================== *)

Section GateProperties.
Context `{RL : resource.Lib} `{DL : !Decoders}.

Import resource corev1.

Lemma titleOf_ungated filters outcomes analyzer :
  titleOf (ungated filters outcomes analyzer) = titleOf analyzer.
Proof. reflexivity. Qed.

(** Without a gate the analyzer filters and selects with its own specs. *)
Lemma analyze_ungated filters outcomes analyzer (getCollectedFileContents : fileReader) collected :
  getCollectedFileContents "cluster-resources/nodes.json" = Ok collected ->
  analyzeNodeResources (ungated filters outcomes analyzer) getCollectedFileContents =
    match unmarshalNodes collected with
    | inr err => Err (Wrap err "failed to unmarshal node list")
    | inl nodes =>
        matchingNodes ← filterNodes nodes [] filters;
        selectOutcome outcomes matchingNodes (Z.of_nat (length nodes))
          (newResult (titleOf analyzer))
    end.
Proof. intros H. unfold analyzeNodeResources. rewrite H. reflexivity. Qed.

Lemma analyze_gated analyzer (getCollectedFileContents : fileReader) collected filters outcomes :
  getCollectedFileContents "cluster-resources/nodes.json" = Ok collected ->
  gate analyzer getCollectedFileContents (titleOf analyzer) (newResult (titleOf analyzer))
  = Ok (inr (filters, outcomes)) ->
  analyzeNodeResources analyzer getCollectedFileContents
  = analyzeNodeResources (ungated filters outcomes analyzer) getCollectedFileContents.
Proof.
  intros Hget Hgate. rewrite (analyze_ungated _ _ _ _ _ Hget).
  unfold analyzeNodeResources. rewrite Hget. cbv zeta. rewrite Hgate. reflexivity.
Qed.




End GateProperties.

(* ===================================================================== *)
(** ** The lookup of collected files by prefix                            *)
(* ===================================================================== *)

Section PreflightProperties.
Variable filepathMatch : string -> string -> bool.

(** A loop over [src] into a map that is not nil leaves a map that is not
    nil: the entries of [src] that pass the test, over what was there. *)
Lemma collect_lookup (test : string -> bool) (src m : gmap string bytes) :
  exists m',
    collect test src (Some m) = Ok (Some m') /\
    forall k, m' !! k = if test k then
                          match src !! k with Some v => Some v | None => m !! k end
                        else m !! k.
Proof.
  unfold collect.
  apply (map_fold_weak_ind
           (fun (r : outcome (option (gmap string bytes))) (src : gmap string bytes) =>
              exists m', r = Ok (Some m') /\
                forall k, m' !! k = if test k then
                                      match src !! k with Some v => Some v | None => m !! k end
                                    else m !! k)).
  - exists m. split; [reflexivity|]. intros k. rewrite lookup_empty. now destruct (test k).
  - intros i x src' r Hi (m' & -> & Hm'). simpl.
    destruct (test i) eqn:Hti.
    + eexists. split; [reflexivity|]. intros k.
      destruct (decide (i = k)) as [->|Hik].
      * now rewrite Hti, !lookup_insert_eq.
      * rewrite !lookup_insert_ne by assumption. apply Hm'.
    + exists m'. split; [reflexivity|]. intros k.
      destruct (decide (i = k)) as [->|Hik].
      * rewrite Hti. specialize (Hm' k). now rewrite Hti in Hm'.
      * rewrite lookup_insert_ne by assumption. apply Hm'.
Qed.

(** C10.  [getChildCollectedFileContents] returns after its scan of
    [protected]: for every prefix the map it returns holds exactly the
    entries of [protected] whose key has the prefix or matches it as a
    pattern; it is the empty map when [protected] is nil; and the result is
    the same whatever [AllCollectedData] holds, so the two loops over it are
    never run. *)
Theorem child_contents_from_protected :
  forall (protected : option (gmap string bytes)) (AllCollectedData : gmap string bytes)
         (prefix : string),
    (exists matching,
        getChildCollectedFileContents filepathMatch protected AllCollectedData prefix
        = Ok (Some matching) /\
        forall k,
          matching !! k =
            if Go.HasPrefix k prefix || filepathMatch prefix k
            then match protected with Some entries => entries !! k | None => None end
            else None)
    /\ getChildCollectedFileContents filepathMatch None AllCollectedData prefix = Ok (Some ∅)
    /\ (forall other : gmap string bytes,
          getChildCollectedFileContents filepathMatch protected other prefix
          = getChildCollectedFileContents filepathMatch protected AllCollectedData prefix).
Proof.
  intros protected all prefix.
  assert (Hshape : forall data, exists matching,
             getChildCollectedFileContents filepathMatch protected data prefix
             = Ok (Some matching) /\
             forall k,
               matching !! k =
                 if Go.HasPrefix k prefix || filepathMatch prefix k
                 then match protected with Some entries => entries !! k | None => None end
                 else None).
  { intros data. unfold getChildCollectedFileContents.
    destruct protected as [entries|].
    - destruct (collect_lookup (fun k => Go.HasPrefix k prefix) entries ∅) as (m1 & H1 & L1).
      destruct (collect_lookup (fun k => filepathMatch prefix k) entries m1) as (m2 & H2 & L2).
      exists m2. rewrite H1. simpl. rewrite H2. simpl. split; [reflexivity|].
      intros k. rewrite L2, L1, lookup_empty.
      destruct (Go.HasPrefix k prefix), (filepathMatch prefix k), (entries !! k);
        reflexivity.
    - exists ∅. split; [reflexivity|]. intros k. rewrite lookup_empty.
      now destruct (Go.HasPrefix k prefix || filepathMatch prefix k). }
  split; [apply Hshape|]. split; [reflexivity|].
  intros other.
  destruct (Hshape other) as (m1 & H1 & L1), (Hshape all) as (m2 & H2 & L2).
  rewrite H1, H2. do 2 f_equal. apply map_eq. intros k. now rewrite L1, L2.
Qed.

End PreflightProperties.

(* ===================================================================== *)
(** ** The properties at concrete inputs                                  *)
(* ===================================================================== *)

Import Example.

(** Three nodes with 2, 4 and 8 CPUs; three outcomes, of which the second is
    the first that is true; one outcome that is false; and a conditional
    that cannot be evaluated between a false and a true one. *)
Lemma outcome_first_match_example :
  (exists decided,
      selectOutcome threeOutcomes [cpuNode 2; cpuNode 4; cpuNode 8] 3
        (newResult "Node Resources") = Ok decided
      /\ AnalyzeResult.IsWarn decided = true
      /\ AnalyzeResult.IsFail decided = false
      /\ AnalyzeResult.IsPass decided = false
      /\ AnalyzeResult.Message decided = "some"
      /\ AnalyzeResult.URI decided = ""
      /\ AnalyzeResult.Title decided = "Node Resources")
  /\ selectOutcome [fail "count() > 5" "too many"] [cpuNode 2; cpuNode 4; cpuNode 8] 3
       (newResult "Node Resources")
     = Ok (newResult "Node Resources")
  /\ selectOutcome [fail "count() > 5" "too many"; warn "count() != 3" "odd"; pass "" "fine"]
       [cpuNode 2; cpuNode 4; cpuNode 8] 3 (newResult "Node Resources")
     = Err (Wrap (New "unexpected conditional in nodeResources") "failed to parse when").
Proof.
  assert (Hfalse : @passedOver decimal [cpuNode 2; cpuNode 4; cpuNode 8] 3
                     (fail "count() > 5" "too many")).
  { right. exists Fail, (single "count() > 5" "too many" ""). split; reflexivity. }
  assert (Hone : Forall (@passedOver decimal [cpuNode 2; cpuNode 4; cpuNode 8] 3)
                   [fail "count() > 5" "too many"]).
  { apply List.Forall_cons; [exact Hfalse | apply List.Forall_nil]. }
  split; [|split].
  - destruct (proj1 (@outcome_first_match decimal threeOutcomes
                       [cpuNode 2; cpuNode 4; cpuNode 8] 3 (newResult "Node Resources"))
                [fail "count() > 5" "too many"] (warn "count() > 0" "some")
                [pass "" "fine"] Warn (single "count() > 0" "some" "")
                eq_refl Hone eq_refl eq_refl)
      as (decided & Hsel & Hf & Hw & Hp & Hm & Hu & Ht & _).
    exists decided. split; [exact Hsel|]. split; [exact Hw|]. split; [exact Hf|].
    split; [exact Hp|]. split; [exact Hm|]. split; [exact Hu | exact Ht].
  - apply (proj1 (proj2 (@outcome_first_match decimal [fail "count() > 5" "too many"]
                           [cpuNode 2; cpuNode 4; cpuNode 8] 3 (newResult "Node Resources")))).
    exact Hone.
  - apply (proj1 (proj2 (proj2 (proj2
             (@outcome_first_match decimal
                [fail "count() > 5" "too many"; warn "count() != 3" "odd"; pass "" "fine"]
                [cpuNode 2; cpuNode 4; cpuNode 8] 3 (newResult "Node Resources")))))
             [fail "count() > 5" "too many"] (warn "count() != 3" "odd") [pass "" "fine"]
             Warn (single "count() != 3" "odd" "")
             (New "unexpected conditional in nodeResources")
             eq_refl Hone eq_refl eq_refl).
Defined.

(** The first entry whose conditional is true does not decide when an entry
    before it cannot be evaluated; and without any entry that is true the
    result can be an error. *)
Lemma outcome_first_match_counterexample :
  @compareNodeResourceConditionalToActual decimal "" [cpuNode 2] 1 = Ok true
  /\ @compareNodeResourceConditionalToActual decimal "count() != 1" [cpuNode 2] 1
     = Err (New "unexpected conditional in nodeResources")
  /\ @selectOutcome decimal [fail "count() != 1" "odd"; pass "" "fine"] [cpuNode 2] 1
       (newResult "Node Resources")
     = Err (Wrap (New "unexpected conditional in nodeResources") "failed to parse when")
  /\ ~ (exists result,
          @selectOutcome decimal [fail "count() != 1" "odd"; pass "" "fine"] [cpuNode 2] 1
            (newResult "Node Resources") = Ok result)
  /\ @selectOutcome decimal [fail "count() != 1" "odd"] [cpuNode 2] 1
       (newResult "Node Resources")
     = Err (Wrap (New "unexpected conditional in nodeResources") "failed to parse when").
Proof.
  repeat split. intros [result H]. discriminate H.
Qed.

(** An integer against an integer, a quantity against an integer literal,
    and a quantity against a literal too large for an [int]. *)
Lemma compare_type_resolution_example :
  @compareNodeResourceConditionalToActual decimal "count() < 5"
    [cpuNode 2; cpuNode 4; cpuNode 8] 3 = Ok true
  /\ @compareNodeResourceConditionalToActual decimal "min(cpuCapacity) >= 4"
       [cpuNode 4; cpuNode 6] 2 = Ok true
  /\ @compareNodeResourceConditionalToActual decimal "min(cpuCapacity) >= 4"
       [cpuNode 2; cpuNode 4; cpuNode 8] 3 = Ok false
  /\ @compareNodeResourceConditionalToActual decimal "sum(cpuCapacity) < 9223372036854775808"
       [cpuNode 2; cpuNode 4] 2 = Ok true.
Proof.
  split; [|split; [|split]].
  - apply (proj1 (@compare_type_resolution decimal "count() < 5"
                    [cpuNode 2; cpuNode 4; cpuNode 8] 3
                    "count()" "<" "5" "count" "" [-1]
                    ltac:(discriminate) eq_refl eq_refl eq_refl) 3 5); reflexivity.
  - apply (proj1 (proj2 (@compare_type_resolution decimal "min(cpuCapacity) >= 4"
                    [cpuNode 4; cpuNode 6] 2
                    "min(cpuCapacity)" ">=" "4" "min" "cpuCapacity" [0; 1]
                    ltac:(discriminate) eq_refl eq_refl eq_refl)) 4 4 4); reflexivity.
  - apply (proj1 (proj2 (@compare_type_resolution decimal "min(cpuCapacity) >= 4"
                    [cpuNode 2; cpuNode 4; cpuNode 8] 3
                    "min(cpuCapacity)" ">=" "4" "min" "cpuCapacity" [0; 1]
                    ltac:(discriminate) eq_refl eq_refl eq_refl)) 2 4 4); reflexivity.
  - apply (proj2 (proj2 (@compare_type_resolution decimal
                    "sum(cpuCapacity) < 9223372036854775808"
                    [cpuNode 2; cpuNode 4] 2
                    "sum(cpuCapacity)" "<" "9223372036854775808" "sum" "cpuCapacity" [-1]
                    ltac:(discriminate) eq_refl eq_refl eq_refl)) 6 9223372036854775808);
      reflexivity.
Defined.

(** A conditional of three tokens whose first token has no parentheses is
    neither of the two forms, and yet it is evaluated, as a count. *)
Lemma conditional_without_pattern_is_evaluated :
  Go.Fields (Go.TrimSpace "banana < 3") = ["banana"; "<"; "3"]
  /\ Go.FindStringSubmatch "banana" = None
  /\ @compareNodeResourceConditionalToActual decimal "banana < 3" [] 0 = Ok true
  /\ ~ (exists e, @compareNodeResourceConditionalToActual decimal "banana < 3" [] 0 = Err e).
Proof.
  repeat split. intros [e He]. discriminate He.
Qed.

Lemma conditional_grammar_example :
  (forall b,
      @compareNodeResourceConditionalToActual decimal "== 1" [cpuNode 2] 1 = Ok b <->
      @compareNodeResourceConditionalToActual decimal "count() == 1" [cpuNode 2] 1 = Ok b)
  /\ @compareNodeResourceConditionalToActual decimal "banana" [cpuNode 2] 1
     = Err (New "unable to parse nodeResources conditional")
  /\ (exists e, @compareNodeResourceConditionalToActual decimal "count() != 1" [cpuNode 2] 1
                = Err e)
  /\ (exists e, @compareNodeResourceConditionalToActual decimal "median(cpuCapacity) > 1"
                  [cpuNode 2] 1 = Err e)
  /\ (forall b,
      @compareNodeResourceConditionalToActual decimal "banana < 3" [cpuNode 2] 1 = Ok b <->
      @compareNodeResourceConditionalToActual decimal "count() < 3" [cpuNode 2] 1 = Ok b).
Proof.
  destruct (@conditional_grammar decimal [cpuNode 2] 1) as (_ & H2 & H3 & H4 & H5 & H6).
  split; [|split; [|split; [|split]]].
  - apply (H2 "== 1" "count() == 1" "==" "1"); reflexivity.
  - apply (H3 "banana"); [discriminate | vm_compute; lia | vm_compute; lia].
  - apply (H4 "count() != 1" "count()" "!=" "1"); reflexivity.
  - apply (H5 "median(cpuCapacity) > 1" "median(cpuCapacity)" ">" "1" "median" "cpuCapacity");
      first [reflexivity | discriminate].
  - apply (H6 "banana < 3" "count() < 3" "banana" "<" "3"); reflexivity.
Defined.

(** A node without a CPU entry matches the bound ["0"]; a malformed memory
    bound behind a CPU bound the node fails gives no error. *)
Lemma threshold_clause_counterexample :
  corev1.Capacity bareNode !! "cpu" = None
  /\ @nodeMatchesFilters decimal bareNode (Some (cpuAndMemory "0" "")) = Ok true
  /\ @filterNodes decimal [bareNode] [] (Some (cpuAndMemory "0" "")) = Ok [bareNode]
  /\ @resource.ParseQuantity decimal "bogus"
     = inr (Foreign "quantities must match the regular expression")
  /\ @nodeMatchesFilters decimal (cpuNode 2) (Some (cpuAndMemory "4" "bogus")) = Ok false
  /\ @filterNodes decimal [cpuNode 2] [] (Some (cpuAndMemory "4" "bogus")) = Ok [].
Proof. repeat split. Qed.

Lemma threshold_clause_example :
  @nodeMatchesFilters decimal (cpuNode 4) (Some (cpuAndMemory "4" "")) = Ok true
  /\ (@nodeMatchesFilters decimal (cpuNode 4) (Some (cpuAndMemory "4" "")) = Ok true
      <-> @resource.Cmp decimal 4 4 <> -1)
  /\ @nodeMatchesFilters decimal (cpuNode 2) (Some (cpuAndMemory "4" "")) = Ok false
  /\ @nodeMatchesFilters decimal (cpuNode 4) (Some (cpuAndMemory "4" "bogus"))
     = Err (Wrap (Foreign "quantities must match the regular expression")
                 "failed to parse memory capacity")
  /\ (exists e, @filterNodes decimal [cpuNode 8; cpuNode 4] []
                  (Some (cpuAndMemory "4" "bogus")) = Err e).
Proof.
  assert (Hlabels : forall n cpu memory, @labelsMatch decimal n (cpuAndMemory cpu memory)).
  { intros n cpu memory selector k v H. discriminate H. }
  assert (Hundeclared : forall (q : Z) msg, @clausePasses decimal ("", q, msg)).
  { intros q msg. now left. }
  destruct (@threshold_clause decimal (cpuNode 4) (cpuAndMemory "4" "") []
              "4" 4 "failed to parse cpu capacity"
              (tl (@thresholdClauses decimal (cpuNode 4) (cpuAndMemory "4" "")))
              (Hlabels _ _ _) eq_refl (List.Forall_nil _) ltac:(discriminate))
    as (_ & Hat & _ & _).
  destruct (Hat 4 eq_refl) as (_ & Hiff & Hexact).
  assert (Hafter : Forall (@clausePasses decimal)
                     (tl (@thresholdClauses decimal (cpuNode 4) (cpuAndMemory "4" "")))).
  { repeat constructor; apply Hundeclared. }
  destruct (@threshold_clause decimal (cpuNode 2) (cpuAndMemory "4" "") []
              "4" 2 "failed to parse cpu capacity"
              (tl (@thresholdClauses decimal (cpuNode 2) (cpuAndMemory "4" "")))
              (Hlabels _ _ _) eq_refl (List.Forall_nil _) ltac:(discriminate))
    as (_ & Hbelow & _ & _).
  destruct (@threshold_clause decimal (cpuNode 4) (cpuAndMemory "4" "bogus")
              [("4", 4, "failed to parse cpu capacity");
               ("", 0, "failed to parse cpu allocatable")]
              "bogus" 0 "failed to parse memory capacity"
              (tl (tl (tl (@thresholdClauses decimal (cpuNode 4) (cpuAndMemory "4" "bogus")))))
              (Hlabels _ _ _) eq_refl
              ltac:(apply List.Forall_cons;
                    [right; exists 4; split; [reflexivity | discriminate]
                    |apply List.Forall_cons; [apply Hundeclared | apply List.Forall_nil]])
              ltac:(discriminate))
    as (Hbad & _ & _ & _).
  destruct (Hbad _ eq_refl) as [Herr Habort].
  split; [exact (Hexact Hafter eq_refl)|].
  split; [exact (Hiff Hafter)|].
  split; [exact (proj1 (Hbelow 4 eq_refl) eq_refl)|].
  split; [exact Herr|].
  apply Habort. right. now left.
Defined.

(** Two nodes, of which the second lacks the declared label. *)
Lemma label_mismatch_aborts_example :
  let labelled := node [("role", "worker")] [("cpu", 4)] [] in
  let nodes := [labelled; cpuNode 8] in
  let filters := withLabels [("role", "worker")] in
  let analyzer :=
    {| NodeResources.CheckName := "";
       NodeResources.Outcomes := threeOutcomes;
       NodeResources.Filters := Some filters;
       NodeResources.Deployment := None;
       NodeResources.OnUpdate := None;
       NodeResources.OnInstall := None |} in
  @nodeMatchesFilters decimal labelled (Some filters) = Ok true
  /\ (exists k', @nodeMatchesFilters decimal (cpuNode 8) (Some filters)
                 = Err (New (String.append "failed to match label " k')))
  /\ (exists e, @filterNodes decimal nodes [] (Some filters) = Err e)
  /\ (exists e, @analyzeNodeResources decimal (snapshot nodes []) analyzer anyFile = Err e).
Proof.
  intros labelled nodes filters analyzer.
  destruct (@label_mismatch_aborts decimal (snapshot nodes []) nodes filters
              {| NodeResourceSelectors.MatchLabel := list_to_map [("role", "worker")] |}
              (cpuNode 8) "role" "worker" eq_refl eq_refl
              ltac:(right; left; reflexivity) ltac:(discriminate))
    as (Hnode & Hlist & Hanalyzer).
  split; [reflexivity|]. split; [exact Hnode|]. split; [exact (Hlist [])|].
  apply (Hanalyzer analyzer anyFile [] threeOutcomes); reflexivity.
Defined.


(** Three nodes, of which the second has no CPU entry, and a property name
    that is not known. *)
Lemma count_and_sum_example :
  @actualValueOf decimal "count" "cpuCapacity" [cpuNode 2; bareNode; cpuNode 4] = VInt 3
  /\ @findSum decimal [cpuNode 2; bareNode; cpuNode 4] "cpuCapacity" = 6
  /\ @findSum decimal [cpuNode 2; bareNode; cpuNode 4] "cpuCapacity"
     = @findSum decimal [cpuNode 2; cpuNode 4] "cpuCapacity"
  /\ @findSum decimal [cpuNode 2; cpuNode 4] "cpu" = @findSum decimal [cpuNode 2] "cpu"
  /\ @findSum decimal [] "cpuCapacity" = 0.
Proof.
  destruct (@count_and_sum decimal [cpuNode 2; bareNode; cpuNode 4] "cpuCapacity")
    as (Hcount & _ & _ & Hzero & _ & _ & Hentry).
  destruct (@count_and_sum decimal [cpuNode 2; cpuNode 4] "cpu")
    as (_ & _ & _ & _ & _ & Hskip & _).
  split; [exact Hcount|]. split; [reflexivity|]. split; [|split; [|exact Hzero]].
  - apply (Hentry Z.add_0_r [cpuNode 2] bareNode [cpuNode 4]); reflexivity.
  - apply (Hskip [cpuNode 2] (cpuNode 4) []); reflexivity.
Defined.

(** The minimum over no nodes, and over nodes for a name that is not
    known; and the maximum over a node that reports no CPU. *)
Lemma min_max_no_value_example :
  @findMin decimal [cpuNode 2] "cpu" = None
  /\ (exists e, @compareNodeResourceConditionalToActual decimal "min(cpuCapacity) > 4" [] 0
                = Err e)
  /\ (exists e, @compareNodeResourceConditionalToActual decimal "max(cpu) > 4" [cpuNode 2] 1
                = Err e)
  /\ @findMax decimal [bareNode] "cpuCapacity" = Some 0
  /\ @compareNodeResourceConditionalToActual decimal "max(cpuCapacity) >= 1" [bareNode] 1
     = Ok false.
Proof.
  destruct (@min_max_no_value decimal) as (_ & Hunknown & _ & Hcompare & _ & Hzero & Hbool).
  assert (Hnone : @noneReports decimal [bareNode] "cpuCapacity").
  { apply List.Forall_cons; [reflexivity | apply List.Forall_nil]. }
  split; [|split; [|split; [|split]]].
  - apply (Hunknown [cpuNode 2] "cpu"). vm_compute. intuition discriminate.
  - apply (Hcompare "min(cpuCapacity) > 4" [] 0 "min(cpuCapacity)" ">" "4" "min" "cpuCapacity");
      [reflexivity | reflexivity | left; split; reflexivity].
  - apply (Hcompare "max(cpu) > 4" [cpuNode 2] 1 "max(cpu)" ">" "4" "max" "cpu");
      [reflexivity | reflexivity | right; split; reflexivity].
  - apply (Hzero [bareNode] "cpuCapacity"); [discriminate | now left | exact Hnone].
  - apply (Hbool "max(cpuCapacity) >= 1" [bareNode] 1 "max(cpuCapacity)" ">=" "1"
             "max" "cpuCapacity" [0; 1] 1);
      [reflexivity | reflexivity | reflexivity | now right | discriminate | now left
      | exact Hnone | reflexivity].
Defined.

(** No node of the list reports a CPU capacity, and yet the minimum is a
    value, the zero quantity, and the comparison returns a boolean. *)
Lemma min_max_no_value_counterexample :
  @noneReports decimal [bareNode] "cpuCapacity"
  /\ @getQuantity decimal bareNode "cpuCapacity" = Some 0
  /\ @findMin decimal [bareNode] "cpuCapacity" = Some 0
  /\ @findMax decimal [bareNode] "cpuCapacity" = Some 0
  /\ @compareNodeResourceConditionalToActual decimal "min(cpuCapacity) < 1" [bareNode] 1
     = Ok true
  /\ ~ (exists e, @compareNodeResourceConditionalToActual decimal "min(cpuCapacity) < 1"
                    [bareNode] 1 = Err e).
Proof.
  split; [apply List.Forall_cons; [reflexivity | apply List.Forall_nil]|].
  repeat split. intros [e He]. discriminate He.
Qed.

(** The body panics on a count compared with a word; the function returns
    the error made from the recovered panic. *)
Lemma compare_returns_bool_or_error_example :
  @compareBody decimal "count() == abc" [cpuNode 2] 1 = Panic (MustParseFailed "abc")
  /\ (exists e, @compareNodeResourceConditionalToActual decimal "count() == abc" [cpuNode 2] 1
                = Err e).
Proof.
  split; [reflexivity|].
  apply (proj2 (@compare_returns_bool_or_error decimal)
           "count() == abc" [cpuNode 2] 1 "count()" "==" "abc" "count" "" 1);
    first [reflexivity | discriminate].
Defined.

(* ===================================================================== *)
(** ** Further properties of the node filter                              *)
(* ===================================================================== *)

Section FilterCharacterisation.
Context `{RL : resource.Lib}.

Import resource corev1.

Lemma matchLabels_ok_inv kvs (labels : gmap string string) u :
  matchLabels kvs labels = Ok u ->
  forall k v, In (k, v) kvs -> labels !! k = Some v.
Proof.
  induction kvs as [|[k0 v0] kvs IH]; intros H k v Hin; [destruct Hin|].
  simpl in H. destruct (labels !! k0) as [l|] eqn:Hl; [|discriminate].
  destruct (String.eqb_spec l v0) as [->|_]; [|discriminate].
  destruct Hin as [Heq|Hin]; [|now apply IH].
  now injection Heq as <- <-.
Qed.

Lemma nodeMatchesFilters_ok_labels (node : Node) filters b :
  nodeMatchesFilters node (Some filters) = Ok b -> labelsMatch node filters.
Proof.
  rewrite nodeMatchesFilters_unfold. intros H selector k v Hsel Hk.
  rewrite Hsel in H.
  destruct (matchLabels _ _) as [u| |] eqn:Hm; try discriminate.
  apply (matchLabels_ok_inv _ _ _ Hm).
  apply list_elem_of_In, elem_of_map_to_list, Hk.
Qed.

Lemma threshold_true_inv bound actual msg rest :
  threshold bound actual msg rest = Ok true ->
  clausePasses (bound, actual, msg) /\ rest = Ok true.
Proof.
  unfold threshold, clausePasses.
  destruct (String.eqb_spec bound "") as [->|_]; [intros ->; now split; [left|]|].
  destruct (ParseQuantity bound) as [parsed|] eqn:Hp; [|discriminate].
  destruct (Z.eqb_spec (Cmp actual parsed) (-1)); [discriminate|].
  intros ->. split; [right; eauto | reflexivity].
Qed.

Lemma checkClauses_true_inv clauses :
  checkClauses clauses = Ok true -> Forall clausePasses clauses.
Proof.
  induction clauses as [|[[bound actual] msg] rest IH]; intros H; [constructor|].
  simpl in H. apply threshold_true_inv in H as [Hc Hrest].
  constructor; [exact Hc | now apply IH].
Qed.

Lemma threshold_false_inv bound actual msg rest :
  threshold bound actual msg rest = Ok false ->
  clauseExcludes (bound, actual, msg) \/
  (clausePasses (bound, actual, msg) /\ rest = Ok false).
Proof.
  unfold threshold, clausePasses, clauseExcludes.
  destruct (String.eqb_spec bound "") as [->|Hne]; [intros ->; right; now split; [left|]|].
  destruct (ParseQuantity bound) as [parsed|] eqn:Hp; [|discriminate].
  destruct (Z.eqb_spec (Cmp actual parsed) (-1)) as [Hlt|Hge].
  - intros _. left. split; [exact Hne | eauto].
  - intros ->. right. split; [right; eauto | reflexivity].
Qed.

Lemma checkClauses_false_inv clauses :
  checkClauses clauses = Ok false ->
  exists before clause after,
    clauses = before ++ clause :: after /\
    Forall clausePasses before /\ clauseExcludes clause.
Proof.
  induction clauses as [|[[bound actual] msg] rest IH]; intros H; [discriminate|].
  simpl in H. apply threshold_false_inv in H as [Hex|[Hpass Hrest]].
  - exists [], (bound, actual, msg), rest. repeat split; [constructor | apply Hex..].
  - destruct (IH Hrest) as (before & clause & after & -> & Hb & Hc).
    exists ((bound, actual, msg) :: before), clause, after.
    split; [reflexivity|]. split; [now constructor | exact Hc].
Qed.

Lemma checkClauses_excluded before clause after :
  Forall clausePasses before -> clauseExcludes clause ->
  checkClauses (before ++ clause :: after) = Ok false.
Proof.
  intros Hb Hc. rewrite checkClauses_skip by assumption.
  destruct clause as [[bound actual] msg]. destruct Hc as (Hne & parsed & Hp & Hlt).
  simpl. unfold threshold. apply String.eqb_neq in Hne. rewrite Hne, Hp, Hlt. reflexivity.
Qed.

(** X1.  The clauses of a filter are a conjunction.  A node matches exactly
    when it carries every declared label and passes every threshold clause.
    It is turned away without an error exactly when it carries every declared
    label and, of the threshold clauses, the first that does not let it
    through is a well-formed bound above its quantity.  A label that does not
    match never gives [false]: it gives an error. *)
Theorem filter_is_conjunction :
  forall (node : Node) filters,
    (nodeMatchesFilters node (Some filters) = Ok true <->
       labelsMatch node filters /\ Forall clausePasses (thresholdClauses node filters))
    /\ (nodeMatchesFilters node (Some filters) = Ok false <->
          labelsMatch node filters /\
          exists before clause after,
            thresholdClauses node filters = before ++ clause :: after /\
            Forall clausePasses before /\ clauseExcludes clause).
Proof.
  intros node filters. split; split.
  - intros H. pose proof (nodeMatchesFilters_ok_labels _ _ _ H) as Hl.
    split; [exact Hl|]. rewrite nodeMatchesFilters_labels in H by assumption.
    now apply checkClauses_true_inv.
  - intros [Hl Hc]. rewrite nodeMatchesFilters_labels by assumption.
    now apply checkClauses_all.
  - intros H. pose proof (nodeMatchesFilters_ok_labels _ _ _ H) as Hl.
    split; [exact Hl|]. rewrite nodeMatchesFilters_labels in H by assumption.
    now apply checkClauses_false_inv.
  - intros (Hl & before & clause & after & Heq & Hb & Hc).
    rewrite nodeMatchesFilters_labels, Heq by assumption.
    now apply checkClauses_excluded.
Qed.

Lemma declaresNothing_matches (node : Node) filters :
  declaresNothing filters -> nodeMatchesFilters node (Some filters) = Ok true.
Proof.
  intros (H1 & H2 & H3 & H4 & H5 & H6 & H7 & H8 & Hsel).
  rewrite nodeMatchesFilters_labels.
  - apply checkClauses_all. unfold thresholdClauses.
    rewrite H1, H2, H3, H4, H5, H6, H7, H8. repeat constructor.
  - intros selector k v Hs Hk. rewrite (Hsel selector Hs), lookup_empty in Hk. discriminate.
Qed.

Lemma filterNodes_ok_inv (nodes matching result : list Node) filters :
  filterNodes nodes matching filters = Ok result ->
  forall node, In node nodes -> exists b, nodeMatchesFilters node filters = Ok b.
Proof.
  revert matching. induction nodes as [|n nodes IH]; intros matching H node Hin;
    [destruct Hin|].
  simpl in H. destruct (nodeMatchesFilters n filters) as [b| |] eqn:Hn; try discriminate.
  destruct Hin as [<-|Hin]; [eauto | now apply (IH _ H)].
Qed.

(** X2.  The matching set.  The filtering of a node list succeeds exactly
    when the check of every node returns a boolean, and the matching set is
    then the nodes that match, in the order of the list; if the check of any
    node returns an error, no matching set is returned. *)
Theorem matching_set_is_filter :
  forall (nodes result : list Node) filters,
    filterNodes nodes [] filters = Ok result <->
      (forall node, In node nodes -> exists b, nodeMatchesFilters node filters = Ok b)
      /\ result = List.filter (isMatch filters) nodes.
Proof.
  intros nodes result filters. split.
  - intros H. pose proof (filterNodes_ok_inv _ _ _ _ H) as Hall.
    split; [exact Hall|]. rewrite filterNodes_ok in H by assumption.
    now injection H as <-.
  - intros [Hall ->]. now rewrite filterNodes_ok.
Qed.

(** X3.  Without constraints every node matches: with no filter at all, or
    with a filter that declares no bound and no label, the matching set is
    the whole node list, in its order. *)
Theorem no_constraint_keeps_every_node :
  forall (nodes : list Node),
    filterNodes nodes [] None = Ok nodes
    /\ (forall filters, declaresNothing filters ->
                        filterNodes nodes [] (Some filters) = Ok nodes).
Proof.
  intros nodes.
  assert (Hall : forall filters,
             (forall node : Node, nodeMatchesFilters node filters = Ok true) ->
             filterNodes nodes [] filters = Ok nodes).
  { intros filters H. rewrite filterNodes_ok by (intros node _; eauto). simpl. f_equal.
    induction nodes as [|n nodes IH]; [reflexivity|]. simpl.
    unfold isMatch at 1. rewrite H. now rewrite IH. }
  split.
  - apply Hall. reflexivity.
  - intros filters Hnothing. apply Hall. intros node.
    now apply declaresNothing_matches.
Qed.

End FilterCharacterisation.

(* ===================================================================== *)
(** ** Further properties of the aggregates                               *)
(* ===================================================================== *)

Section AggregateCharacterisation.
Context `{RL : resource.Lib}.

Import resource corev1.

Lemma findMin_quantities (nodes : list Node) property :
  findMin nodes property = fold_left minStep (quantitiesOf nodes property) None.
Proof.
  unfold findMin, quantitiesOf. generalize (@None Quantity).
  induction nodes as [|node nodes IH]; intros acc; simpl; [reflexivity|].
  destruct (getQuantity node property); simpl; apply IH.
Qed.

Lemma findMax_quantities (nodes : list Node) property :
  findMax nodes property = fold_left maxStep (quantitiesOf nodes property) None.
Proof.
  unfold findMax, quantitiesOf. generalize (@None Quantity).
  induction nodes as [|node nodes IH]; intros acc; simpl; [reflexivity|].
  destruct (getQuantity node property); simpl; apply IH.
Qed.

(** The loop with the test for [sign] ([-1] for the minimum, [1] for the
    maximum): what it returns is the start value or one of the quantities,
    and nothing it has seen compares to it with [sign]. *)
Lemma extreme_fold (sign : Z) (qs : list Quantity) (acc : option Quantity) :
  let step := fun (cur : option Quantity) (quant : Quantity) =>
                match cur with
                | None => Some quant
                | Some m => if Z.eqb (Cmp quant m) sign then Some quant else cur
                end in
  match fold_left step qs acc with
  | None => acc = None /\ qs = []
  | Some q =>
      (acc = Some q \/ In q qs) /\
      ((forall a, Cmp a a <> sign) ->
       (forall a b c, Cmp a b = sign -> Cmp b c = sign -> Cmp a c = sign) ->
       (forall a b c, Cmp a b <> sign -> Cmp b c <> sign -> Cmp a c <> sign) ->
       (forall a, acc = Some a -> Cmp a q <> sign) /\
       (forall q', In q' qs -> Cmp q' q <> sign))
  end.
Proof.
  intros step. revert acc. induction qs as [|x qs IH]; intros acc; simpl.
  - destruct acc as [q|]; [|now split]. split; [now left|].
    intros Hirr _ _. split; [|intros q' []]. intros a Ha. injection Ha as ->. apply Hirr.
  - specialize (IH (step acc x)).
    destruct (fold_left step qs (step acc x)) as [q|].
    + destruct IH as [Hmem Hbound]. split.
      * destruct Hmem as [Hacc|Hin]; [|right; now right].
        unfold step in Hacc. destruct acc as [a|].
        -- destruct (Z.eqb (Cmp x a) sign); [right; left; congruence | now left].
        -- right. left. congruence.
      * intros Hirr Htrans Hneg. destruct (Hbound Hirr Htrans Hneg) as [Hstart Hrest].
        unfold step in Hstart. destruct acc as [a|].
        -- destruct (Z.eqb_spec (Cmp x a) sign) as [Hxa|Hxa].
           ++ pose proof (Hstart x eq_refl) as Hxq. split.
              ** intros a' Ha'. injection Ha' as <-. intros Haq.
                 apply Hxq. exact (Htrans x a q Hxa Haq).
              ** intros q' [<-|Hin]; [exact Hxq | now apply Hrest].
           ++ pose proof (Hstart a eq_refl) as Haq. split.
              ** intros a' Ha'. now injection Ha' as <-.
              ** intros q' [<-|Hin]; [exact (Hneg x a q Hxa Haq) | now apply Hrest].
        -- pose proof (Hstart x eq_refl) as Hxq. split; [discriminate|].
           intros q' [<-|Hin]; [exact Hxq | now apply Hrest].
    + destruct IH as [Hacc _]. unfold step in Hacc. destruct acc as [a|].
      * destruct (Z.eqb (Cmp x a) sign); discriminate.
      * discriminate.
Qed.

(** X4.  [findMin] returns the least quantity: there is none exactly when
    [getQuantity] gives nothing for every node; the one returned is the
    quantity of one of the nodes; and when [Cmp] orders the quantities, no
    node's quantity is below it. *)
Theorem findMin_is_least :
  forall (nodes : list Node) property,
    (findMin nodes property = None <-> quantitiesOf nodes property = [])
    /\ (forall q, findMin nodes property = Some q ->
          In q (quantitiesOf nodes property) /\
          (belowIsOrder ->
           forall q', In q' (quantitiesOf nodes property) -> Cmp q' q <> -1)).
Proof.
  intros nodes property. rewrite findMin_quantities.
  pose proof (extreme_fold (-1) (quantitiesOf nodes property) None) as H. cbv zeta in H.
  change (fold_left _ (quantitiesOf nodes property) None)
    with (fold_left minStep (quantitiesOf nodes property) None) in H.
  destruct (fold_left minStep (quantitiesOf nodes property) None) as [q|].
  - destruct H as [Hmem Hbound]. split.
    + split; [discriminate|]. intros Hnil. rewrite Hnil in Hmem.
      destruct Hmem as [?|[]]; discriminate.
    + intros q0 Hq0. injection Hq0 as <-. split.
      * destruct Hmem as [?|?]; [discriminate | assumption].
      * intros (Hirr & Htrans & Hneg). apply (Hbound Hirr Htrans Hneg).
  - destruct H as [_ Hnil]. split; [now split | discriminate].
Qed.

(** X5.  [findMax] returns the greatest quantity, in the same way. *)
Theorem findMax_is_greatest :
  forall (nodes : list Node) property,
    (findMax nodes property = None <-> quantitiesOf nodes property = [])
    /\ (forall q, findMax nodes property = Some q ->
          In q (quantitiesOf nodes property) /\
          (aboveIsOrder ->
           forall q', In q' (quantitiesOf nodes property) -> Cmp q' q <> 1)).
Proof.
  intros nodes property. rewrite findMax_quantities.
  pose proof (extreme_fold 1 (quantitiesOf nodes property) None) as H. cbv zeta in H.
  change (fold_left _ (quantitiesOf nodes property) None)
    with (fold_left maxStep (quantitiesOf nodes property) None) in H.
  destruct (fold_left maxStep (quantitiesOf nodes property) None) as [q|].
  - destruct H as [Hmem Hbound]. split.
    + split; [discriminate|]. intros Hnil. rewrite Hnil in Hmem.
      destruct Hmem as [?|[]]; discriminate.
    + intros q0 Hq0. injection Hq0 as <-. split.
      * destruct Hmem as [?|?]; [discriminate | assumption].
      * intros (Hirr & Htrans & Hneg). apply (Hbound Hirr Htrans Hneg).
  - destruct H as [_ Hnil]. split; [now split | discriminate].
Qed.

Lemma sum_fold_acc (qs : list Quantity) acc :
  addIsMonoid -> fold_left Add qs acc = Add acc (fold_left Add qs zero).
Proof.
  intros (Hid & Hassoc & Hcomm). revert acc.
  induction qs as [|x qs IH]; intros acc; simpl.
  - now rewrite Hcomm, Hid.
  - rewrite (IH (Add acc x)), (IH (Add zero x)), Hid, Hassoc. reflexivity.
Qed.

Lemma sum_step_perm (nodes nodes' : list Node) property acc :
  addIsMonoid ->
  Permutation nodes nodes' ->
  fold_left
    (fun sum node =>
       match getQuantity node property with
       | Some quant => Add sum quant
       | None => sum
       end) nodes acc
  = fold_left
      (fun sum node =>
         match getQuantity node property with
         | Some quant => Add sum quant
         | None => sum
         end) nodes' acc.
Proof.
  intros (Hid & Hassoc & Hcomm) Hperm. revert acc.
  induction Hperm as [|x l l' _ IH|x y l|l l' l'' _ IH1 _ IH2]; intros acc; simpl.
  - reflexivity.
  - apply IH.
  - destruct (getQuantity y property) as [qy|], (getQuantity x property) as [qx|];
      try reflexivity.
    now rewrite !Hassoc, (Hcomm qy qx).
  - now rewrite IH1.
Qed.

(** X6.  When [Add] with the zero quantity is a commutative monoid,
    [findSum] is additive over the concatenation of node lists and does not
    depend on the order of the nodes. *)
Theorem findSum_additive :
  addIsMonoid ->
  forall (nodes nodes' : list Node) property,
    findSum (nodes ++ nodes') property
    = Add (findSum nodes property) (findSum nodes' property)
    /\ (Permutation nodes nodes' -> findSum nodes property = findSum nodes' property).
Proof.
  intros Hmonoid nodes nodes' property. split.
  - rewrite !findSum_omap, omap_app, fold_left_app.
    now apply sum_fold_acc.
  - intros Hperm. unfold findSum. now apply sum_step_perm.
Qed.

End AggregateCharacterisation.

(* ===================================================================== *)
(** ** Further properties of the analyzer as a whole                      *)
(* ===================================================================== *)

Section AnalyzerBehaviour.
Context `{RL : resource.Lib} `{DL : !Decoders}.

Import resource corev1.

Lemma tryOutcome_cases single set (matchingNodes : list Node) total result next :
  (exists e,
      compareNodeResourceConditionalToActual (SingleOutcome.When single) matchingNodes total
      = Err e /\
      tryOutcome single set matchingNodes total result next
      = Err (Wrap e "failed to parse when"))
  \/ (compareNodeResourceConditionalToActual (SingleOutcome.When single) matchingNodes total
      = Ok true /\
      tryOutcome single set matchingNodes total result next
      = Ok (AnalyzeResult.setURI (SingleOutcome.URI single)
              (AnalyzeResult.setMessage (SingleOutcome.Message single) (set result))))
  \/ (compareNodeResourceConditionalToActual (SingleOutcome.When single) matchingNodes total
      = Ok false /\
      tryOutcome single set matchingNodes total result next = next).
Proof.
  unfold tryOutcome.
  destruct (compareNodeResourceConditionalToActual _ _ _) as [[|]|e|r] eqn:H.
  - right. left. now split.
  - right. right. now split.
  - left. exists e. now split.
  - now apply compare_never_panics in H.
Qed.

Lemma selectOutcome_cons o rest (matchingNodes : list Node) total result :
  selectOutcome (o :: rest) matchingNodes total result =
    match entryOf o with
    | Some (v, single) =>
        tryOutcome single (mark v) matchingNodes total result
          (selectOutcome rest matchingNodes total result)
    | None => selectOutcome rest matchingNodes total result
    end.
Proof.
  unfold entryOf. simpl.
  destruct (Outcome.Fail o), (Outcome.Warn o), (Outcome.Pass o); reflexivity.
Qed.

Lemma selectOutcome_no_panic outcomes (matchingNodes : list Node) total result r :
  selectOutcome outcomes matchingNodes total result <> Panic r.
Proof.
  induction outcomes as [|o rest IH]; [discriminate|].
  rewrite selectOutcome_cons. destruct (entryOf o) as [[v single]|]; [|exact IH].
  destruct (tryOutcome_cases single (mark v) matchingNodes total result
              (selectOutcome rest matchingNodes total result))
    as [(e & _ & ->)|[[_ ->]|[_ ->]]]; first [discriminate | exact IH].
Qed.

(** Where the result of the loop comes from. *)
Lemma selectOutcome_result outcomes (matchingNodes : list Node) total result r :
  selectOutcome outcomes matchingNodes total result = Ok r ->
  r = result \/
  exists o v single,
    In o outcomes /\ entryOf o = Some (v, single) /\
    compareNodeResourceConditionalToActual (SingleOutcome.When single) matchingNodes total
    = Ok true /\
    r = decidedBy v single result.
Proof.
  induction outcomes as [|o rest IH]; [simpl; intros H; injection H as <-; now left|].
  rewrite selectOutcome_cons. destruct (entryOf o) as [[v single]|] eqn:He.
  - destruct (tryOutcome_cases single (mark v) matchingNodes total result
                (selectOutcome rest matchingNodes total result))
      as [(e & _ & ->)|[[Ht ->]|[_ ->]]]; intros H.
    + discriminate.
    + injection H as <-. right. exists o, v, single.
      repeat split; [now left | assumption..].
    + destruct (IH H) as [->|(o' & v' & s' & Hin & H')]; [now left|].
      right. exists o', v', s'. split; [now right | exact H'].
  - intros H. destruct (IH H) as [->|(o' & v' & s' & Hin & H')]; [now left|].
    right. exists o', v', s'. split; [now right | exact H'].
Qed.

Lemma filterNodes_no_panic (nodes matching : list Node) filters r :
  filterNodes nodes matching filters <> Panic r.
Proof.
  revert matching. induction nodes as [|n nodes IH]; intros matching; simpl; [discriminate|].
  destruct (nodeMatchesFilters n filters) eqn:Hn; [apply IH | discriminate |].
  now apply nodeMatchesFilters_no_panic in Hn.
Qed.

(** What the gate returns. *)
Lemma gate_cases analyzer (getCollectedFileContents : fileReader) g :
  gate analyzer getCollectedFileContents (titleOf analyzer) (newResult (titleOf analyzer))
  = Ok g ->
  (exists deployment,
      NodeResources.Deployment analyzer = Some deployment /\
      NodeResources.OnUpdate analyzer = None /\
      checkDeployment analyzer getCollectedFileContents = Ok true /\
      g = inl (skipped analyzer deployment))
  \/ (exists filters outcomes,
        g = inr (filters, outcomes) /\ activeOutcomes analyzer outcomes).
Proof.
  unfold gate, activeOutcomes.
  destruct (NodeResources.Deployment analyzer) as [deployment|] eqn:Hd.
  - destruct (checkDeployment analyzer getCollectedFileContents) as [[|]| |] eqn:Hc;
      simpl; try discriminate.
    + destruct (NodeResources.OnUpdate analyzer) as [alt|] eqn:Hu; intros H;
        injection H as <-.
      * right. do 2 eexists. split; [reflexivity|]. right. left. eauto.
      * left. exists deployment. repeat split.
    + destruct (NodeResources.OnInstall analyzer) as [alt|] eqn:Hi; intros H;
        injection H as <-.
      * right. do 2 eexists. split; [reflexivity|]. right. right. eauto.
      * right. do 2 eexists. split; [reflexivity|]. now left.
  - intros H. injection H as <-. right. do 2 eexists. split; [reflexivity|]. now left.
Qed.

Lemma checkDeployment_no_panic analyzer (getCollectedFileContents : fileReader) deployment r :
  NodeResources.Deployment analyzer = Some deployment ->
  (forall file r', getCollectedFileContents file <> Panic r') ->
  checkDeployment analyzer getCollectedFileContents <> Panic r.
Proof.
  intros Hd Hget. unfold checkDeployment. rewrite Hd.
  destruct (getCollectedFileContents _) eqn:H; [|discriminate|now apply Hget in H].
  destruct (unmarshalDeployments a); discriminate.
Qed.

(** On entries that are not nil the loop over pointers is the loop of the
    analyzer. *)
Lemma selectOutcomeRefs_some outcomes (matchingNodes : list Node) total result :
  selectOutcomeRefs (List.map Some outcomes) matchingNodes total result
  = selectOutcome outcomes matchingNodes total result.
Proof.
  induction outcomes as [|o rest IH]; [reflexivity|].
  simpl. now rewrite IH.
Qed.

Lemma selectOutcomeRefs_cons o rest (matchingNodes : list Node) total result :
  selectOutcomeRefs (Some o :: rest) matchingNodes total result =
    match entryOf o with
    | Some (v, single) =>
        tryOutcome single (mark v) matchingNodes total result
          (selectOutcomeRefs rest matchingNodes total result)
    | None => selectOutcomeRefs rest matchingNodes total result
    end.
Proof.
  unfold entryOf. simpl.
  destruct (Outcome.Fail o), (Outcome.Warn o), (Outcome.Pass o); reflexivity.
Qed.

Lemma selectOutcomeRefs_skip before rest (matchingNodes : list Node) total result :
  Forall (passedOver matchingNodes total) before ->
  selectOutcomeRefs (List.map Some before ++ rest) matchingNodes total result
  = selectOutcomeRefs rest matchingNodes total result.
Proof.
  induction 1 as [|o before Ho _ IH]; [reflexivity|].
  change (List.map Some (o :: before) ++ rest)
    with (Some o :: (List.map Some before ++ rest)).
  rewrite selectOutcomeRefs_cons.
  destruct Ho as [->|(v & single & -> & Hfalse)]; [exact IH|].
  unfold tryOutcome. now rewrite Hfalse.
Qed.

Lemma selectOutcomeRefs_panic entries (matchingNodes : list Node) total result r :
  selectOutcomeRefs entries matchingNodes total result = Panic r ->
  r = NilDereference /\ In None entries.
Proof.
  induction entries as [|[o|] rest IH].
  - discriminate.
  - rewrite selectOutcomeRefs_cons. intros H.
    assert (Hrest : selectOutcomeRefs rest matchingNodes total result = Panic r).
    { destruct (entryOf o) as [[v single]|]; [|exact H].
      destruct (tryOutcome_cases single (mark v) matchingNodes total result
                  (selectOutcomeRefs rest matchingNodes total result))
        as [(e & _ & E)|[[_ E]|[_ E]]]; rewrite E in H;
        first [discriminate H | exact H]. }
    destruct (IH Hrest) as [-> Hin]. split; [reflexivity | now right].
  - simpl. intros H. injection H as <-. split; [reflexivity | now left].
Qed.

(** X7.  [analyzeNodeResources] panics only at a nil entry of the outcome
    list.  With a file reader that does not panic and outcome lists without
    a nil entry, it returns a result or an error, whatever else the analyzer
    declares and whatever the files hold.  On a slice of pointers the
    outcome loop is the same loop as long as the entries are not nil, it
    panics when it comes to a nil entry, the entries before it being passed
    over, and it panics in no other way. *)
Theorem analyze_panics_only_on_nil_outcome :
  (forall analyzer (getCollectedFileContents : fileReader),
      (forall file r, getCollectedFileContents file <> Panic r) ->
      (exists result, analyzeNodeResources analyzer getCollectedFileContents = Ok result)
      \/ (exists e, analyzeNodeResources analyzer getCollectedFileContents = Err e))
  /\ (forall outcomes (matchingNodes : list Node) total result,
        selectOutcomeRefs (List.map Some outcomes) matchingNodes total result
        = selectOutcome outcomes matchingNodes total result)
  /\ (forall before after (matchingNodes : list Node) total result,
        Forall (passedOver matchingNodes total) before ->
        selectOutcomeRefs (List.map Some before ++ None :: after) matchingNodes total result
        = Panic NilDereference)
  /\ (forall entries (matchingNodes : list Node) total result r,
        selectOutcomeRefs entries matchingNodes total result = Panic r ->
        r = NilDereference /\ In None entries).
Proof.
  split; [|split; [|split]].
  2: apply selectOutcomeRefs_some.
  2: { intros before after m t result Hb. now rewrite selectOutcomeRefs_skip. }
  2: apply selectOutcomeRefs_panic.
  intros analyzer get Hget.
  assert (H : forall r, analyzeNodeResources analyzer get <> Panic r).
  { intros r. unfold analyzeNodeResources.
    destruct (get "cluster-resources/nodes.json") eqn:Hn;
      [|discriminate|now apply Hget in Hn].
    cbv zeta.
    destruct (gate analyzer get (titleOf analyzer) (newResult (titleOf analyzer)))
      as [[skip|[filters outcomes]]| |r'] eqn:Hg; simpl; try discriminate.
    - destruct (unmarshalNodes a) as [nodes|err]; [|discriminate].
      destruct (filterNodes nodes [] filters) as [matching| |] eqn:Hf; simpl;
        [apply selectOutcome_no_panic | discriminate |].
      now apply filterNodes_no_panic in Hf.
    - unfold gate in Hg.
      destruct (NodeResources.Deployment analyzer) as [deployment|] eqn:Hd;
        [|discriminate].
      destruct (checkDeployment analyzer get) as [[|]| |] eqn:Hc; simpl in Hg.
      + destruct (NodeResources.OnUpdate analyzer); discriminate.
      + destruct (NodeResources.OnInstall analyzer); discriminate.
      + discriminate.
      + now apply (checkDeployment_no_panic _ _ _ _ Hd Hget) in Hc. }
  destruct (analyzeNodeResources analyzer get) as [result|e|r]; eauto.
  now destruct (H r).
Qed.

Lemma decidedBy_shape v single title :
  atMostOneVerdict (decidedBy v single (newResult title))
  /\ AnalyzeResult.Title (decidedBy v single (newResult title)) = title
  /\ AnalyzeResult.IconKey (decidedBy v single (newResult title)) = "kubernetes_node_resources"
  /\ AnalyzeResult.Message (decidedBy v single (newResult title)) = SingleOutcome.Message single
  /\ AnalyzeResult.URI (decidedBy v single (newResult title)) = SingleOutcome.URI single.
Proof. destruct v; repeat split. Qed.

(** X8.  A result of [analyzeNodeResources] carries at most one verdict,
    and is one of three: the fresh result without a verdict, titled by the
    check; the warning of a skipped check; or the fresh result with the
    verdict, message and URI of an outcome entry whose conditional is true on
    the matching nodes, the entry being one of the analyzer's own outcomes or
    of the outcomes of one of its two alternatives. *)
Theorem analyze_result_shape :
  forall analyzer (getCollectedFileContents : fileReader) result,
    analyzeNodeResources analyzer getCollectedFileContents = Ok result ->
    atMostOneVerdict result
    /\ (result = newResult (titleOf analyzer)
        \/ (exists deployment,
              NodeResources.Deployment analyzer = Some deployment /\
              NodeResources.OnUpdate analyzer = None /\
              result = skipped analyzer deployment)
        \/ (exists outcomes o v single,
              activeOutcomes analyzer outcomes /\ In o outcomes /\
              entryOf o = Some (v, single) /\
              result = decidedBy v single (newResult (titleOf analyzer)))).
Proof.
  intros analyzer get result. unfold analyzeNodeResources.
  destruct (get "cluster-resources/nodes.json") as [collected| |]; try discriminate.
  cbv zeta.
  destruct (gate analyzer get (titleOf analyzer) (newResult (titleOf analyzer)))
    as [g| |] eqn:Hg; simpl; try discriminate.
  destruct (gate_cases _ _ _ Hg) as [(d & Hd & Hu & _ & ->)|(filters & outcomes & -> & Hact)].
  - intros H. injection H as <-. split; [exact I|]. right. left. eauto.
  - destruct (unmarshalNodes collected) as [nodes|]; [|discriminate].
    destruct (filterNodes nodes [] filters) as [matching| |]; simpl; try discriminate.
    intros H. apply selectOutcome_result in H as [->|(o & v & single & Hin & He & _ & ->)].
    + split; [exact I | now left].
    + split; [apply decidedBy_shape|]. right. right. exists outcomes, o, v, single.
      repeat split; assumption.
Qed.

(** X9.  The two collected files are hard requirements.  When the node list
    cannot be read, the analyzer returns that error, wrapped, whatever it
    declares; when it is read but cannot be decoded, the analyzer returns the
    decoding error, wrapped, unless the gate skips the check, which it does
    before decoding.  With a gate, when the deployment list of the namespace
    cannot be read or decoded, the analyzer returns that error, wrapped,
    whatever alternatives it has. *)
Theorem collected_files_are_required :
  forall analyzer (getCollectedFileContents : fileReader),
    (forall e,
        getCollectedFileContents "cluster-resources/nodes.json" = Err e ->
        analyzeNodeResources analyzer getCollectedFileContents
        = Err (Wrap e "failed to get contents of nodes.json"))
    /\ (forall collected err,
          getCollectedFileContents "cluster-resources/nodes.json" = Ok collected ->
          unmarshalNodes collected = inr err ->
          (forall filters outcomes,
              gate analyzer getCollectedFileContents (titleOf analyzer)
                (newResult (titleOf analyzer)) = Ok (inr (filters, outcomes)) ->
              analyzeNodeResources analyzer getCollectedFileContents
              = Err (Wrap err "failed to unmarshal node list"))
          /\ (forall deployment,
                NodeResources.Deployment analyzer = Some deployment ->
                NodeResources.OnUpdate analyzer = None ->
                checkDeployment analyzer getCollectedFileContents = Ok true ->
                analyzeNodeResources analyzer getCollectedFileContents
                = Ok (skipped analyzer deployment)))
    /\ (forall collected deployment,
          getCollectedFileContents "cluster-resources/nodes.json" = Ok collected ->
          NodeResources.Deployment analyzer = Some deployment ->
          (forall e,
              getCollectedFileContents (deploymentsFile deployment) = Err e ->
              analyzeNodeResources analyzer getCollectedFileContents
              = Err (Wrap e "failed to read collected deployments from namespace"))
          /\ (forall file err,
                getCollectedFileContents (deploymentsFile deployment) = Ok file ->
                unmarshalDeployments file = inr err ->
                analyzeNodeResources analyzer getCollectedFileContents
                = Err (Wrap err "failed to unmarshal deployment list"))).
Proof.
  intros analyzer get. split; [|split].
  - intros e H. unfold analyzeNodeResources. now rewrite H.
  - intros collected err Hget Hdec. split.
    + intros filters outcomes Hg. unfold analyzeNodeResources.
      rewrite Hget. cbv zeta. rewrite Hg. simpl. now rewrite Hdec.
    + intros deployment Hd Hu Hc. unfold analyzeNodeResources.
      rewrite Hget. cbv zeta. unfold gate. rewrite Hd, Hc, Hu. reflexivity.
  - intros collected deployment Hget Hd. unfold deploymentsFile. split.
    + intros e He. unfold analyzeNodeResources. rewrite Hget. cbv zeta.
      unfold gate, checkDeployment. rewrite Hd, He. reflexivity.
    + intros file err Hf Hdec. unfold analyzeNodeResources. rewrite Hget. cbv zeta.
      unfold gate, checkDeployment. rewrite Hd, Hf, Hdec. reflexivity.
Qed.

(** X10.  A conditional that cannot be evaluated stops the selection: when
    the outcomes before it are passed over, the error of its evaluation is
    returned, wrapped, and no outcome behind it is looked at, not even one
    that would be true. *)
Theorem outcome_error_stops_selection :
  forall before o after (matchingNodes : list Node) total result v single e,
    Forall (passedOver matchingNodes total) before ->
    entryOf o = Some (v, single) ->
    compareNodeResourceConditionalToActual (SingleOutcome.When single) matchingNodes total
    = Err e ->
    selectOutcome (before ++ o :: after) matchingNodes total result
    = Err (Wrap e "failed to parse when").
Proof.
  intros before o after m t result v single e Hbefore He Herr.
  rewrite selectOutcome_skip by assumption.
  rewrite selectOutcome_cons, He. unfold tryOutcome. now rewrite Herr.
Qed.

Lemma analyze_ext analyzer (reader reader' : fileReader) :
  reader "cluster-resources/nodes.json" = reader' "cluster-resources/nodes.json" ->
  (forall deployment,
      NodeResources.Deployment analyzer = Some deployment ->
      reader (deploymentsFile deployment) = reader' (deploymentsFile deployment)) ->
  analyzeNodeResources analyzer reader = analyzeNodeResources analyzer reader'.
Proof.
  intros Hnodes Hdep.
  assert (Hgate : forall title result,
             gate analyzer reader title result = gate analyzer reader' title result).
  { intros title result. unfold gate, checkDeployment.
    destruct (NodeResources.Deployment analyzer) as [deployment|]; [|reflexivity].
    specialize (Hdep deployment eq_refl). unfold deploymentsFile in Hdep.
    now rewrite Hdep. }
  unfold analyzeNodeResources. now rewrite Hnodes, Hgate.
Qed.

(** X11.  [analyzeNodeResources] reads the node list and, with a gate, the
    deployment list of the gate's namespace, and no other file: two readers
    that agree on these give the same result. *)
Theorem analyze_reads_two_files :
  forall analyzer (reader reader' : fileReader),
    reader "cluster-resources/nodes.json" = reader' "cluster-resources/nodes.json" ->
    (forall deployment,
        NodeResources.Deployment analyzer = Some deployment ->
        reader (deploymentsFile deployment) = reader' (deploymentsFile deployment)) ->
    analyzeNodeResources analyzer reader = analyzeNodeResources analyzer reader'.
Proof. intros analyzer reader reader'. apply analyze_ext. Qed.

Lemma getCollectedFileContents_union protected (AllCollectedData : gmap string bytes) file :
  getCollectedFileContents protected AllCollectedData file =
    match (protectedFiles protected ∪ AllCollectedData) !! file with
    | Some contents => Ok contents
    | None => Err (New (String.append "file " (String.append file " was not collected")))
    end.
Proof.
  unfold getCollectedFileContents, protectedFiles. rewrite lookup_union.
  destruct protected as [entries|].
  - destruct (entries !! file), (AllCollectedData !! file); reflexivity.
  - rewrite lookup_empty. destruct (AllCollectedData !! file); reflexivity.
Qed.

(** X12.  The reader the preflight hands to the analyzers looks a file up
    in [protected] first and in [AllCollectedData] second: it returns what
    the union of the two maps, [protected] having precedence, holds for the
    name, and an error naming the file exactly when neither has it. *)
Theorem reader_prefers_protected :
  forall protected (AllCollectedData : gmap string bytes) file,
    getCollectedFileContents protected AllCollectedData file =
      match (protectedFiles protected ∪ AllCollectedData) !! file with
      | Some contents => Ok contents
      | None => Err (New (String.append "file " (String.append file " was not collected")))
      end
    /\ (forall contents,
          protectedFiles protected !! file = Some contents ->
          getCollectedFileContents protected AllCollectedData file = Ok contents)
    /\ ((exists e, getCollectedFileContents protected AllCollectedData file = Err e) <->
        protectedFiles protected !! file = None /\ AllCollectedData !! file = None).
Proof.
  intros protected all file. rewrite getCollectedFileContents_union.
  split; [reflexivity|]. rewrite lookup_union.
  destruct (protectedFiles protected !! file) as [c|], (all !! file) as [c'|]; simpl;
    (split; [intros contents H; congruence|]);
    split; try (intros [e He]; discriminate He); try (intros [H1 H2]; discriminate);
    intros _; eauto.
Qed.

(** X13.  Through the preflight's reader, the node-resources analyzer sees
    the protected copy of a file and never the collected one behind it: when
    [protected] has a file, what [AllCollectedData] holds under that name
    does not change the result; and when neither has the node list, the
    result is the error that the file was not collected. *)
Theorem analyzer_sees_protected_copy :
  forall analyzer protected (AllCollectedData : gmap string bytes),
    (forall file contents,
        is_Some (protectedFiles protected !! file) ->
        analyzeNodeResources analyzer
          (getCollectedFileContents protected (<[file := contents]> AllCollectedData))
        = analyzeNodeResources analyzer
            (getCollectedFileContents protected AllCollectedData))
    /\ (protectedFiles protected !! "cluster-resources/nodes.json" = None ->
        AllCollectedData !! "cluster-resources/nodes.json" = None ->
        analyzeNodeResources analyzer (getCollectedFileContents protected AllCollectedData)
        = Err (Wrap (New "file cluster-resources/nodes.json was not collected")
                    "failed to get contents of nodes.json")).
Proof.
  intros analyzer protected all. split.
  - intros file contents [c Hc].
    assert (Hsame : forall name,
               getCollectedFileContents protected (<[file := contents]> all) name
               = getCollectedFileContents protected all name).
    { intros name. rewrite !getCollectedFileContents_union, !lookup_union.
      destruct (decide (file = name)) as [<-|Hne].
      - rewrite Hc, lookup_insert_eq. now destruct (all !! file).
      - now rewrite lookup_insert_ne. }
    apply analyze_ext; [apply Hsame | intros; apply Hsame].
  - intros Hp Ha. unfold analyzeNodeResources.
    rewrite getCollectedFileContents_union, lookup_union, Hp, Ha. reflexivity.
Qed.

End AnalyzerBehaviour.

(* ===================================================================== *)
(** ** The analyze phase of the preflight                                 *)
(* ===================================================================== *)

Section AnalyzePhase.
Variable Analyzer : Type.
Variable analyzeAnalyze :
  Analyzer -> fileReader -> (string -> outcome (option (gmap string bytes))) ->
  outcome (list AnalyzeResult.t).
Variable errorText : error -> string.
Variable filepathMatch : string -> string -> bool.

Lemma analyzeLoop_no_error analyzers protected (AllCollectedData : gmap string bytes) acc e :
  analyzeLoop Analyzer analyzeAnalyze errorText filepathMatch analyzers protected
    AllCollectedData acc <> Err e.
Proof.
  revert acc. induction analyzers as [|a rest IH]; intros acc; simpl; [discriminate|].
  destruct (analyzeAnalyze a _ _); [apply IH | apply IH | discriminate].
Qed.

Lemma analyzeLoop_collects analyzers protected (AllCollectedData : gmap string bytes) acc :
  (forall a, In a analyzers ->
             returns Analyzer analyzeAnalyze filepathMatch protected AllCollectedData a) ->
  analyzeLoop Analyzer analyzeAnalyze errorText filepathMatch analyzers protected
    AllCollectedData acc
  = Ok (acc ++ flat_map (contribution Analyzer analyzeAnalyze errorText filepathMatch
                           protected AllCollectedData) analyzers).
Proof.
  revert acc. induction analyzers as [|a rest IH]; intros acc H; simpl.
  - now rewrite app_nil_r.
  - pose proof (H a (or_introl eq_refl)) as Ha. unfold returns in Ha.
    unfold contribution at 1.
    destruct (analyzeAnalyze a _ _) as [rs|err|r].
    + rewrite IH by (intros b Hb; apply H; now right). now rewrite app_assoc.
    + rewrite IH by (intros b Hb; apply H; now right). now rewrite app_assoc.
    + now destruct (Ha r).
Qed.

(** X14.  The analyze phase never returns an error: an analyzer that fails
    is replaced by one result, marked as a failure, titled "Analyzer Failed"
    and carrying the text of its error, and the analyzers behind it still
    run.  When no analyzer panics, the results are those of the analyzers
    one after the other, in the order of the declaration. *)
Theorem analyze_phase_collects :
  forall analyzers (AllCollectedData : gmap string bytes) protected,
    (forall e,
        Analyze Analyzer analyzeAnalyze errorText filepathMatch analyzers
          AllCollectedData protected <> Err e)
    /\ ((forall a, In a analyzers ->
                   returns Analyzer analyzeAnalyze filepathMatch protected AllCollectedData a) ->
        Analyze Analyzer analyzeAnalyze errorText filepathMatch analyzers
          AllCollectedData protected
        = Ok (flat_map (contribution Analyzer analyzeAnalyze errorText filepathMatch
                          protected AllCollectedData) analyzers))
    /\ (forall a err,
          analyzeAnalyze a (getCollectedFileContents protected AllCollectedData)
            (getChildCollectedFileContents filepathMatch protected AllCollectedData)
          = Err err ->
          exists failed,
            contribution Analyzer analyzeAnalyze errorText filepathMatch
              protected AllCollectedData a = [failed]
            /\ AnalyzeResult.IsFail failed = true
            /\ AnalyzeResult.IsWarn failed = false
            /\ AnalyzeResult.IsPass failed = false
            /\ AnalyzeResult.Title failed = "Analyzer Failed"
            /\ AnalyzeResult.Message failed = errorText err).
Proof.
  intros analyzers all protected. split; [|split].
  - intros e. apply analyzeLoop_no_error.
  - intros H. unfold Analyze. now rewrite analyzeLoop_collects.
  - intros a err H. exists (analyzerFailed errorText err).
    unfold contribution. rewrite H. repeat split.
Qed.

End AnalyzePhase.

(* ===================================================================== *)
(** ** The pattern on a conditional's first token                         *)
(* ===================================================================== *)

Section PatternRoundTrip.

Lemma splitAtFirst_absent c (l : list ascii) :
  ~ In c l -> Go.splitAtFirst c l = None.
Proof.
  induction l as [|x l IH]; intros H; simpl; [reflexivity|].
  destruct (Ascii.eqb_spec x c) as [->|_]; [exfalso; apply H; now left|].
  rewrite IH; [reflexivity|]. intros Hin. apply H. now right.
Qed.

Lemma splitLines_one_line (l cur : list ascii) :
  ~ In "010"%char l -> Go.splitLines l cur = [List.rev cur ++ l].
Proof.
  revert cur. induction l as [|x l IH]; intros cur H; simpl.
  - now rewrite app_nil_r.
  - assert (Hx : Go.byte_is x 10 = false).
    { unfold Go.byte_is. apply N.eqb_neq. intros E. apply H. left.
      rewrite <- (ascii_N_embedding x), E. reflexivity. }
    rewrite Hx, IH by (intros Hin; apply H; now right).
    simpl. now rewrite <- app_assoc.
Qed.

(** X15.  The pattern reads back what the form [function(property)]
    writes: for a function text and a property text on one line, the
    property without an opening parenthesis, the match on the function text,
    an opening parenthesis, the property text and a closing parenthesis gives
    that function and that property. *)
Theorem pattern_reads_function_and_property :
  forall function property : string,
    ~ In "010"%char (list_ascii_of_string function) ->
    ~ In "010"%char (list_ascii_of_string property) ->
    ~ In "("%char (list_ascii_of_string property) ->
    Go.FindStringSubmatch
      (String.append function (String "(" (String.append property ")")))
    = Some (function, property)
    /\ matchOf (String.append function (String "(" (String.append property ")")))
       = Some (function, property).
Proof.
  intros function property Hf Hp Hparen.
  assert (H : Go.FindStringSubmatch
                (String.append function (String "(" (String.append property ")")))
              = Some (function, property)).
  { unfold Go.FindStringSubmatch.
    rewrite list_ascii_of_string_append. simpl list_ascii_of_string.
    rewrite list_ascii_of_string_append. simpl list_ascii_of_string.
    rewrite splitLines_one_line.
    - simpl. unfold Go.submatchLine.
      rewrite rev_app_distr. simpl List.rev. rewrite rev_app_distr. simpl.
      rewrite <- app_assoc, splitAtFirst_app.
      rewrite (splitAtFirst_absent "(" (List.rev (list_ascii_of_string property)))
        by (rewrite <- in_rev; exact Hparen).
      simpl. rewrite app_nil_r, !rev_involutive, !string_of_list_ascii_of_string.
      reflexivity.
    - rewrite in_app_iff. simpl. rewrite in_app_iff. simpl.
      intros [H|[H|[H|[H|[]]]]]; try discriminate H; tauto. }
  split; [exact H|]. unfold matchOf. now rewrite H.
Qed.

End PatternRoundTrip.

(* ===================================================================== *)
(** ** The redaction of collected files                                   *)
(* ===================================================================== *)

Section ExtProperties.

(** What the scan returns, when it returns something, is the end of the
    path. *)
Lemma extScan_suffix (revPath suffix : list ascii) :
  path.extScan revPath suffix = [] \/
  exists stem, List.rev revPath ++ suffix = stem ++ path.extScan revPath suffix.
Proof.
  revert suffix. induction revPath as [|c rest IH]; intros suffix; simpl; [now left|].
  destruct (Ascii.eqb c "/"); [now left|].
  destruct (Ascii.eqb c ".").
  - right. exists (List.rev rest). now rewrite <- app_assoc.
  - destruct (IH (c :: suffix)) as [H|[stem H]]; [now left|].
    right. exists stem. now rewrite <- app_assoc.
Qed.

Lemma string_of_list_ascii_app (a b : list ascii) :
  string_of_list_ascii (a ++ b)
  = String.append (string_of_list_ascii a) (string_of_list_ascii b).
Proof. induction a as [|c a IH]; simpl; [reflexivity|]. now rewrite IH. Qed.

Lemma Ext_tar_iff (k : string) :
  path.Ext k = ".tar" <-> exists stem, k = String.append stem ".tar".
Proof.
  unfold path.Ext. split.
  - intros H.
    destruct (extScan_suffix (List.rev (list_ascii_of_string k)) []) as [E|[stem E]].
    + rewrite E in H. discriminate H.
    + exists (string_of_list_ascii stem).
      rewrite rev_involutive, app_nil_r in E.
      rewrite <- (string_of_list_ascii_of_string k), E, string_of_list_ascii_app.
      now rewrite H.
  - intros [stem ->]. rewrite list_ascii_of_string_append, rev_app_distr. reflexivity.
Qed.

End ExtProperties.

Section RedactionProperties.
Variable Redactor : Type.
Variable Redact : bytes -> string -> list Redactor -> slice + error.
Variable Header : Type.
Variable headerName : Header -> string.
Variable headerIsDir : Header -> bool.
Variable setSize : Header -> Z -> Header.
Variable tarRead : bytes -> tarStream Header.
Variable Writer : Type.
Variable newWriter : Writer.
Variable WriteHeader : Writer -> Header -> Writer + error.
Variable Write : Writer -> slice -> Writer + error.
Variable Close : Writer -> bytes + error.

Local Abbreviation untar := (untarFile Header headerName headerIsDir tarRead).
Local Abbreviation untarLoop := (untarEntries Header headerName headerIsDir).
Local Abbreviation tarUp :=
  (tarFiles Header setSize Writer newWriter WriteHeader Write Close).
Local Abbreviation redact :=
  (redactMap Redactor Redact Header headerName headerIsDir setSize tarRead
     Writer newWriter WriteHeader Write Close).
Local Abbreviation valueOf :=
  (entryValue Redactor Redact Header headerName headerIsDir setSize tarRead
     Writer newWriter WriteHeader Write Close).
Local Abbreviation stepOf :=
  (redactStep Redactor Redact Header headerName headerIsDir setSize tarRead
     Writer newWriter WriteHeader Write Close).
Local Abbreviation entryOf' :=
  (redactEntry Redactor Redact Header headerName headerIsDir setSize tarRead
     Writer newWriter WriteHeader Write Close).
Local Abbreviation kept := (keptEntries Header headerIsDir).

Lemma untarLoop_no_panic stream files fileHeaders r :
  untarLoop stream files fileHeaders <> Panic r.
Proof.
  revert files fileHeaders. induction stream as [|err|header contents rest IH];
    intros files fileHeaders; simpl; try discriminate.
  destruct (headerIsDir header); [apply IH|].
  destruct contents; [apply IH | discriminate].
Qed.

(** The loop keeps the two maps on the same names, each header under its
    own name, and no directory. *)
Lemma untarLoop_invariant stream files fileHeaders files' fileHeaders' :
  (forall p, is_Some (files !! p) <-> is_Some (fileHeaders !! p)) ->
  (forall p h, fileHeaders !! p = Some h -> headerName h = p /\ headerIsDir h = false) ->
  untarLoop stream files fileHeaders = Ok (files', fileHeaders') ->
  (forall p, is_Some (files' !! p) <-> is_Some (fileHeaders' !! p)) /\
  (forall p h, fileHeaders' !! p = Some h -> headerName h = p /\ headerIsDir h = false).
Proof.
  revert files fileHeaders. induction stream as [|err|header contents rest IH];
    intros files fileHeaders Hdom Hname; simpl.
  - intros H. injection H as <- <-. now split.
  - discriminate.
  - destruct (headerIsDir header) eqn:Hdir; [now apply IH|].
    destruct contents as [data|err]; [|discriminate].
    apply IH.
    + intros p. destruct (decide (headerName header = p)) as [<-|Hne].
      * rewrite !lookup_insert_eq. split; eauto.
      * rewrite !lookup_insert_ne by assumption. apply Hdom.
    + intros p h. destruct (decide (headerName header = p)) as [<-|Hne].
      * rewrite lookup_insert_eq. intros E. injection E as <-. now split.
      * rewrite lookup_insert_ne by assumption. apply Hname.
Qed.

Lemma insert_all_union {A} (l : list (string * A)) (m : gmap string A) :
  fold_left (fun acc (kv : string * A) => <[kv.1 := kv.2]> acc) l m
  = list_to_map (reverse l) ∪ m.
Proof.
  revert m. induction l as [|[k v] l IH]; intros m; simpl.
  - now rewrite (left_id_L ∅ (∪)).
  - rewrite IH, reverse_cons, list_to_map_app. simpl.
    rewrite <- (assoc_L (∪)). f_equal.
    rewrite insert_empty. now rewrite <- insert_union_singleton_l.
Qed.

Lemma untarLoop_fold stream files fileHeaders :
  untarLoop stream files fileHeaders =
    if readsToEnd Header headerIsDir stream then
      Ok (fold_left (fun acc (kv : string * slice) => <[kv.1 := kv.2]> acc)
            (List.map (fun e : Header * slice => (headerName (fst e), snd e)) (kept stream))
            files,
          fold_left (fun acc (kv : string * Header) => <[kv.1 := kv.2]> acc)
            (List.map (fun e : Header * slice => (headerName (fst e), fst e)) (kept stream))
            fileHeaders)
    else untarLoop stream files fileHeaders.
Proof.
  revert files fileHeaders. induction stream as [|err|header contents rest IH];
    intros files fileHeaders; simpl; try reflexivity.
  destruct (headerIsDir header); [apply IH|].
  destruct contents as [data|err]; [|reflexivity].
  simpl. apply IH.
Qed.

Lemma untarLoop_fails stream files fileHeaders :
  readsToEnd Header headerIsDir stream = false ->
  exists e, untarLoop stream files fileHeaders = Err e.
Proof.
  revert files fileHeaders. induction stream as [|err|header contents rest IH];
    intros files fileHeaders; simpl; [discriminate | eauto |].
  destruct (headerIsDir header); [apply IH|].
  destruct contents as [data|err]; [apply IH | eauto].
Qed.

Lemma untar_invariant archive files fileHeaders :
  untar archive = Ok (files, fileHeaders) ->
  (forall p, is_Some (files !! p) <-> is_Some (fileHeaders !! p)) /\
  (forall p h, fileHeaders !! p = Some h -> headerName h = p /\ headerIsDir h = false).
Proof.
  unfold untarFile. intros H.
  apply (untarLoop_invariant (tarRead archive) ∅ ∅ files fileHeaders); [| |exact H].
  - intros p. rewrite !lookup_empty. split; intros [? ?]; discriminate.
  - intros p h. rewrite lookup_empty. discriminate.
Qed.

(** X16.  [untarFile] returns the files of an archive when the archive is
    read to its end and every file in it is copied, and an error otherwise.
    The files are the entries that are no directory, under their names, the
    last entry of a name standing for that name; the headers are kept under
    the same names, each under its own. *)
Theorem untarFile_keeps_files :
  forall archive,
    (readsToEnd Header headerIsDir (tarRead archive) = true ->
     untar archive
     = Ok (list_to_map (keptFiles Header headerName headerIsDir (tarRead archive)),
           list_to_map (keptHeaders Header headerName headerIsDir (tarRead archive))))
    /\ (readsToEnd Header headerIsDir (tarRead archive) = false ->
        exists e, untar archive = Err e)
    /\ (forall files fileHeaders,
          untar archive = Ok (files, fileHeaders) ->
          (forall p, is_Some (files !! p) <-> is_Some (fileHeaders !! p)) /\
          (forall p h, fileHeaders !! p = Some h ->
                       headerName h = p /\ headerIsDir h = false)).
Proof.
  intros archive. split; [|split].
  - unfold untarFile. intros Hend. rewrite untarLoop_fold, Hend, !insert_all_union.
    unfold keptFiles, keptHeaders. now rewrite !(right_id_L ∅ (∪)).
  - unfold untarFile. apply untarLoop_fails.
  - apply untar_invariant.
Qed.

Lemma writeFiles_no_panic entries (fileHeaders : gmap string Header) tw r :
  (forall p f, In (p, f) entries -> is_Some (fileHeaders !! p)) ->
  writeFiles Header setSize Writer WriteHeader Write entries fileHeaders tw <> Panic r.
Proof.
  revert tw. induction entries as [|[p f] rest IH]; intros tw H; simpl; [discriminate|].
  destruct (H p f (or_introl eq_refl)) as [header ->].
  destruct (WriteHeader tw _) as [tw'|]; [|discriminate].
  destruct (Write tw' f) as [tw''|]; [|discriminate].
  apply IH. intros p' f' Hin. apply (H p' f'). now right.
Qed.

Lemma tarUp_no_panic (files : gmap string slice) (fileHeaders : gmap string Header) r :
  (forall p, is_Some (files !! p) -> is_Some (fileHeaders !! p)) ->
  tarUp files fileHeaders <> Panic r.
Proof.
  intros H. unfold tarFiles.
  destruct (writeFiles _ _ _ _ _ _ _ _) as [tw|e|r'] eqn:Hw.
  - destruct (Close tw); discriminate.
  - discriminate.
  - exfalso. revert Hw. apply writeFiles_no_panic.
    intros p f Hin. apply H. exists f.
    apply elem_of_map_to_list, list_elem_of_In, Hin.
Qed.

Lemma redactEntry_value reds nested k v result :
  entryOf' reds nested k v result =
    match valueOf reds nested k v with
    | Some (Ok (Some x)) => Some (Ok (<[k := x]> result))
    | Some (Ok None) => Some (Ok result)
    | Some (Err e) => Some (Err e)
    | Some (Panic r) => Some (Panic r)
    | None => None
    end.
Proof.
  unfold redactEntry, entryValue. destruct v as [contents|]; [|reflexivity].
  destruct (String.eqb (path.Ext k) ".tar").
  - destruct (untar contents) as [[unRedacted fileHeaders]| |]; try reflexivity.
    destruct (nested unRedacted) as [[files| |]|]; try reflexivity.
    destruct (tarUp files fileHeaders); reflexivity.
  - destruct (Redact contents k reds); reflexivity.
Qed.

(** The loop of [redactMap] treats every entry by itself: the map it
    returns holds under each name what the entry of that name gives, and it
    returns no map as soon as one entry gives none. *)
Lemma redact_loop reds nested (input : gmap string slice) :
  match map_fold (stepOf reds nested) (Some (Ok ∅)) input with
  | Some (Ok result) =>
      forall k, match input !! k with
                | Some v => valueOf reds nested k v = Some (Ok (result !! k))
                | None => result !! k = None
                end
  | Some (Err e) => exists k v, input !! k = Some v /\ valueOf reds nested k v = Some (Err e)
  | Some (Panic r) =>
      exists k v, input !! k = Some v /\ valueOf reds nested k v = Some (Panic r)
  | None => exists k v, input !! k = Some v /\ valueOf reds nested k v = None
  end.
Proof.
  apply (map_fold_weak_ind
           (fun (acc : option (outcome (gmap string slice))) (m : gmap string slice) =>
              match acc with
              | Some (Ok result) =>
                  forall k, match m !! k with
                            | Some v => valueOf reds nested k v = Some (Ok (result !! k))
                            | None => result !! k = None
                            end
              | Some (Err e) =>
                  exists k v, m !! k = Some v /\ valueOf reds nested k v = Some (Err e)
              | Some (Panic r) =>
                  exists k v, m !! k = Some v /\ valueOf reds nested k v = Some (Panic r)
              | None => exists k v, m !! k = Some v /\ valueOf reds nested k v = None
              end)).
  - intros k. now rewrite !lookup_empty.
  - intros i x m acc Hi Hacc.
    assert (Hkeep : forall k v, m !! k = Some v -> <[i := x]> m !! k = Some v).
    { intros k v Hk. rewrite lookup_insert_ne; [exact Hk | congruence]. }
    destruct acc as [[result|e|r]|]; simpl.
    + rewrite redactEntry_value.
      pose proof (Hacc i) as Hfresh. rewrite Hi in Hfresh.
      destruct (valueOf reds nested i x) as [[[y|]|e|r]|] eqn:Hv.
      * intros k. destruct (decide (i = k)) as [<-|Hne].
        -- now rewrite !lookup_insert_eq.
        -- rewrite !lookup_insert_ne by assumption. apply Hacc.
      * intros k. destruct (decide (i = k)) as [<-|Hne].
        -- now rewrite lookup_insert_eq, Hfresh.
        -- rewrite lookup_insert_ne by assumption. apply Hacc.
      * exists i, x. now rewrite lookup_insert_eq.
      * exists i, x. now rewrite lookup_insert_eq.
      * exists i, x. now rewrite lookup_insert_eq.
    + destruct Hacc as (k & v & Hk & Hv). exists k, v. split; [now apply Hkeep | exact Hv].
    + destruct Hacc as (k & v & Hk & Hv). exists k, v. split; [now apply Hkeep | exact Hv].
    + destruct Hacc as (k & v & Hk & Hv). exists k, v. split; [now apply Hkeep | exact Hv].
Qed.

Lemma redact_ok_lookup depth input reds result :
  redact depth input reds = Some (Ok result) ->
  exists depth',
    depth = S depth' /\
    forall k, match input !! k with
              | Some v =>
                  valueOf reds (fun unRedacted => redact depth' unRedacted reds) k v
                  = Some (Ok (result !! k))
              | None => result !! k = None
              end.
Proof.
  destruct depth as [|depth']; [discriminate|]. simpl. intros H.
  exists depth'. split; [reflexivity|].
  pose proof (redact_loop reds (fun unRedacted => redact depth' unRedacted reds) input) as L.
  now rewrite H in L.
Qed.

Lemma redact_keys depth input reds result :
  redact depth input reds = Some (Ok result) ->
  forall k, is_Some (result !! k) <-> exists contents, input !! k = Some (Some contents).
Proof.
  intros H k. destruct (redact_ok_lookup _ _ _ _ H) as (depth' & _ & L).
  specialize (L k). destruct (input !! k) as [[contents|]|].
  - split; [eauto|]. intros _. unfold entryValue in L.
    destruct (String.eqb (path.Ext k) ".tar").
    + destruct (untar contents) as [[u h]| |]; try discriminate.
      destruct (redact depth' u reds) as [[files| |]|]; try discriminate.
      destruct (tarUp files h); try discriminate.
      injection L as L. rewrite <- L. eauto.
    + destruct (Redact contents k reds); try discriminate.
      injection L as L. rewrite <- L. eauto.
  - simpl in L. injection L as L. rewrite <- L.
    split; [intros [? ?]; discriminate | intros [? ?]; discriminate].
  - rewrite L. split; [intros [? ?]; discriminate | intros [? ?]; discriminate].
Qed.

Lemma redact_no_panic depth input reds r :
  redact depth input reds <> Some (Panic r).
Proof.
  revert input r. induction depth as [|depth' IH]; intros input r; [discriminate|].
  simpl. intros H.
  pose proof (redact_loop reds (fun unRedacted => redact depth' unRedacted reds) input) as L.
  rewrite H in L. destruct L as (k & v & _ & Hv).
  unfold entryValue in Hv. destruct v as [contents|]; [|discriminate].
  destruct (String.eqb (path.Ext k) ".tar").
  - destruct (untar contents) as [[u h]| |] eqn:Hu; try discriminate.
    + destruct (redact depth' u reds) as [[files| |]|] eqn:Hn; try discriminate.
      * destruct (tarUp files h) eqn:Ht; try discriminate.
        revert Ht. apply tarUp_no_panic. intros p Hp.
        apply (proj1 (untar_invariant contents u h Hu) p).
        apply (redact_keys _ _ _ _ Hn) in Hp as [c Hc]. eauto.
      * now apply IH in Hn.
    + unfold untarFile in Hu. now apply untarLoop_no_panic in Hu.
  - destruct (Redact contents k reds); discriminate.
Qed.

Lemma redactEntry_more_depth reds nested nested' k v result r :
  (forall unRedacted r', nested unRedacted = Some r' -> nested' unRedacted = Some r') ->
  entryOf' reds nested k v result = Some r ->
  entryOf' reds nested' k v result = Some r.
Proof.
  intros Hn. unfold redactEntry. destruct v as [contents|]; [|trivial].
  destruct (String.eqb (path.Ext k) ".tar"); [|trivial].
  destruct (untar contents) as [[u h]| |]; try trivial.
  destruct (nested u) as [x|] eqn:Hx; [|discriminate].
  now rewrite (Hn u x Hx).
Qed.

Lemma redact_loop_more_depth reds nested nested' entries r :
  (forall unRedacted r', nested unRedacted = Some r' -> nested' unRedacted = Some r') ->
  foldr (uncurry (stepOf reds nested)) (Some (Ok ∅)) entries = Some r ->
  foldr (uncurry (stepOf reds nested')) (Some (Ok ∅)) entries = Some r.
Proof.
  intros Hn. revert r. induction entries as [|[k v] rest IH]; intros r; simpl; [trivial|].
  destruct (foldr (uncurry (stepOf reds nested)) (Some (Ok ∅)) rest) as [acc|];
    [|discriminate].
  rewrite (IH acc eq_refl). destruct acc as [result| |]; simpl; try trivial.
  now apply redactEntry_more_depth.
Qed.

Lemma redact_more_depth depth input reds r :
  redact depth input reds = Some r -> redact (S depth) input reds = Some r.
Proof.
  revert input r. induction depth as [|depth IH]; intros input r; [discriminate|].
  change (redact (S (S depth)) input reds)
    with (map_fold (stepOf reds (fun u => redact (S depth) u reds)) (Some (Ok ∅)) input).
  change (redact (S depth) input reds)
    with (map_fold (stepOf reds (fun u => redact depth u reds)) (Some (Ok ∅)) input).
  rewrite !map_fold_foldr. apply redact_loop_more_depth. intros u r'. apply IH.
Qed.

Lemma redact_enough_depth :
  archivesShrink Header headerName headerIsDir tarRead ->
  forall depth input reds,
    (forall k contents, input !! k = Some (Some contents) -> (length contents < depth)%nat) ->
    redact (S depth) input reds <> None.
Proof.
  intros Hshrink depth. induction depth as [|depth IH]; intros input reds Hbound H.
  - change (redact 1 input reds)
      with (map_fold (stepOf reds (fun u => redact 0 u reds)) (Some (Ok ∅)) input) in H.
    pose proof (redact_loop reds (fun unRedacted => redact 0 unRedacted reds) input) as L.
    rewrite H in L. destruct L as (k & v & Hk & Hv).
    unfold entryValue in Hv. destruct v as [contents|]; [|discriminate].
    specialize (Hbound k contents Hk). lia.
  - change (redact (S (S depth)) input reds)
      with (map_fold (stepOf reds (fun u => redact (S depth) u reds)) (Some (Ok ∅)) input)
      in H.
    pose proof (redact_loop reds (fun unRedacted => redact (S depth) unRedacted reds) input)
      as L.
    rewrite H in L. destruct L as (k & v & Hk & Hv).
    unfold entryValue in Hv. destruct v as [contents|]; [|discriminate].
    specialize (Hbound k contents Hk).
    destruct (String.eqb (path.Ext k) ".tar").
    + destruct (untar contents) as [[u h]| |] eqn:Hu; try discriminate.
      destruct (redact (S depth) u reds) as [[files| |]|] eqn:Hn; try discriminate.
      * destruct (tarUp files h); discriminate.
      * revert Hn. apply IH. intros p data Hp.
        pose proof (Hshrink contents u h p data Hu Hp). lia.
    + destruct (Redact contents k reds); discriminate.
Qed.

Lemma tarUp_ok_headers (files : gmap string slice) (fileHeaders : gmap string Header)
    archive :
  tarUp files fileHeaders = Ok archive ->
  forall p, is_Some (files !! p) -> is_Some (fileHeaders !! p).
Proof.
  unfold tarFiles. intros H p [f Hf].
  apply elem_of_map_to_list, list_elem_of_In in Hf.
  destruct (writeFiles _ _ _ _ _ (map_to_list files) fileHeaders newWriter)
    as [tw| |] eqn:Hw; try discriminate.
  clear H. revert Hw Hf. generalize newWriter. generalize (map_to_list files).
  intros entries. induction entries as [|[p' f'] rest IH]; intros tw0; simpl;
    [intros _ []|].
  destruct (fileHeaders !! p') as [header|] eqn:Hh; [|discriminate].
  destruct (WriteHeader tw0 _) as [tw'|]; [|discriminate].
  destruct (Write tw' f') as [tw''|]; [|discriminate].
  intros Hw [E|Hin].
  - injection E as <- _. eauto.
  - now apply (IH tw'').
Qed.

(** X17.  The map [redactMap] returns has a file under exactly the names
    under which the input has one that is not nil. *)
Theorem redactMap_keeps_names :
  forall depth input additionalRedactors result,
    redact depth input additionalRedactors = Some (Ok result) ->
    forall k,
      is_Some (result !! k) <-> exists contents, input !! k = Some (Some contents).
Proof. intros depth input reds result H. now apply (redact_keys depth input reds). Qed.

(** X18.  In the map [redactMap] returns, a file whose name does not end
    in the extension [.tar] is what [redact.Redact] made of it, and an
    archive is what [tarFiles] made of the files of it that [untarFile]
    gave, after [redactMap] on them, with the headers [untarFile] gave. *)
Theorem redactMap_entry_values :
  forall depth input additionalRedactors result,
    redact (S depth) input additionalRedactors = Some (Ok result) ->
    forall k contents,
      input !! k = Some (Some contents) ->
      (path.Ext k <> ".tar" ->
       exists redacted,
         Redact contents k additionalRedactors = inl redacted /\
         result !! k = Some redacted)
      /\ (path.Ext k = ".tar" ->
          exists unRedacted fileHeaders files archive,
            untar contents = Ok (unRedacted, fileHeaders) /\
            redact depth unRedacted additionalRedactors = Some (Ok files) /\
            tarUp files fileHeaders = Ok archive /\
            result !! k = Some (Some archive)).
Proof.
  intros depth input reds result H k contents Hk.
  destruct (redact_ok_lookup _ _ _ _ H) as (depth' & E & L). injection E as <-.
  specialize (L k). rewrite Hk in L. unfold entryValue in L.
  destruct (String.eqb_spec (path.Ext k) ".tar") as [Hext|Hext].
  - split; [intros Hne; now elim Hne|]. intros _.
    destruct (untar contents) as [[u h]| |] eqn:Hu; try discriminate.
    destruct (redact depth u reds) as [[files| |]|] eqn:Hn; try discriminate.
    destruct (tarUp files h) as [archive| |] eqn:Ht; try discriminate.
    injection L as L. exists u, h, files, archive. repeat split; congruence.
  - split; [intros _|intros Heq; now elim Hext].
    destruct (Redact contents k reds) as [redacted|] eqn:Hr; try discriminate.
    injection L as L. exists redacted. split; congruence.
Qed.

(** X19.  An error of [redactMap] is the error of one file of the input:
    of [redact.Redact] on a file that is no archive, or of [untarFile], of
    [redactMap] on its files, or of [tarFiles] on an archive. *)
Theorem redactMap_error_origin :
  forall depth input additionalRedactors e,
    redact (S depth) input additionalRedactors = Some (Err e) ->
    exists k contents,
      input !! k = Some (Some contents) /\
      ((path.Ext k <> ".tar" /\ Redact contents k additionalRedactors = inr e)
       \/ (path.Ext k = ".tar" /\
           (untar contents = Err e
            \/ exists unRedacted fileHeaders,
                 untar contents = Ok (unRedacted, fileHeaders) /\
                 (redact depth unRedacted additionalRedactors = Some (Err e)
                  \/ exists files,
                       redact depth unRedacted additionalRedactors = Some (Ok files) /\
                       tarUp files fileHeaders = Err e)))).
Proof.
  intros depth input reds e H. simpl in H.
  pose proof (redact_loop reds (fun unRedacted => redact depth unRedacted reds) input) as L.
  rewrite H in L. destruct L as (k & v & Hk & Hv).
  unfold entryValue in Hv. destruct v as [contents|]; [|discriminate].
  exists k, contents. split; [exact Hk|].
  destruct (String.eqb_spec (path.Ext k) ".tar") as [Hext|Hext].
  - right. split; [exact Hext|].
    destruct (untar contents) as [[u h]|e'|] eqn:Hu; try discriminate.
    + right. exists u, h. split; [reflexivity|].
      destruct (redact depth u reds) as [[files|e'|]|]; try discriminate.
      * right. exists files. split; [reflexivity|].
        destruct (tarUp files h); try discriminate. now injection Hv as ->.
      * left. now injection Hv as ->.
    + left. now injection Hv as ->.
  - left. split; [exact Hext|].
    destruct (Redact contents k reds); try discriminate. now injection Hv as ->.
Qed.

(** X20.  One file that cannot be redacted is enough for [redactMap] to
    return no map: a file that is no archive on which [redact.Redact] fails,
    or an archive on which [untarFile] fails. *)
Theorem redactMap_all_or_nothing :
  forall depth input additionalRedactors k contents e,
    input !! k = Some (Some contents) ->
    (path.Ext k <> ".tar" /\ Redact contents k additionalRedactors = inr e)
    \/ (path.Ext k = ".tar" /\ untar contents = Err e) ->
    forall result, redact depth input additionalRedactors <> Some (Ok result).
Proof.
  intros depth input reds k contents e Hk Hfail result H.
  destruct (redact_ok_lookup _ _ _ _ H) as (depth' & _ & L).
  specialize (L k). rewrite Hk in L. unfold entryValue in L.
  destruct Hfail as [[Hext Hr]|[Hext Hu]].
  - apply String.eqb_neq in Hext. rewrite Hext, Hr in L. discriminate.
  - apply String.eqb_eq in Hext. rewrite Hext, Hu in L. discriminate.
Qed.

Lemma redact_depth_le depth depth' input reds r :
  (depth <= depth')%nat ->
  redact depth input reds = Some r ->
  redact depth' input reds = Some r.
Proof.
  intros Hle H. induction Hle as [|depth' Hle IH]; [exact H|]. now apply redact_more_depth.
Qed.

(** X21.  [redactMap] returns, and without a panic.  When an archive is
    longer than each file in it, the recursion into archives in archives
    ends: it goes no deeper than the longest file of the input has bytes.
    What is returned is a map or an error, and it is the same however much
    deeper the recursion is allowed to go. *)
Theorem redactMap_returns :
  archivesShrink Header headerName headerIsDir tarRead ->
  forall depth input additionalRedactors,
    (forall k contents, input !! k = Some (Some contents) -> (length contents < depth)%nat) ->
    exists r,
      (forall depth', (S depth <= depth')%nat ->
                      redact depth' input additionalRedactors = Some r)
      /\ ((exists result, r = Ok result) \/ (exists e, r = Err e)).
Proof.
  intros Hshrink depth input reds Hbound.
  destruct (redact (S depth) input reds) as [[result|e|r]|] eqn:H.
  - exists (Ok result). split; [|left; eauto].
    intros depth' Hle. now apply (redact_depth_le (S depth)).
  - exists (Err e). split; [|right; eauto].
    intros depth' Hle. now apply (redact_depth_le (S depth)).
  - now apply redact_no_panic in H.
  - now apply redact_enough_depth in H.
Qed.

(** X22.  [tarFiles] writes an archive only of files that each have a
    header, and it panics only when a file has none. *)
Theorem tarFiles_needs_headers :
  forall (files : gmap string slice) (fileHeaders : gmap string Header),
    (forall archive,
        tarUp files fileHeaders = Ok archive ->
        forall p, is_Some (files !! p) -> is_Some (fileHeaders !! p))
    /\ (forall r,
          tarUp files fileHeaders = Panic r ->
          exists p, is_Some (files !! p) /\ fileHeaders !! p = None).
Proof.
  intros files fileHeaders. split; [apply tarUp_ok_headers|].
  intros r H.
  destruct (decide (map_Forall (fun p _ => is_Some (fileHeaders !! p)) files)) as [Hall|Hnot].
  - exfalso. revert H. apply tarUp_no_panic. intros p [f Hf]. exact (Hall p f Hf).
  - apply map_not_Forall in Hnot; [|apply _].
    destruct Hnot as (p & f & Hf & Hnone). exists p. split; [eauto|].
    destruct (fileHeaders !! p); [elim Hnone; eauto | reflexivity].
Qed.

End RedactionProperties.

(* ===================================================================== *)
(** ** Examples of the further properties                                 *)
(* ===================================================================== *)

(** A node of four CPUs passes the bound of four, one of two does not. *)
Lemma filter_is_conjunction_example :
  @nodeMatchesFilters decimal (cpuNode 4) (Some (cpuAndMemory "4" "")) = Ok true
  /\ @nodeMatchesFilters decimal (cpuNode 2) (Some (cpuAndMemory "4" "")) = Ok false.
Proof.
  assert (Hlabels : forall n, @labelsMatch decimal n (cpuAndMemory "4" "")).
  { intros n selector k v H. discriminate H. }
  split.
  - apply (proj2 (proj1 (@filter_is_conjunction decimal (cpuNode 4) (cpuAndMemory "4" "")))).
    split; [apply Hlabels|].
    apply List.Forall_cons; [right; exists 4; split; [reflexivity | discriminate]|].
    repeat (apply List.Forall_cons; [now left|]). apply List.Forall_nil.
  - apply (proj2 (proj2 (@filter_is_conjunction decimal (cpuNode 2) (cpuAndMemory "4" "")))).
    split; [apply Hlabels|].
    exists [], ("4", 2, "failed to parse cpu capacity"),
           (tl (@thresholdClauses decimal (cpuNode 2) (cpuAndMemory "4" ""))).
    split; [reflexivity|]. split; [apply List.Forall_nil|].
    split; [discriminate|]. exists 4. split; reflexivity.
Defined.

(** Of two nodes, the one of four CPUs is the matching set. *)
Lemma matching_set_is_filter_example :
  @filterNodes decimal [cpuNode 2; cpuNode 4] [] (Some (cpuAndMemory "4" ""))
  = Ok [cpuNode 4].
Proof.
  apply (proj2 (@matching_set_is_filter decimal [cpuNode 2; cpuNode 4] [cpuNode 4]
                  (Some (cpuAndMemory "4" "")))).
  split; [|reflexivity].
  intros node [<-|[<-|[]]]; eexists; reflexivity.
Defined.

(** A filter of empty bounds keeps the node without entries too. *)
Lemma no_constraint_keeps_every_node_example :
  @filterNodes decimal [cpuNode 2; bareNode] [] (Some noFilters) = Ok [cpuNode 2; bareNode].
Proof.
  apply (proj2 (@no_constraint_keeps_every_node decimal [cpuNode 2; bareNode]) noFilters).
  unfold declaresNothing. repeat (split; [reflexivity|]).
  intros selector H. discriminate H.
Defined.

(** The least of four, two and eight CPUs. *)
Lemma findMin_is_least_example :
  @findMin decimal [cpuNode 4; cpuNode 2; cpuNode 8] "cpuCapacity" = Some 2
  /\ forall q', In q' (@quantitiesOf decimal [cpuNode 4; cpuNode 2; cpuNode 8] "cpuCapacity") ->
                cmpZ q' 2 <> -1.
Proof.
  split; [reflexivity|].
  assert (Hc : forall a b, cmpZ a b = -1 <-> a < b).
  { intros a b. unfold cmpZ, Z.lt.
    destruct (Z.compare a b); split; intros H; first [reflexivity | discriminate H]. }
  apply (proj2 (proj2 (@findMin_is_least decimal [cpuNode 4; cpuNode 2; cpuNode 8]
                         "cpuCapacity") 2 eq_refl)).
  split; [|split]; simpl.
  - intros a H. apply Hc in H. lia.
  - intros a b c H1 H2. apply Hc. apply Hc in H1, H2. lia.
  - intros a b c H1 H2 H3. apply Hc in H3.
    destruct (Z.lt_ge_cases a b) as [Hab|Hab]; [now apply H1, Hc|].
    apply H2, Hc. lia.
Defined.

(** The greatest of four, two and eight CPUs. *)
Lemma findMax_is_greatest_example :
  @findMax decimal [cpuNode 4; cpuNode 2; cpuNode 8] "cpuCapacity" = Some 8
  /\ forall q', In q' (@quantitiesOf decimal [cpuNode 4; cpuNode 2; cpuNode 8] "cpuCapacity") ->
                cmpZ q' 8 <> 1.
Proof.
  split; [reflexivity|].
  assert (Hc : forall a b, cmpZ a b = 1 <-> b < a).
  { intros a b. unfold cmpZ. rewrite <- Z.gt_lt_iff. unfold Z.gt.
    destruct (Z.compare a b); split; intros H; first [reflexivity | discriminate H]. }
  apply (proj2 (proj2 (@findMax_is_greatest decimal [cpuNode 4; cpuNode 2; cpuNode 8]
                         "cpuCapacity") 8 eq_refl)).
  split; [|split]; simpl.
  - intros a H. apply Hc in H. lia.
  - intros a b c H1 H2. apply Hc. apply Hc in H1, H2. lia.
  - intros a b c H1 H2 H3. apply Hc in H3.
    destruct (Z.lt_ge_cases b a) as [Hab|Hab]; [now apply H1, Hc|].
    apply H2, Hc. lia.
Defined.

(** The sum over two lists, and over a list in two orders. *)
Lemma findSum_additive_example :
  @findSum decimal ([cpuNode 2; cpuNode 4] ++ [cpuNode 8]) "cpuCapacity"
  = @findSum decimal [cpuNode 2; cpuNode 4] "cpuCapacity"
    + @findSum decimal [cpuNode 8] "cpuCapacity"
  /\ @findSum decimal [cpuNode 2; cpuNode 4] "cpuCapacity"
     = @findSum decimal [cpuNode 4; cpuNode 2] "cpuCapacity".
Proof.
  assert (Hmonoid : @addIsMonoid decimal).
  { split; [|split]; simpl; intros; lia. }
  split.
  - exact (proj1 (@findSum_additive decimal Hmonoid [cpuNode 2; cpuNode 4] [cpuNode 8]
                    "cpuCapacity")).
  - apply (proj2 (@findSum_additive decimal Hmonoid [cpuNode 2; cpuNode 4]
                    [cpuNode 4; cpuNode 2] "cpuCapacity")).
    apply perm_swap.
Defined.

(** The analyzer on a reader that finds every file; and a nil entry behind
    an outcome that is false. *)
Lemma analyze_panics_only_on_nil_outcome_example :
  ((exists result,
       @analyzeNodeResources decimal (snapshot [cpuNode 2] [])
         (ExamplePreflight.plain threeOutcomes) anyFile = Ok result)
   \/ (exists e,
         @analyzeNodeResources decimal (snapshot [cpuNode 2] [])
           (ExamplePreflight.plain threeOutcomes) anyFile = Err e))
  /\ @selectOutcomeRefs decimal
       [Some (fail "count() > 5" "too many"); None; Some (pass "" "fine")]
       [cpuNode 2] 1 (newResult "Node Resources")
     = Panic NilDereference.
Proof.
  destruct (@analyze_panics_only_on_nil_outcome decimal (snapshot [cpuNode 2] []))
    as (Hreturns & _ & Hnil & _).
  split.
  - apply (Hreturns (ExamplePreflight.plain threeOutcomes) anyFile).
    intros file r. discriminate.
  - apply (Hnil [fail "count() > 5" "too many"] [Some (pass "" "fine")] [cpuNode 2] 1
             (newResult "Node Resources")).
    apply List.Forall_cons; [|apply List.Forall_nil].
    right. exists Fail, (single "count() > 5" "too many" ""). split; reflexivity.
Defined.

(** One node and three outcomes: the result carries the warning alone. *)
Lemma analyze_result_shape_example :
  @analyzeNodeResources decimal (snapshot [cpuNode 2] [])
    (ExamplePreflight.plain threeOutcomes) anyFile
  = Ok (decidedBy Warn (single "count() > 0" "some" "") (newResult "Node Resources"))
  /\ atMostOneVerdict
       (decidedBy Warn (single "count() > 0" "some" "") (newResult "Node Resources")).
Proof.
  split; [reflexivity|].
  exact (proj1 (@analyze_result_shape decimal (snapshot [cpuNode 2] [])
                  (ExamplePreflight.plain threeOutcomes) anyFile _ eq_refl)).
Defined.

(** Nothing collected, and a node list that cannot be decoded. *)
Lemma collected_files_are_required_example :
  @analyzeNodeResources decimal (snapshot [cpuNode 2] [])
    (ExamplePreflight.plain threeOutcomes) (getCollectedFileContents None ∅)
  = Err (Wrap (New "file cluster-resources/nodes.json was not collected")
              "failed to get contents of nodes.json")
  /\ @analyzeNodeResources decimal ExamplePreflight.brokenNodes
       (ExamplePreflight.plain threeOutcomes) anyFile
     = Err (Wrap (Foreign "unexpected end of JSON input") "failed to unmarshal node list").
Proof.
  split.
  - apply (proj1 (@collected_files_are_required decimal (snapshot [cpuNode 2] [])
                    (ExamplePreflight.plain threeOutcomes) (getCollectedFileContents None ∅))).
    reflexivity.
  - apply (proj1 (proj1 (proj2 (@collected_files_are_required decimal
                                  ExamplePreflight.brokenNodes
                                  (ExamplePreflight.plain threeOutcomes) anyFile))
                    [] (Foreign "unexpected end of JSON input") eq_refl eq_refl)
             None threeOutcomes).
    reflexivity.
Defined.

(** A conditional with an operator that is not known, before one that is
    true. *)
Lemma outcome_error_stops_selection_example :
  exists e,
    @selectOutcome decimal
      [fail "count() > 5" "too many"; warn "count() != 1" "odd"; pass "" "fine"]
      [cpuNode 2] 1 (newResult "Node Resources")
    = Err (Wrap e "failed to parse when").
Proof.
  eexists.
  apply (@outcome_error_stops_selection decimal
           [fail "count() > 5" "too many"] (warn "count() != 1" "odd") [pass "" "fine"]
           [cpuNode 2] 1 (newResult "Node Resources") Warn (single "count() != 1" "odd" "")).
  - constructor; [|constructor]. right.
    exists Fail, (single "count() > 5" "too many" ""). split; reflexivity.
  - reflexivity.
  - reflexivity.
Defined.

(** A reader that fails on a file the analyzer does not ask for. *)
Lemma analyze_reads_two_files_example :
  @analyzeNodeResources decimal (snapshot [cpuNode 2] [])
    (ExamplePreflight.plain threeOutcomes) anyFile
  = @analyzeNodeResources decimal (snapshot [cpuNode 2] [])
      (ExamplePreflight.plain threeOutcomes)
      (fun file => if String.eqb file "cluster-resources/pods.json"
                   then Err (New "not collected") else Ok []).
Proof.
  apply (@analyze_reads_two_files decimal (snapshot [cpuNode 2] [])
           (ExamplePreflight.plain threeOutcomes)).
  - reflexivity.
  - intros deployment H. discriminate H.
Defined.

(** A file that is in both maps. *)
Lemma reader_prefers_protected_example :
  getCollectedFileContents (Some {["version.json" := [Byte.x31]]})
    {["version.json" := [Byte.x32]]} "version.json"
  = Ok [Byte.x31].
Proof.
  apply (proj1 (proj2 (reader_prefers_protected (Some {["version.json" := [Byte.x31]]})
                         {["version.json" := [Byte.x32]]} "version.json"))).
  reflexivity.
Defined.

(** A node list in [protected], and another one collected behind it. *)
Lemma analyzer_sees_protected_copy_example :
  @analyzeNodeResources decimal (snapshot [cpuNode 2] [])
    (ExamplePreflight.plain threeOutcomes)
    (getCollectedFileContents (Some ExamplePreflight.nodesOnly)
       (<["cluster-resources/nodes.json" := [Byte.x31]]> ∅))
  = @analyzeNodeResources decimal (snapshot [cpuNode 2] [])
      (ExamplePreflight.plain threeOutcomes)
      (getCollectedFileContents (Some ExamplePreflight.nodesOnly) ∅).
Proof.
  apply (proj1 (@analyzer_sees_protected_copy decimal (snapshot [cpuNode 2] [])
                  (ExamplePreflight.plain threeOutcomes)
                  (Some ExamplePreflight.nodesOnly) ∅)).
  eexists. reflexivity.
Defined.

(** Two analyzers on an empty collection: each fails, and each failure is
    one result. *)
Lemma analyze_phase_collects_example :
  Analyze NodeResources.t ExamplePreflight.analyzeAnalyze ExamplePreflight.errorText
    ExamplePreflight.filepathMatch
    [ExamplePreflight.plain threeOutcomes; ExamplePreflight.plain []] ∅ None
  = Ok (flat_map
          (contribution NodeResources.t ExamplePreflight.analyzeAnalyze
             ExamplePreflight.errorText ExamplePreflight.filepathMatch None ∅)
          [ExamplePreflight.plain threeOutcomes; ExamplePreflight.plain []]).
Proof.
  apply (proj1 (proj2 (analyze_phase_collects NodeResources.t ExamplePreflight.analyzeAnalyze
                         ExamplePreflight.errorText ExamplePreflight.filepathMatch
                         [ExamplePreflight.plain threeOutcomes; ExamplePreflight.plain []]
                         ∅ None))).
  intros a [<-|[<-|[]]] r; discriminate.
Defined.

(** The minimum of the CPU capacity. *)
Lemma pattern_reads_function_and_property_example :
  Go.FindStringSubmatch "min(cpuCapacity)" = Some ("min", "cpuCapacity").
Proof.
  apply (proj1 (pattern_reads_function_and_property "min" "cpuCapacity"
                  ltac:(simpl; intuition discriminate)
                  ltac:(simpl; intuition discriminate)
                  ltac:(simpl; intuition discriminate))).
Defined.

(** An archive of a directory and a file, and one that cannot be read. *)
Lemma untarFile_keeps_files_example :
  ExampleArchive.untar [Byte.x02; Byte.x61]
  = Ok ({["inner" := Some [Byte.x61]]}, {["inner" := ExampleArchive.inner]})
  /\ (exists e, ExampleArchive.untar [Byte.x03] = Err e).
Proof.
  split.
  - unfold ExampleArchive.untar.
    rewrite (proj1 (untarFile_keeps_files ExampleArchive.Header ExampleArchive.Name
                      ExampleArchive.IsDir ExampleArchive.tarRead [Byte.x02; Byte.x61])
               eq_refl).
    vm_compute. reflexivity.
  - exact (proj1 (proj2 (untarFile_keeps_files ExampleArchive.Header ExampleArchive.Name
                           ExampleArchive.IsDir ExampleArchive.tarRead [Byte.x03]))
             eq_refl).
Defined.

(** The archive and the text are kept, the nil entry is not. *)
Lemma redactMap_keeps_names_example :
  let redacted : gmap string slice :=
    list_to_map [("logs.tar", Some [Byte.x01; Byte.x2a; Byte.x2a]);
                 ("host.txt", Some [Byte.x2a])] in
  ExampleArchive.redact 2 ExampleArchive.collected [] = Some (Ok redacted)
  /\ is_Some (redacted !! "logs.tar")
  /\ ~ is_Some (redacted !! "empty").
Proof.
  intros redacted.
  assert (H : ExampleArchive.redact 2 ExampleArchive.collected [] = Some (Ok redacted))
    by (vm_compute; reflexivity).
  pose proof (redactMap_keeps_names unit ExampleArchive.Redact ExampleArchive.Header
                ExampleArchive.Name ExampleArchive.IsDir ExampleArchive.setSize
                ExampleArchive.tarRead bytes [] ExampleArchive.WriteHeader
                ExampleArchive.Write ExampleArchive.Close
                2 ExampleArchive.collected [] redacted H) as Hkeys.
  split; [exact H|]. split.
  - apply (proj2 (Hkeys "logs.tar")). eexists. vm_compute. reflexivity.
  - intros Hsome. apply (proj1 (Hkeys "empty")) in Hsome.
    destruct Hsome as [contents Hc]. vm_compute in Hc. discriminate Hc.
Defined.

(** The text is redacted as it is; the archive is opened, its file is
    redacted, and it is written again. *)
Lemma redactMap_entry_values_example :
  let redacted : gmap string slice :=
    list_to_map [("logs.tar", Some [Byte.x01; Byte.x2a; Byte.x2a]);
                 ("host.txt", Some [Byte.x2a])] in
  (exists text,
      ExampleArchive.Redact [Byte.x63] "host.txt" [] = inl text /\
      redacted !! "host.txt" = Some text)
  /\ (exists unRedacted fileHeaders files archive,
        ExampleArchive.untar [Byte.x01; Byte.x61; Byte.x62] = Ok (unRedacted, fileHeaders) /\
        ExampleArchive.redact 1 unRedacted [] = Some (Ok files) /\
        ExampleArchive.tarUp files fileHeaders = Ok archive /\
        redacted !! "logs.tar" = Some (Some archive)).
Proof.
  intros redacted.
  assert (H : ExampleArchive.redact 2 ExampleArchive.collected [] = Some (Ok redacted))
    by (vm_compute; reflexivity).
  pose proof (redactMap_entry_values unit ExampleArchive.Redact ExampleArchive.Header
                ExampleArchive.Name ExampleArchive.IsDir ExampleArchive.setSize
                ExampleArchive.tarRead bytes [] ExampleArchive.WriteHeader
                ExampleArchive.Write ExampleArchive.Close
                1 ExampleArchive.collected [] redacted H) as Hvalues.
  split.
  - apply (proj1 (Hvalues "host.txt" [Byte.x63] ltac:(vm_compute; reflexivity))).
    vm_compute. discriminate.
  - apply (proj2 (Hvalues "logs.tar" [Byte.x01; Byte.x61; Byte.x62]
                    ltac:(vm_compute; reflexivity))).
    vm_compute. reflexivity.
Defined.

(** The error of the redaction of the file [locked]. *)
Lemma redactMap_error_origin_example :
  ExampleArchive.redact 1 ExampleArchive.withLocked [] = Some (Err (Foreign "cannot redact"))
  /\ exists k contents,
       ExampleArchive.withLocked !! k = Some (Some contents) /\
       (ExampleArchive.Redact contents k [] = inr (Foreign "cannot redact")
        \/ path.Ext k = ".tar").
Proof.
  assert (H : ExampleArchive.redact 1 ExampleArchive.withLocked []
              = Some (Err (Foreign "cannot redact")))
    by (vm_compute; reflexivity).
  split; [exact H|].
  destruct (redactMap_error_origin unit ExampleArchive.Redact ExampleArchive.Header
              ExampleArchive.Name ExampleArchive.IsDir ExampleArchive.setSize
              ExampleArchive.tarRead bytes [] ExampleArchive.WriteHeader
              ExampleArchive.Write ExampleArchive.Close
              0 ExampleArchive.withLocked [] (Foreign "cannot redact") H)
    as (k & contents & Hk & [[_ Hr]|[Hext _]]);
    exists k, contents; (split; [exact Hk|]); [left; exact Hr | right; exact Hext].
Defined.

(** With the file [locked] in the input, no map is returned. *)
Lemma redactMap_all_or_nothing_example :
  ExampleArchive.withLocked !! "locked" = Some (Some [Byte.x64])
  /\ ExampleArchive.Redact [Byte.x64] "locked" [] = inr (Foreign "cannot redact")
  /\ ~ (exists result,
          ExampleArchive.redact 3 ExampleArchive.withLocked [] = Some (Ok result)).
Proof.
  split; [vm_compute; reflexivity|]. split; [reflexivity|].
  intros [result H]. revert H.
  apply (redactMap_all_or_nothing unit ExampleArchive.Redact ExampleArchive.Header
           ExampleArchive.Name ExampleArchive.IsDir ExampleArchive.setSize
           ExampleArchive.tarRead bytes [] ExampleArchive.WriteHeader
           ExampleArchive.Write ExampleArchive.Close
           3 ExampleArchive.withLocked [] "locked" [Byte.x64] (Foreign "cannot redact")).
  - vm_compute. reflexivity.
  - left. split; [vm_compute; discriminate | reflexivity].
Defined.

(** In the small format a file is shorter than its archive, and the longest
    file of the input has three bytes. *)
Lemma redactMap_returns_example :
  archivesShrink ExampleArchive.Header ExampleArchive.Name ExampleArchive.IsDir
    ExampleArchive.tarRead
  /\ exists r,
       (forall depth', (5 <= depth')%nat ->
                       ExampleArchive.redact depth' ExampleArchive.collected [] = Some r)
       /\ ((exists result, r = Ok result) \/ (exists e, r = Err e)).
Proof.
  assert (Hshrink : archivesShrink ExampleArchive.Header ExampleArchive.Name
                      ExampleArchive.IsDir ExampleArchive.tarRead).
  { intros archive files fileHeaders p data Hu Hp.
    unfold untarFile, ExampleArchive.tarRead in Hu.
    destruct archive as [|first rest].
    - cbn [untarEntries] in Hu. injection Hu as <- _.
      rewrite lookup_empty in Hp. discriminate Hp.
    - assert (Hinner : files = <["inner" := Some rest]> ∅).
      { destruct (Byte.eqb first Byte.x01); [|destruct (Byte.eqb first Byte.x02)];
          cbn [untarEntries ExampleArchive.IsDir ExampleArchive.inner ExampleArchive.dir
               ExampleArchive.Name] in Hu;
          first [discriminate Hu | now injection Hu as <- _]. }
      subst files. destruct (decide (p = "inner")) as [->|Hne].
      + rewrite lookup_insert_eq in Hp. injection Hp as <-. simpl. lia.
      + rewrite lookup_insert_ne, lookup_empty in Hp by congruence. discriminate Hp. }
  split; [exact Hshrink|]. unfold ExampleArchive.redact.
  apply (redactMap_returns unit ExampleArchive.Redact ExampleArchive.Header
           ExampleArchive.Name ExampleArchive.IsDir ExampleArchive.setSize
           ExampleArchive.tarRead bytes [] ExampleArchive.WriteHeader
           ExampleArchive.Write ExampleArchive.Close
           Hshrink 4 ExampleArchive.collected []).
  intros k contents Hk.
  unfold ExampleArchive.collected in Hk.
  rewrite !list_to_map_cons, list_to_map_nil in Hk.
  repeat (apply lookup_insert_Some in Hk; destruct Hk as [[_ E]|[_ Hk]];
          [first [discriminate E | (injection E as <-; simpl; lia)]|]).
  rewrite lookup_empty in Hk. discriminate Hk.
Defined.

(** A file without a header. *)
Lemma tarFiles_needs_headers_example :
  ExampleArchive.tarUp {["inner" := Some [Byte.x61]]} ∅ = Panic NilDereference
  /\ exists p,
       is_Some (({["inner" := Some [Byte.x61]]} : gmap string slice) !! p) /\
       (∅ : gmap string ExampleArchive.Header) !! p = None.
Proof.
  split; [vm_compute; reflexivity|].
  apply (proj2 (tarFiles_needs_headers ExampleArchive.Header ExampleArchive.setSize bytes []
                  ExampleArchive.WriteHeader ExampleArchive.Write ExampleArchive.Close
                  {["inner" := Some [Byte.x61]]} ∅) NilDereference).
  vm_compute. reflexivity.
Defined.
